(** * EndesaHunter: a shallow embedding of [src/lib/EndesaHunter.ts]

    The class drives a headless browser through the Endesa customer portal,
    finds the invoice rows issued after [lastInvoiceDate], downloads each
    one and renames it after its issue date.

    The embedding follows the class method by method.  The browser, the
    file system and the reporter are collaborators of the class: the first
    two are an interface ([Driver]) over an abstract world, the reporter is
    a sink whose calls are recorded in the trace of the object.  The
    [moment] calls the class makes (parsing a label, formatting a date) are
    parameters of the embedding; [isBefore] is defined on the model of a
    [Moment] value.  Asynchronous functions become state-passing functions
    with three outcomes: a value, a raised error, or no answer within the
    given number of polling rounds. *)

From Stdlib Require Import ZArith List String Ascii Bool Arith Lia.
From Stdlib Require Import DecimalString.
Import ListNotations.
Local Open Scope string_scope.

Set Implicit Arguments.

(* ===================================================================== *)
(** ** JavaScript strings *)
(* ===================================================================== *)

Module Js.

(** [String(n)] for a non-negative integer, as template literals
    print it. *)
Definition ofNat (n : nat) : string := NilZero.string_of_uint (Nat.to_uint n).

(** White space as [String.prototype.trim] knows it: the characters of
    [WhiteSpace] and [LineTerminator].  A string is the sequence of its
    UTF-8 bytes, so the white space of ASCII (space, tab, line feed,
    vertical tab, form feed, carriage return) takes one byte, U+00A0 two
    and the others three. *)
Definition isSpace (c : ascii) : bool :=
  match nat_of_ascii c with
  | 32 | 9 | 10 | 11 | 12 | 13 => true
  | _ => false
  end.

(** U+00A0, by its two bytes. *)
Definition isSpace2 (a b : ascii) : bool :=
  (nat_of_ascii a =? 194)%nat && (nat_of_ascii b =? 160)%nat.

(** U+1680, U+2000 to U+200A, U+2028, U+2029, U+202F, U+205F, U+3000 and
    U+FEFF, by their three bytes. *)
Definition isSpace3 (a b c : ascii) : bool :=
  let x := nat_of_ascii a in
  let y := nat_of_ascii b in
  let z := nat_of_ascii c in
  ((x =? 225) && (y =? 154) && (z =? 128))%nat
  || ((x =? 226) && (y =? 128)
      && (((128 <=? z) && (z <=? 138)) || (z =? 168) || (z =? 169) || (z =? 175)))%nat
  || ((x =? 226) && (y =? 129) && (z =? 159))%nat
  || ((x =? 227) && (y =? 128) && (z =? 128))%nat
  || ((x =? 239) && (y =? 187) && (z =? 191))%nat.

(** Drops the white space a string starts with; [two] and [three] tell
    the characters of two and of three bytes. *)
Fixpoint strip (two : ascii -> ascii -> bool) (three : ascii -> ascii -> ascii -> bool)
         (s : string) : string :=
  match s with
  | String a r =>
      if isSpace a then strip two three r
      else
        match r with
        | String b r2 =>
            if two a b then strip two three r2
            else
              match r2 with
              | String c r3 => if three a b c then strip two three r3 else s
              | EmptyString => s
              end
        | EmptyString => s
        end
  | EmptyString => EmptyString
  end.

Fixpoint reverseOnto (s acc : string) : string :=
  match s with
  | String c r => reverseOnto r (String c acc)
  | EmptyString => acc
  end.

Definition reverse (s : string) : string := reverseOnto s EmptyString.

Definition trimStart (s : string) : string := strip isSpace2 isSpace3 s.

(** The same from the end, where the bytes of a character come last one
    first. *)
Definition trimEnd (s : string) : string :=
  reverse (strip (fun b a => isSpace2 a b) (fun c b a => isSpace3 a b c) (reverse s)).

Definition trim (s : string) : string := trimEnd (trimStart s).

Fixpoint lastChar (s : string) : option ascii :=
  match s with
  | EmptyString => None
  | String c EmptyString => Some c
  | String _ r => lastChar r
  end.

Definition firstChar (s : string) : option ascii :=
  match s with
  | EmptyString => None
  | String c _ => Some c
  end.

Definition isSlash (c : ascii) : bool := Ascii.eqb c "/"%char.

(** [s.split("/")]. *)
Fixpoint splitSlash (s : string) : list string :=
  match s with
  | EmptyString => [EmptyString]
  | String c r =>
      if isSlash c then EmptyString :: splitSlash r
      else match splitSlash r with
           | seg :: rest => String c seg :: rest
           | [] => [String c EmptyString]
           end
  end.

(** [segs.join("/")]. *)
Fixpoint joinSlash (segs : list string) : string :=
  match segs with
  | [] => EmptyString
  | [s] => s
  | s :: rest => s ++ "/" ++ joinSlash rest
  end.

End Js.

(* ===================================================================== *)
(** ** Node's [path.join] (POSIX flavour) *)
(* ===================================================================== *)

Module Path.

(** One step of [normalizeString]: the stack holds the segments kept so
    far, last one first. *)
Definition pushSegment (allowAboveRoot : bool) (stack : list string)
           (seg : string) : list string :=
  if String.eqb seg "" then stack
  else if String.eqb seg "." then stack
  else if String.eqb seg ".." then
    match stack with
    | top :: below =>
        if String.eqb top ".." then seg :: stack else below
    | [] => if allowAboveRoot then [seg] else []
    end
  else seg :: stack.

Definition normalizeString (path : string) (allowAboveRoot : bool) : string :=
  Js.joinSlash (rev (fold_left (pushSegment allowAboveRoot)
                               (Js.splitSlash path) [])).

Definition endsWithSlash (path : string) : bool :=
  match Js.lastChar path with
  | Some c => Js.isSlash c
  | None => false
  end.

Definition startsWithSlash (path : string) : bool :=
  match Js.firstChar path with
  | Some c => Js.isSlash c
  | None => false
  end.

Definition normalize (path : string) : string :=
  if String.eqb path "" then "."
  else
    let isAbsolute := startsWithSlash path in
    let trailingSeparator := endsWithSlash path in
    let p := normalizeString path (negb isAbsolute) in
    if String.eqb p "" then
      (if isAbsolute then "/" else if trailingSeparator then "./" else ".")
    else
      let p' := if trailingSeparator then p ++ "/" else p in
      if isAbsolute then "/" ++ p' else p'.

(** The non-empty arguments glued with ["/"], [None] when there is
    none. *)
Fixpoint glue (args : list string) : option string :=
  match args with
  | [] => None
  | arg :: rest =>
      if String.eqb arg "" then glue rest
      else match glue rest with
           | Some tail => Some (arg ++ "/" ++ tail)
           | None => Some arg
           end
  end.

Definition join (args : list string) : string :=
  match glue args with
  | Some joined => normalize joined
  | None => "."
  end.

End Path.

(* ===================================================================== *)
(** ** The [moment] values the class handles *)
(* ===================================================================== *)

Module Moment.

(** A [Moment]: the instant in milliseconds since the epoch ([valueOf()];
    [None] stands for the [NaN] of an invalid date) and the locale it
    formats with. *)
Record t : Type := mk { valueOf : option Z; localeOf : string }.

Definition isValid (m : t) : bool :=
  match valueOf m with Some _ => true | None => false end.

(** [m.locale(key)] *)
Definition locale (key : string) (m : t) : t := mk (valueOf m) key.

(** [a.isBefore(b)]: false as soon as one side is invalid, the strict
    order of the instants otherwise. *)
Definition isBefore (a b : t) : bool :=
  match valueOf a, valueOf b with
  | Some x, Some y => (x <? y)%Z
  | _, _ => false
  end.

Definition invalid (loc : string) : t := mk None loc.

(** *** Calendar arithmetic (proleptic Gregorian) *)

Local Open Scope Z_scope.

Definition msPerDay : Z := 86400000.

Definition daysFromCivil (y m d : Z) : Z :=
  let y' := if m <=? 2 then y - 1 else y in
  let era := y' / 400 in
  let yoe := y' - era * 400 in
  let mp := if 2 <? m then m - 3 else m + 9 in
  let doy := (153 * mp + 2) / 5 + d - 1 in
  let doe := yoe * 365 + yoe / 4 - yoe / 100 + doy in
  era * 146097 + doe - 719468.

Definition civilFromDays (days : Z) : Z * Z * Z :=
  let z := days + 719468 in
  let era := z / 146097 in
  let doe := z - era * 146097 in
  let yoe := (doe - doe / 1460 + doe / 36524 - doe / 146096) / 365 in
  let doy := doe - (365 * yoe + yoe / 4 - yoe / 100) in
  let mp := (5 * doy + 2) / 153 in
  let d := doy - (153 * mp + 2) / 5 + 1 in
  let m := if mp <? 10 then mp + 3 else mp - 9 in
  let y := yoe + era * 400 in
  ((if m <=? 2 then y + 1 else y), m, d).

Definition isLeap (y : Z) : bool :=
  ((y mod 4 =? 0) && negb (y mod 100 =? 0)) || (y mod 400 =? 0).

Definition daysInMonth (y m : Z) : Z :=
  if m =? 2 then (if isLeap y then 29 else 28)
  else if (m =? 4) || (m =? 6) || (m =? 9) || (m =? 11) then 30
  else 31.

(** *** Local time

    [moment(text, format)] reads a date as local time and [m.format]
    prints local time.  The time zone of the process is given by [zone],
    the milliseconds its clocks are ahead of UTC at the instant at hand
    (3600000 in Madrid in winter). *)

(** The day, counted from the epoch, that local clocks show at [ms]. *)
Definition localDay (zone ms : Z) : Z := (ms + zone) / msPerDay.

(** Local midnight of a calendar day. *)
Definition ofDate (zone : Z) (y m d : Z) (loc : string) : t :=
  mk (Some (daysFromCivil y m d * msPerDay - zone)) loc.

Local Close Scope Z_scope.

(** *** Formatting: the tokens [YYYY], [YY], [MM], [M], [DD], [D]

    [format] answers for an English date and a pattern made of these
    tokens and of printable characters that are neither letters nor
    brackets nor a backslash, which [moment] copies; it gives no answer
    ([None]) for any other pattern (other tokens such as [MMM], [DDD],
    [Y] or [Do], escaped text, the empty pattern, which stands for the ISO
    format), for a year beyond four digits and for a locale other than
    [en], which may print other digits. *)

Definition digit (n : Z) : ascii := ascii_of_nat (48 + Z.to_nat n).

Definition pad2 (n : Z) : string :=
  String (digit ((n / 10) mod 10)) (String (digit (n mod 10)) EmptyString).

Definition pad4 (n : Z) : string :=
  String (digit ((n / 1000) mod 10))
    (String (digit ((n / 100) mod 10)) (pad2 n)).

Definition ofZ (n : Z) : string := Js.ofNat (Z.to_nat n).

Definition isLetter (c : ascii) : bool :=
  let n := nat_of_ascii c in
  ((65 <=? n) && (n <=? 90))%nat || ((97 <=? n) && (n <=? 122))%nat.

Definition isDigit (c : ascii) : bool :=
  let n := nat_of_ascii c in ((48 <=? n) && (n <=? 57))%nat.

(** A printable character that a pattern holds for itself. *)
Definition isLiteral (c : ascii) : bool :=
  let n := nat_of_ascii c in
  ((32 <=? n) && (n <=? 126))%nat && negb (isLetter c)
  && negb ((n =? 91) || (n =? 92) || (n =? 93))%nat.

(** The letters equal to [c] that [s] starts with: how many, and what
    follows them. *)
Fixpoint sameLetters (c : ascii) (s : string) : nat * string :=
  match s with
  | String c' r =>
      if Ascii.eqb c c' then let (n, rest) := sameLetters c r in (S n, rest) else (O, s)
  | EmptyString => (O, s)
  end.

(** What the token made of [n] letters [c] prints. *)
Definition token (y m d : Z) (c : ascii) (n : nat) : option string :=
  if Ascii.eqb c "Y" then
    match n with
    | 2 => Some (pad2 (y mod 100))
    | 4 => Some (pad4 y)
    | _ => None
    end
  else if Ascii.eqb c "M" then
    match n with
    | 1 => Some (ofZ m)
    | 2 => Some (pad2 m)
    | _ => None
    end
  else if Ascii.eqb c "D" then
    match n with
    | 1 => Some (ofZ d)
    | 2 => Some (pad2 d)
    | _ => None
    end
  else None.

Fixpoint formatPattern (fuel : nat) (y m d : Z) (pat : string) : option string :=
  match fuel with
  | O => None
  | S fuel' =>
      match pat with
      | EmptyString => Some EmptyString
      | String c r =>
          if isLetter c then
            let (n, rest) := sameLetters c pat in
            match token y m d c n, formatPattern fuel' y m d rest with
            | Some printed, Some more => Some (printed ++ more)
            | _, _ => None
            end
          else if isLiteral c then
            match formatPattern fuel' y m d r with
            | Some more => Some (String c more)
            | None => None
            end
          else None
      end
  end.

(** [m.format(pattern)] in the zone [zone]; an invalid date prints as
    ["Invalid date"]. *)
Definition format (zone : Z) (m : t) (pattern : string) : option string :=
  if String.eqb (localeOf m) "en" then
    match valueOf m with
    | None => Some "Invalid date"
    | Some ms =>
        let '(y, mo, d) := civilFromDays (localDay zone ms) in
        if String.eqb pattern "" then None
        else if ((0 <=? y) && (y <=? 9999))%Z
             then formatPattern (S (String.length pattern)) y mo d pattern
             else None
    end
  else None.

(** *** Parsing: day, month and year in digits

    [parse] answers for a pattern made of the tokens [DD], [MM], [YYYY]
    (each of them present) and of separators, in two cases: a label
    without any digit, which [moment] reports as an invalid date, and a
    label that follows the pattern digit by digit, which is the local
    midnight of that day or an invalid date when there is no such day.
    It gives no answer ([None]) for any other label: [moment] reads
    labels that only resemble the pattern too (other separators, a year
    of two digits, text around the date) and fills the fields a label
    lacks from the clock.  [moment] never raises on a label it cannot
    read. *)

Definition digitValue (c : ascii) : option Z :=
  let n := nat_of_ascii c in
  if (48 <=? n)%nat && (n <=? 57)%nat then Some (Z.of_nat (n - 48)) else None.

(** Reads exactly [n] digits. *)
Fixpoint readDigits (n : nat) (acc : Z) (s : string) : option (Z * string) :=
  match n with
  | O => Some (acc, s)
  | S n' =>
      match s with
      | String c r =>
          match digitValue c with
          | Some v => readDigits n' (acc * 10 + v)%Z r
          | None => None
          end
      | EmptyString => None
      end
  end.

Fixpoint hasDigit (s : string) : bool :=
  match s with
  | String c r => isDigit c || hasDigit r
  | EmptyString => false
  end.

Inductive item : Type := Year | Month | Day | Separator (c : ascii).

(** The tokens and separators of a pattern, [None] when it holds
    anything else. *)
Fixpoint items (fuel : nat) (pat : string) : option (list item) :=
  match fuel with
  | O => None
  | S fuel' =>
      match pat with
      | EmptyString => Some []
      | String c r =>
          if isLetter c then
            let (n, rest) := sameLetters c pat in
            let field :=
              if Ascii.eqb c "Y" then match n with 4 => Some Year | _ => None end
              else if Ascii.eqb c "M" then match n with 2 => Some Month | _ => None end
              else if Ascii.eqb c "D" then match n with 2 => Some Day | _ => None end
              else None in
            match field, items fuel' rest with
            | Some f, Some more => Some (f :: more)
            | _, _ => None
            end
          else if isLiteral c && negb (isDigit c) then
            match items fuel' r with
            | Some more => Some (Separator c :: more)
            | None => None
            end
          else None
      end
  end.

Record fields : Type := mkFields { fy : option Z; fm : option Z; fd : option Z }.

(** Reads a label item by item; nothing may be left of it. *)
Fixpoint readItems (its : list item) (input : string) (acc : fields) : option fields :=
  match its with
  | [] => match input with EmptyString => Some acc | _ => None end
  | Year :: rest =>
      match readDigits 4 0 input with
      | Some (v, input') => readItems rest input' (mkFields (Some v) (fm acc) (fd acc))
      | None => None
      end
  | Month :: rest =>
      match readDigits 2 0 input with
      | Some (v, input') => readItems rest input' (mkFields (fy acc) (Some v) (fd acc))
      | None => None
      end
  | Day :: rest =>
      match readDigits 2 0 input with
      | Some (v, input') => readItems rest input' (mkFields (fy acc) (fm acc) (Some v))
      | None => None
      end
  | Separator c :: rest =>
      match input with
      | String c' input' => if Ascii.eqb c c' then readItems rest input' acc else None
      | EmptyString => None
      end
  end.

Definition isField (f : item) (it : item) : bool :=
  match f, it with
  | Year, Year | Month, Month | Day, Day => true
  | _, _ => false
  end.

(** [moment(label, pattern, loc)] in the zone [zone]. *)
Definition parse (zone : Z) (label pattern loc : string) : option t :=
  match items (S (String.length pattern)) pattern with
  | Some its =>
      if existsb (isField Year) its && existsb (isField Month) its
         && existsb (isField Day) its
      then
        if hasDigit label then
          match readItems its label (mkFields None None None) with
          | Some (mkFields (Some y) (Some m) (Some d)) =>
              Some (if ((1 <=? m) && (m <=? 12) && (1 <=? d) && (d <=? daysInMonth y m))%Z
                    then ofDate zone y m d loc
                    else invalid loc)
          | _ => None
          end
        else Some (invalid loc)
      else None
  | None => None
  end.

End Moment.

(* ===================================================================== *)
(** ** Outcomes of an asynchronous call *)
(* ===================================================================== *)

(** What a rejected promise carries: an [Error] and its message. *)
Record Error : Type := mkError { message : string }.

(** Result of a collaborator's operation on its world [W]. *)
Inductive Res (W A : Type) : Type :=
| Ok (a : A) (w : W)
| Err (e : Error) (w : W).
Arguments Ok {W A} a w.
Arguments Err {W A} e w.

(** Result of a method of the class on the state [S] of the object: the
    promise resolves, rejects, or is still pending when the polling
    rounds allowed to [waitUntilFileIsDownloaded] are used up. *)
Inductive Outcome (S A : Type) : Type :=
| Ret (a : A) (s : S)
| Throw (e : Error) (s : S)
| Pending.
Arguments Ret {S A} a s.
Arguments Throw {S A} e s.
Arguments Pending {S A}.

Definition M (S A : Type) : Type := S -> Outcome S A.

Definition ret {S A} (a : A) : M S A := fun s => Ret a s.

Definition throw {S A} (e : Error) : M S A := fun s => Throw e s.

Definition bind {S A B} (m : M S A) (k : A -> M S B) : M S B :=
  fun s =>
    match m s with
    | Ret a s' => k a s'
    | Throw e s' => Throw e s'
    | Pending => Pending
    end.

(** [try { body } catch (e) { handler }] *)
Definition tryCatch {S A} (body : M S A) (handler : Error -> M S A) : M S A :=
  fun s =>
    match body s with
    | Ret a s' => Ret a s'
    | Throw e s' => handler e s'
    | Pending => Pending
    end.

Declare Scope hunter_scope.
Delimit Scope hunter_scope with hunter.
Notation "x <- m ;; k" := (bind m (fun x => k))
  (at level 61, m at next level, right associativity) : hunter_scope.
Notation "m ;; k" := (bind m (fun _ => k))
  (at level 61, right associativity) : hunter_scope.

Definition isRet {S A} (o : Outcome S A) : bool :=
  match o with Ret _ _ => true | _ => false end.

Definition isThrow {S A} (o : Outcome S A) : bool :=
  match o with Throw _ _ => true | _ => false end.

(* ===================================================================== *)
(** ** Data of the class *)
(* ===================================================================== *)

Definition Browser : Type := nat.
Definition Page : Type := nat.
Definition ElementHandle : Type := nat.

(** [type ProcessedRow = { date: Moment; selector: string; rawDate: string }] *)
Record ProcessedRow : Type := mkRow {
  selector : string;
  date : Moment.t;
  rawDate : string
}.

(** [config/endesa-config]: the static description of the portal.  The
    module is not part of the sources at hand, so its values are a
    parameter of everything below. *)
Record Routes : Type := mkRoutes { routeLogin : string; routeInvoices : string }.

Record Selectors : Type := mkSelectors {
  loginUsername : string;
  loginPassword : string;
  loginSubmitButton : string;
  acceptCookiesButton : string;
  invoicesListItems : string;
  invoicesDateCell : string;
  invoicesActionCell : string;
  invoicesActionButton : string;
  invoiceContent : string;
  invoiceDownloadButton : string
}.

Record EndesaConfig : Type := mkEndesaConfig {
  cfgBaseRoute : string;
  cfgRoutes : Routes;
  cfgSelectors : Selectors;
  cfgLocale : string;
  cfgDateFormat : string;
  cfgInvoiceName : string;
  cfgInvoiceExtension : string
}.

(** [HuntConfig]: what the caller configures. *)
Record HuntConfig : Type := mkHuntConfig {
  username : string;
  password : string;
  invoiceNameFormat : option string
}.

(** [Args] of the constructor; the reporter is the trace of the object. *)
Record Args : Type := mkArgs {
  argConfig : HuntConfig;
  argDownloadDir : string;
  argLastInvoiceDate : Moment.t
}.

(** The read-only fields of an [EndesaHunter]. *)
Record Hunter : Type := mkHunter {
  locale : string;
  downloadDir : string;
  pageUsername : string;
  pagePassword : string;
  lastInvoiceDate : Moment.t;
  invoiceDateFormat : string;
  routes : Routes;
  selectors : Selectors;
  rootPath : string;
  pageLocale : string;
  pageDateFormat : string;
  pageInvoiceName : string;
  pageInvoiceExtension : string
}.

(** Levels of the reporter: [reporter[type](msg)]. *)
Inductive Level : Type := info | warn | error | success | log.

(** What the object asks of its collaborators, in the order it asks. *)
Inductive Event : Type :=
| Report (type : Level) (msg : string)
| ReportWithFilepath (label path : string) (type : option Level)
| ReportProgress (total : nat)
| ReportTick
| Launch
| NewPage (b : Browser)
| Goto (p : Page) (url : string)
| TypeText (p : Page) (sel text : string)
| Click (p : Page) (sel : string)
| WaitForNavigation (p : Page)
| WaitForTimeout (p : Page) (ms : Z)
| WaitForSelector (p : Page) (sel : string) (visible : bool)
| QueryAll (p : Page) (sel : string)
| ExtractText (p : Page) (sel : string)
| SetDownloadBehavior (p : Page) (downloadPath : string)
| ClosePage (p : Page)
| CloseBrowser (b : Browser)
| PathExists (path : string)
| Rename (oldPath newPath : string).

(** The browser-automation and file-system capabilities.  Every operation
    may reject except [waitForTimeout], which is a timer, and
    [pathExists], which answers [false] where [fs.access] fails. *)
Record Driver (W : Type) : Type := mkDriver {
  drvLaunch : W -> Res W Browser;
  drvNewPage : Browser -> W -> Res W Page;
  drvGoto : Page -> string -> W -> Res W unit;
  drvType : Page -> string -> string -> W -> Res W unit;
  drvClick : Page -> string -> W -> Res W unit;
  drvWaitForNavigation : Page -> W -> Res W unit;
  drvWaitForTimeout : Page -> Z -> W -> W;
  drvWaitForSelector : Page -> string -> bool -> W -> Res W unit;
  drvQueryAll : Page -> string -> W -> Res W (list ElementHandle);
  (** Modelled from the spec: [extractTextFromElement] of [utils/page] is
      not among the sources; the capability is [extractText(selector) ->
      string], which may reject. *)
  drvExtractText : Page -> string -> W -> Res W string;
  drvSetDownloadBehavior : Page -> string -> W -> Res W unit;
  drvClosePage : Page -> W -> Res W unit;
  drvCloseBrowser : Browser -> W -> Res W unit;
  fsPathExists : string -> W -> bool;
  fsRename : string -> string -> W -> Res W unit
}.

(** The libraries and constants the class reads besides the driver. *)
Record Env (W : Type) : Type := mkEnv {
  driver : Driver W;
  (** [moment(text, format, locale)]; never raises, an unreadable text
      gives an invalid date. *)
  momentParse : string -> string -> string -> Moment.t;
  (** [m.format(pattern)] *)
  momentFormat : Moment.t -> string -> string;
  (** [reporter.seperator] *)
  seperator : string
}.

(** The object at run time: the world of its collaborators, the calls made
    so far and the mutable fields. *)
Record State (W : Type) : Type := mkState {
  world : W;
  trace : list Event;
  rowsToProcess : list ProcessedRow;
  browser : option Browser;
  page : option Page
}.

(** What [downloadInvoices] resolves to. *)
Record Counts : Type := mkCounts { total : nat; downloaded : nat }.

(** [new EndesaHunter({ config, reporter, downloadDir, lastInvoiceDate })] *)
Definition constructor (E : EndesaConfig) (a : Args) : Hunter :=
  {| locale := "en";
     downloadDir := Path.join [argDownloadDir a; "/endesa/"];
     pageUsername := username (argConfig a);
     pagePassword := password (argConfig a);
     lastInvoiceDate := argLastInvoiceDate a;
     invoiceDateFormat :=
       match invoiceNameFormat (argConfig a) with
       | Some f => f
       | None => "DD-MM-YY"
       end;
     routes := cfgRoutes E;
     selectors := cfgSelectors E;
     rootPath := cfgBaseRoute E;
     pageLocale := cfgLocale E;
     pageDateFormat := cfgDateFormat E;
     pageInvoiceName := cfgInvoiceName E;
     pageInvoiceExtension := cfgInvoiceExtension E |}.

(** The mutable fields right after construction, over a world [w]. *)
Definition fresh {W} (w : W) : State W :=
  {| world := w; trace := []; rowsToProcess := []; browser := None; page := None |}.

(* ===================================================================== *)
(** ** The methods *)
(* ===================================================================== *)

Section Methods.

Variable W : Type.
Variable env : Env W.
Variable this : Hunter.

Local Open Scope hunter_scope.

Let St := State W.
Let D := driver env.

Definition record (ev : Event) (st : St) : St :=
  mkState (world st) (trace st ++ [ev]) (rowsToProcess st) (browser st) (page st).

Definition withWorld (w : W) (st : St) : St :=
  mkState w (trace st) (rowsToProcess st) (browser st) (page st).

(** A call to a collaborator: noted, then performed. *)
Definition call {A} (ev : Event) (op : W -> Res W A) : M St A :=
  fun st =>
    match op (world st) with
    | Ok a w => Ret a (record ev (withWorld w st))
    | Err e w => Throw e (record ev (withWorld w st))
    end.

(** [this.page?.method(...)]: nothing happens without a page. *)
Definition onPage (method : Page -> M St unit) : M St unit :=
  fun st =>
    match page st with
    | Some p => method p st
    | None => Ret tt st
    end.

Definition setRowsToProcess (rows : list ProcessedRow) : M St unit :=
  fun st => Ret tt (mkState (world st) (trace st) rows (browser st) (page st)).

Definition setBrowser (b : Browser) : M St unit :=
  fun st => Ret tt (mkState (world st) (trace st) (rowsToProcess st) (Some b) (page st)).

Definition setPage (p : Page) : M St unit :=
  fun st => Ret tt (mkState (world st) (trace st) (rowsToProcess st) (browser st) (Some p)).

(** [private print(msg, type = "info")] *)
Definition print (msg : string) (type : Level) : M St unit :=
  fun st => Ret tt (record (Report type msg) st).

Definition printWithFilepath (label path : string) (type : option Level)
  : M St unit :=
  fun st => Ret tt (record (ReportWithFilepath label path type) st).

Definition goto (p : Page) (url : string) : M St unit :=
  call (Goto p url) (drvGoto D p url).

Definition click (p : Page) (sel : string) : M St unit :=
  call (Click p sel) (drvClick D p sel).

Definition typeText (p : Page) (sel text : string) : M St unit :=
  call (TypeText p sel text) (drvType D p sel text).

Definition waitForSelector (p : Page) (sel : string) (visible : bool) : M St unit :=
  call (WaitForSelector p sel visible) (drvWaitForSelector D p sel visible).

Definition waitForTimeout (p : Page) (ms : Z) : M St unit :=
  call (WaitForTimeout p ms) (fun w => Ok tt (drvWaitForTimeout D p ms w)).

Definition closePage : M St unit :=
  onPage (fun p => call (ClosePage p) (drvClosePage D p)).

Definition closeBrowser : M St unit :=
  fun st =>
    match browser st with
    | Some b => call (CloseBrowser b) (drvCloseBrowser D b) st
    | None => Ret tt st
    end.

Definition pathExists (path : string) : M St bool :=
  call (PathExists path) (fun w => Ok (fsPathExists D path w) w).

(** [private async init()] *)
Definition init : M St unit :=
  print "Initializing..." info ;;
  b <- call Launch (drvLaunch D) ;;
  setBrowser b ;;
  p <- call (NewPage b) (drvNewPage D b) ;;
  setPage p ;;
  goto p (rootPath this).

(** [private async login()] *)
Definition login : M St unit :=
  fun st =>
    match page st with
    | None =>
        (print "Login called without initializing" error ;;
         throw (mkError "Missing init call")) st
    | Some p =>
        (goto p (rootPath this ++ routeLogin (routes this)) ;;
         typeText p (loginUsername (selectors this)) (pageUsername this) ;;
         typeText p (loginPassword (selectors this)) (pagePassword this) ;;
         click p (acceptCookiesButton (selectors this)) ;;
         click p (loginSubmitButton (selectors this)) ;;
         call (WaitForNavigation p) (drvWaitForNavigation D p) ;;
         waitForTimeout p 2000) st
    end.

(** [private async navigateToInvoicesPage()] *)
Definition navigateToInvoicesPage : M St unit :=
  onPage (fun p => goto p (rootPath this ++ routeInvoices (routes this))) ;;
  onPage (fun p => waitForSelector p (invoicesListItems (selectors this)) false).

(** [`${rowsSelector}:nth-child(${i + 1})`] *)
Definition rowSelector (i : nat) : string :=
  invoicesListItems (selectors this) ++ ":nth-child(" ++ Js.ofNat (i + 1) ++ ")".

(** The record pushed for row [i] when its date cell reads [text]. *)
Definition candidate (i : nat) (text : string) : ProcessedRow :=
  {| selector := rowSelector i;
     date := Moment.locale "en"
               (momentParse env (Js.trim text) (pageDateFormat this) (pageLocale this));
     rawDate := Js.trim text |}.

(** The body of the [for] loop of [findRowsToProcess]: [rows] are the
    handles from index [i] on, [result] the array filled so far. *)
Fixpoint findRowsLoop (p : Page) (rows : list ElementHandle) (i : nat)
         (result : list ProcessedRow) : M St (list ProcessedRow) :=
  match rows with
  | [] => ret result
  | _ :: rows' =>
      let currentRowSelector := rowSelector i in
      text <- call (ExtractText p (currentRowSelector ++ " " ++ invoicesDateCell (selectors this)))
                   (drvExtractText D p (currentRowSelector ++ " " ++ invoicesDateCell (selectors this))) ;;
      let currentDate := date (candidate i text) in
      if Moment.isBefore (lastInvoiceDate this) currentDate
      then findRowsLoop p rows' (S i) (result ++ [candidate i text])
      else findRowsLoop p rows' (S i) result
  end.

(** [private async findRowsToProcess(rows)] *)
Definition findRowsToProcess (rows : list ElementHandle) : M St (list ProcessedRow) :=
  fun st =>
    match page st with
    | None => Throw (mkError "Page not initialized") st
    | Some p => findRowsLoop p rows 0 [] st
    end.

(** [private async findAndSetRowsToProcess(rows)] *)
Definition findAndSetRowsToProcess (rows : list ElementHandle) : M St unit :=
  found <- findRowsToProcess rows ;;
  setRowsToProcess found.

(** [private async waitUntilFileIsDownloaded(filePath)]; [rounds] bounds
    the depth of the recursion that is followed. *)
Fixpoint waitUntilFileIsDownloaded (rounds : nat) (filePath : string) : M St unit :=
  match rounds with
  | O => fun _ => Pending
  | S rounds' =>
      present <- pathExists filePath ;;
      if present then ret tt
      else
        onPage (fun p => waitForTimeout p 1000) ;;
        waitUntilFileIsDownloaded rounds' filePath
  end.

(** The two names [saveInvoice] computes. *)
Definition newFileName (row : ProcessedRow) : string :=
  momentFormat env (date row) (invoiceDateFormat this) ++ "." ++ pageInvoiceExtension this.

Definition fileName : string :=
  pageInvoiceName this ++ "." ++ pageInvoiceExtension this.

(** [private async saveInvoice(downloadPath, row)] *)
Definition saveInvoice (rounds : nat) (downloadPath : string) (row : ProcessedRow)
  : M St unit :=
  onPage (fun p => call (SetDownloadBehavior p downloadPath)
                        (drvSetDownloadBehavior D p downloadPath)) ;;
  onPage (fun p => waitForSelector p (invoiceDownloadButton (selectors this)) false) ;;
  onPage (fun p => click p (invoiceDownloadButton (selectors this))) ;;
  waitUntilFileIsDownloaded rounds (downloadPath ++ "/" ++ fileName) ;;
  print "Invoice saved" success ;;
  call (Rename (downloadPath ++ "/" ++ fileName) (downloadPath ++ "/" ++ newFileName row))
       (fsRename D (downloadPath ++ "/" ++ fileName) (downloadPath ++ "/" ++ newFileName row)) ;;
  printWithFilepath "Invoice renamed to" (newFileName row) (Some success).

(** [private async processRowItem(row)] *)
Definition processRowItem (rounds : nat) (row : ProcessedRow) : M St unit :=
  onPage (fun p => click p (selector row ++ " " ++ invoicesActionCell (selectors this)
                              ++ " " ++ invoicesActionButton (selectors this))) ;;
  onPage (fun p => waitForSelector p (invoiceContent (selectors this)) true) ;;
  saveInvoice rounds (downloadDir this) row.

(** One turn of the [for] loop of [downloadInvoices], for the entry [row]
    at index [i]; the value is the counter after the turn. *)
Definition loopBody (rounds : nat) (row : ProcessedRow) (i : nat)
           (downloadedCount : nat) : M St nat :=
  (if (0 <? i)%nat then navigateToInvoicesPage else ret tt) ;;
  (if (i =? 0)%nat then print (seperator env) log else ret tt) ;;
  count <- tryCatch
             (print ("Dowloading invoice for " ++ rawDate row) info ;;
              processRowItem rounds row ;;
              ret (S downloadedCount))
             (fun _ =>
                print ("Failed to download invoice for " ++ rawDate row) error ;;
                ret downloadedCount) ;;
  (fun st => Ret tt (record ReportTick st)) ;;
  print (seperator env) log ;;
  ret count.

(** The [for] loop of [downloadInvoices]: [rows] are the entries of
    [this.rowsToProcess] from index [i] on (the field is assigned before
    the loop only). *)
Fixpoint downloadLoop (rounds : nat) (rows : list ProcessedRow) (i : nat)
         (downloadedCount : nat) : M St nat :=
  match rows with
  | [] => ret downloadedCount
  | row :: rows' =>
      count <- loopBody rounds row i downloadedCount ;;
      downloadLoop rounds rows' (S i) count
  end.

(** [private async downloadInvoices()] *)
Definition downloadInvoices (rounds : nat) : M St Counts :=
  fun st =>
    match page st with
    | None => Throw (mkError "Missing init call") st
    | Some p =>
        (let downloadedCount := 0%nat in
         navigateToInvoicesPage ;;
         rows <- call (QueryAll p (invoicesListItems (selectors this)))
                      (drvQueryAll D p (invoicesListItems (selectors this))) ;;
         findAndSetRowsToProcess rows ;;
         fun st1 =>
           let todo := rowsToProcess st1 in
           match todo with
           | [] => Ret (mkCounts 0 downloadedCount) st1
           | _ =>
               (print ("Found " ++ Js.ofNat (List.length todo) ++ " invoices") info ;;
                printWithFilepath "Saving invoices to" (downloadDir this) None ;;
                (fun st2 => Ret tt (record (ReportProgress (List.length todo)) st2)) ;;
                n <- downloadLoop rounds todo 0 downloadedCount ;;
                ret (mkCounts (List.length todo) n)) st1
           end) st
    end.

(** The report [run] makes of the counts. *)
Definition reportCounts (count : Counts) : M St unit :=
  if (0 <? total count)%nat then
    print ("Downloaded " ++ Js.ofNat (downloaded count) ++ "/"
             ++ Js.ofNat (total count) ++ " invoices")
          (if (total count =? downloaded count)%nat then success
           else if (downloaded count =? 0)%nat then error
           else info)
  else print "No invoices found to download" warn.

(** The first [try]/[catch] of [run]: [true] when the login went
    through, [false] when the handler has closed the session and [run]
    is to return. *)
Definition loginPhase : M St bool :=
  tryCatch
    (print "Trying to login..." info ;;
     login ;;
     print "Logged in successfully" info ;;
     ret true)
    (fun _ =>
       print "Failed to login with provided credentials" error ;;
       closePage ;;
       closeBrowser ;;
       ret false).

(** The second [try]/[catch] of [run]. *)
Definition downloadPhase (rounds : nat) : M St unit :=
  tryCatch
    (print "Downloading invoices" info ;;
     count <- downloadInvoices rounds ;;
     reportCounts count)
    (fun e =>
       print "Failed to download invoices" error ;;
       print (message e) error).

(** [async run()]: both [return] points hand back [undefined], which is
    [None] here. *)
Definition run (rounds : nat) : M St (option Counts) :=
  init ;;
  print "Running..." info ;;
  loggedIn <- loginPhase ;;
  if loggedIn : bool then
    downloadPhase rounds ;;
    closePage ;;
    closeBrowser ;;
    ret None
  else ret None.

End Methods.

Arguments rowSelector this i : clear implicits.
Arguments fileName this : clear implicits.

(* ===================================================================== *)
(** ** What the claims speak about *)
(* ===================================================================== *)

(** [w] is strictly before [d]: both are valid dates and the instant of [w]
    is smaller. *)
Definition strictlyBefore (w d : Moment.t) : Prop :=
  exists x y, Moment.valueOf w = Some x /\ Moment.valueOf d = Some y /\ (x < y)%Z.

Section Discovery.

Variable W : Type.
Variable env : Env W.
Variable this : Hunter.

Local Open Scope hunter_scope.

(** The date a label is read as. *)
Definition parsedDate (text : string) : Moment.t :=
  momentParse env (Js.trim text) (pageDateFormat this) (pageLocale this).

(** Reading the date cell of every row, from row [i] on, in display
    order. *)
Fixpoint readDateCells (p : Page) (rows : list ElementHandle) (i : nat)
  : M (State W) (list string) :=
  match rows with
  | [] => ret []
  | _ :: rows' =>
      text <- call (ExtractText p (rowSelector this i ++ " " ++ invoicesDateCell (selectors this)))
                   (drvExtractText (driver env) p
                      (rowSelector this i ++ " " ++ invoicesDateCell (selectors this))) ;;
      texts <- readDateCells p rows' (S i) ;;
      ret (text :: texts)
  end.

(** The rows kept among those whose labels are [texts], the first of
    which is row [i]. *)
Fixpoint selectRows (i : nat) (texts : list string) : list ProcessedRow :=
  match texts with
  | [] => []
  | text :: texts' =>
      if Moment.isBefore (lastInvoiceDate this) (parsedDate text)
      then candidate env this i text :: selectRows (S i) texts'
      else selectRows (S i) texts'
  end.

End Discovery.

(** The four outcomes of a run, by the counts. *)
Inductive RunOutcome : Type := NothingToDo | FullSuccess | TotalFailure | PartialSuccess.

Definition classify (total downloaded : nat) : RunOutcome :=
  if (total =? 0)%nat then NothingToDo
  else if (total =? downloaded)%nat then FullSuccess
  else if (downloaded =? 0)%nat then TotalFailure
  else PartialSuccess.

(** How the reporter shows each outcome. *)
Definition levelOf (o : RunOutcome) : Level :=
  match o with
  | NothingToDo => warn
  | FullSuccess => success
  | TotalFailure => error
  | PartialSuccess => info
  end.

Definition isInfo (ev : Event) : bool :=
  match ev with Report info _ => true | _ => false end.

Definition isError (ev : Event) : bool :=
  match ev with Report error _ => true | _ => false end.

Definition isClose (ev : Event) : bool :=
  match ev with ClosePage _ | CloseBrowser _ => true | _ => false end.

(** The calls of [k] unsuccessful polls of [filePath], each followed by the
    wait of one second. *)
Fixpoint polls (p : Page) (filePath : string) (k : nat) : list Event :=
  match k with
  | O => []
  | S k' => PathExists filePath :: WaitForTimeout p 1000 :: polls p filePath k'
  end.

(** The world after [k] waits of one second. *)
Fixpoint afterWaits {W} (D : Driver W) (p : Page) (k : nat) (w : W) : W :=
  match k with
  | O => w
  | S k' => afterWaits D p k' (drvWaitForTimeout D p 1000 w)
  end.

(* ===================================================================== *)
(** ** A simulated portal *)
(* ===================================================================== *)

(** A small portal for the worked examples: a list view whose date cells
    are given, a download that lands on disk [latency] milliseconds after
    the click on [button], and calls made to reject by [faults]. *)
Module Sim.

Record World : Type := mkWorld {
  clock : Z;
  cells : list (string * string);
  handles : list ElementHandle;
  disk : list (Z * string);
  downloadTo : string
}.

Record Setup : Type := mkSetup {
  faults : Event -> bool;
  latency : Z;
  served : string;
  button : string
}.

Definition injected : Error := mkError "injected failure".

Definition guard {A} (s : Setup) (ev : Event) (w : World) (r : Res World A)
  : Res World A :=
  if faults s ev then Err injected w else r.

Definition onDisk (path : string) (w : World) : bool :=
  existsb (fun f => (fst f <=? clock w)%Z && String.eqb (snd f) (Path.normalize path))
          (disk w).

Fixpoint lookup (sel : string) (l : list (string * string)) : option string :=
  match l with
  | [] => None
  | (k, v) :: l' => if String.eqb k sel then Some v else lookup sel l'
  end.

Definition browserAndDisk (s : Setup) : Driver World :=
  {| drvLaunch := fun w => guard s Launch w (Ok 1%nat w);
     drvNewPage := fun b w => guard s (NewPage b) w (Ok 1%nat w);
     drvGoto := fun p url w => guard s (Goto p url) w (Ok tt w);
     drvType := fun p sel text w => guard s (TypeText p sel text) w (Ok tt w);
     drvClick := fun p sel w =>
       guard s (Click p sel) w
         (Ok tt (if String.eqb sel (button s)
                 then mkWorld (clock w) (cells w) (handles w)
                        (((clock w + latency s)%Z,
                          Path.normalize (downloadTo w ++ "/" ++ served s)) :: disk w)
                        (downloadTo w)
                 else w));
     drvWaitForNavigation := fun p w => guard s (WaitForNavigation p) w (Ok tt w);
     drvWaitForTimeout := fun p ms w =>
       mkWorld (clock w + ms)%Z (cells w) (handles w) (disk w) (downloadTo w);
     drvWaitForSelector := fun p sel v w => guard s (WaitForSelector p sel v) w (Ok tt w);
     drvQueryAll := fun p sel w => guard s (QueryAll p sel) w (Ok (handles w) w);
     drvExtractText := fun p sel w =>
       guard s (ExtractText p sel) w
         (match lookup sel (cells w) with
          | Some text => Ok text w
          | None => Err (mkError "failed to find element matching selector") w
          end);
     drvSetDownloadBehavior := fun p path w =>
       guard s (SetDownloadBehavior p path) w
         (Ok tt (mkWorld (clock w) (cells w) (handles w) (disk w) path));
     drvClosePage := fun p w => guard s (ClosePage p) w (Ok tt w);
     drvCloseBrowser := fun b w => guard s (CloseBrowser b) w (Ok tt w);
     fsPathExists := onDisk;
     fsRename := fun a b w =>
       guard s (Rename a b) w
         (if onDisk a w
          then Ok tt (mkWorld (clock w) (cells w) (handles w)
                        ((clock w, Path.normalize b)
                           :: filter (fun f => negb (String.eqb (snd f) (Path.normalize a)))
                                     (disk w))
                        (downloadTo w))
          else Err (mkError "ENOENT: no such file or directory") w) |}.

(** The clocks of the portal's user: Madrid in winter, one hour ahead of
    UTC. *)
Definition zone : Z := 3600000.

(** [moment] as modelled, in that zone.  The examples stay within what the
    model answers for; beyond it this library reads no date and prints
    nothing. *)
Definition env (s : Setup) : Env World :=
  {| driver := browserAndDisk s;
     momentParse := fun label pattern loc =>
       match Moment.parse zone label pattern loc with
       | Some m => m
       | None => Moment.invalid loc
       end;
     momentFormat := fun m pattern =>
       match Moment.format zone m pattern with
       | Some text => text
       | None => ""
       end;
     seperator := "----" |}.

(** A configuration of the shape [config/endesa-config] has. *)
Definition portal : EndesaConfig :=
  {| cfgBaseRoute := "https://portal.example";
     cfgRoutes := mkRoutes "/login" "/invoices";
     cfgSelectors :=
       {| loginUsername := "#username";
          loginPassword := "#password";
          loginSubmitButton := "#submit";
          acceptCookiesButton := "#cookies";
          invoicesListItems := "tr.invoice";
          invoicesDateCell := "td.date";
          invoicesActionCell := "td.action";
          invoicesActionButton := "button";
          invoiceContent := "#invoice";
          invoiceDownloadButton := "#download" |};
     cfgLocale := "es";
     cfgDateFormat := "DD/MM/YYYY";
     cfgInvoiceName := "factura";
     cfgInvoiceExtension := "pdf" |}.

Definition noFault : Event -> bool := fun _ => false.

Definition setup (f : Event -> bool) : Setup :=
  {| faults := f; latency := 2500; served := "factura.pdf"; button := "#download" |}.

(** The list view shows the given labels, one row each. *)
Definition cellsOf (h : Hunter) (labels : list string) : list (string * string) :=
  map (fun il => (rowSelector h (fst il) ++ " " ++ invoicesDateCell (selectors h), snd il))
      (combine (seq 0 (List.length labels)) labels).

Definition showing (h : Hunter) (labels : list string) : World :=
  {| clock := 0;
     cells := cellsOf h labels;
     handles := seq 0 (List.length labels);
     disk := [];
     downloadTo := "" |}.

(** A hunter for the user [ana] saving under [/out] what was issued
    after [since]. *)
Definition hunter (since : Moment.t) : Hunter :=
  constructor portal
    {| argConfig := mkHuntConfig "ana" "secret" None;
       argDownloadDir := "/out";
       argLastInvoiceDate := since |}.

Definition march5 : Moment.t := Moment.ofDate zone 2024 3 5 "en".
Definition january1 : Moment.t := Moment.ofDate zone 2024 1 1 "en".

(** An initialized object: browser and page open on the world [w]. *)
Definition opened (w : World) : State World :=
  {| world := w; trace := []; rowsToProcess := []; browser := Some 1%nat; page := Some 1%nat |}.

(** *** The scenes of the worked examples *)

Definition labels : list string :=
  ["05/03/2024"; " n/a "; "07/05/2024"; "01/01/2024"].

Definition rows : list ElementHandle := [0; 1; 2; 3]%nat.

Definition may7 : Moment.t := Moment.ofDate zone 2024 5 7 "en".

Definition ana : Hunter := hunter january1.

(** The arguments of a second run, with the watermark moved to the
    latest date of the first. *)
Definition again : Args :=
  {| argConfig := mkHuntConfig "ana" "secret" None;
     argDownloadDir := "/out";
     argLastInvoiceDate := may7 |}.

Definition first : Args :=
  {| argConfig := mkHuntConfig "ana" "secret" None;
     argDownloadDir := "/out";
     argLastInvoiceDate := january1 |}.

(** Nothing rejects. *)
Definition calm : Env World := env (setup noFault).

(** The action button of the third row cannot be clicked. *)
Definition thirdRowStuck (ev : Event) : bool :=
  match ev with
  | Click _ sel => String.eqb sel "tr.invoice:nth-child(3) td.action button"
  | _ => false
  end.

(** The login form cannot be submitted. *)
Definition loginRefused (ev : Event) : bool :=
  match ev with
  | Click _ sel => String.eqb sel "#submit"
  | _ => false
  end.

(** Closing the page rejects. *)
Definition pageWillNotClose (ev : Event) : bool :=
  match ev with
  | ClosePage _ => true
  | _ => false
  end.

(** Before [run]: no browser yet. *)
Definition start : State World := fresh (showing ana labels).

(** On the list view, logged in. *)
Definition listView : State World := opened (showing ana labels).

(** The two rows [ana] selects on the list view. *)
Definition march5Row : ProcessedRow := candidate calm ana 0 "05/03/2024".
Definition may7Row : ProcessedRow := candidate calm ana 2 "07/05/2024".

(** The file a download is awaited at. *)
Definition awaited : string := "/out/endesa//factura.pdf".

(** A download under way: the file lands 2.5 seconds from now. *)
Definition downloading : State World :=
  opened {| clock := 0; cells := []; handles := [];
            disk := [(2500%Z, "/out/endesa/factura.pdf")];
            downloadTo := "/out/endesa/" |}.

(** A hunter told to name the invoices with a pattern that starts with
    [../]. *)
Definition upward : Hunter :=
  constructor portal
    {| argConfig := mkHuntConfig "ana" "secret" (Some "../DD-MM-YY");
       argDownloadDir := "/out";
       argLastInvoiceDate := january1 |}.

(** The portal once downloads are sent to [/out/endesa/]. *)
Definition directed : World :=
  {| clock := 0; cells := cellsOf ana labels; handles := seq 0 (List.length labels);
     disk := []; downloadTo := "/out/endesa/" |}.

(** The portal once the invoice is requested: the file lands 2.5 seconds
    from now. *)
Definition requested : World :=
  {| clock := 0; cells := cellsOf ana labels; handles := seq 0 (List.length labels);
     disk := [(2500%Z, "/out/endesa/factura.pdf")]; downloadTo := "/out/endesa/" |}.

(** The portal three seconds later, the one file on disk being [path]. *)
Definition holding (path : string) : World :=
  {| clock := 3000; cells := cellsOf ana labels; handles := seq 0 (List.length labels);
     disk := [(3000%Z, path)]; downloadTo := "/out/endesa/" |}.

(** The action button of the third row cannot be clicked. *)
Definition stuck : Env World := env (setup thirdRowStuck).

(** The state an outcome leaves, [st] when there is none. *)
Definition stateOf {A} (o : Outcome (State World) A) (st : State World)
  : State World :=
  match o with
  | Ret _ s => s
  | Throw _ s => s
  | Pending => st
  end.

End Sim.

(* ===================================================================== *)
(** ** Frames *)
(* ===================================================================== *)

Section Frames.

Variable W : Type.

(** [st'] is [st] after further calls, all of them satisfying [ok], with
    the same browser and page. *)
Definition grows (ok : Event -> Prop) (st st' : State W) : Prop :=
  exists new,
    trace st' = (trace st ++ new)%list /\ Forall ok new
    /\ page st' = page st /\ browser st' = browser st.

(** Whatever [m] does, it only makes calls satisfying [ok] and leaves the
    browser and the page in place. *)
Definition keeps {A} (ok : Event -> Prop) (m : M (State W) A) : Prop :=
  forall st,
    match m st with
    | Ret _ st' => grows ok st st'
    | Throw _ st' => grows ok st st'
    | Pending => True
    end.

(** The state in which [waitUntilFileIsDownloaded] returns after [k]
    polls that did not find the file. *)
Definition polled (D : Driver W) (p : Page) (filePath : string) (k : nat)
           (st : State W) : State W :=
  mkState (afterWaits D p k (world st))
          (trace st ++ polls p filePath k ++ [PathExists filePath])
          (rowsToProcess st) (browser st) (page st).

End Frames.

Definition notClose (ev : Event) : Prop := isClose ev = false.

(** Calls other than closing the session and other than the two reports of
    the download loop. *)
Definition plain (ev : Event) : Prop :=
  isClose ev = false /\ isInfo ev = false /\ isError ev = false.

(* ===================================================================== *)
(** ** Entries of a directory *)
(* ===================================================================== *)

Fixpoint noSlash (s : string) : bool :=
  match s with
  | String c r => negb (Js.isSlash c) && noSlash r
  | EmptyString => true
  end.

(** A name that stands for an entry of the directory it is put in: it is
    not empty, holds no [/] and is neither [.] nor [..]. *)
Definition entryName (s : string) : bool :=
  noSlash s && negb (String.eqb s "") && negb (String.eqb s ".")
  && negb (String.eqb s "..").

(** The stacks [normalizeString] builds: entry names, above as many [..]
    as the path climbs when it may. *)
Inductive Kept (allowAboveRoot : bool) : list string -> Prop :=
| Kept_nil : Kept allowAboveRoot []
| Kept_up (stack : list string) :
    allowAboveRoot = true -> Forall (fun s => s = "..") stack ->
    Kept allowAboveRoot stack -> Kept allowAboveRoot (".." :: stack)
| Kept_name (seg : string) (stack : list string) :
    entryName seg = true -> Kept allowAboveRoot stack -> Kept allowAboveRoot (seg :: stack).

(** The object after further calls [new] that left the world [w]. *)
Definition extended {W} (w : W) (new : list Event) (st : State W) : State W :=
  mkState w (trace st ++ new)%list (rowsToProcess st) (browser st) (page st).


(* ===================================================================== *)
(** ** Outcomes and sessions *)
(* ===================================================================== *)

(** [post m Q E st]: from [st], [m] returns in a state satisfying [Q] or
    raises in a state satisfying [E]. *)
Definition post {S A} (m : M S A) (Q : A -> S -> Prop) (E : Error -> S -> Prop)
           (st : S) : Prop :=
  match m st with
  | Ret a s => Q a s
  | Throw e s => E e s
  | Pending => True
  end.

(** The selector of the action button of a row. *)
Definition actionSelector (this : Hunter) (row : ProcessedRow) : string :=
  selector row ++ " " ++ invoicesActionCell (selectors this)
    ++ " " ++ invoicesActionButton (selectors this).

(** The two reports the loop makes about a row. *)
Definition started (row : ProcessedRow) : Event :=
  Report info ("Dowloading invoice for " ++ rawDate row).

Definition failed (row : ProcessedRow) : Event :=
  Report error ("Failed to download invoice for " ++ rawDate row).

(** What a turn of the loop adds to the trace when it processes [row]: it
    starts with the click on the action button of the row. *)
Definition attempted {W} (this : Hunter) (p : Page) (row : ProcessedRow)
           (st st' : State W) : Prop :=
  exists more,
    trace st' = (trace st ++ Click p (actionSelector this row) :: more)%list
    /\ Forall plain more /\ page st' = page st /\ browser st' = browser st.

(** The page and the browser close when asked. *)
Definition closesCleanly {W} (env : Env W) : Prop :=
  (forall p w, exists w', drvClosePage (driver env) p w = Ok tt w')
  /\ (forall b w, exists w', drvCloseBrowser (driver env) b w = Ok tt w').

(** [st'] is [st] after the session was released: one call closing the
    page [p], then one closing the browser [b], among calls that close
    nothing. *)
Definition releasedOnce {W} (p : Page) (b : Browser) (st st' : State W) : Prop :=
  exists new,
    trace st' = (trace st ++ new)%list
    /\ filter isClose new = [ClosePage p; CloseBrowser b].

(* ===================================================================== *)
(** ** Calls by kind *)
(* ===================================================================== *)

(** The labels of the list view with the index of their row. *)
Definition indexed (i : nat) (texts : list string) : list (nat * string) :=
  combine (seq i (List.length texts)) texts.

(** The reads of the date cells of the rows [i], ..., [i + n - 1]. *)
Definition extractions (this : Hunter) (p : Page) (i n : nat) : list Event :=
  map (fun j => ExtractText p (rowSelector this j ++ " " ++ invoicesDateCell (selectors this)))
      (seq i n).

(** The address of the list view. *)
Definition invoicesUrl (this : Hunter) : string :=
  rootPath this ++ routeInvoices (routes this).

(** The two calls of [navigateToInvoicesPage]. *)
Definition navigation (this : Hunter) (p : Page) : list Event :=
  [Goto p (invoicesUrl this); WaitForSelector p (invoicesListItems (selectors this)) false].


(** The calls of [saveInvoice] up to the click on the download button. *)
Definition downloadRequest (this : Hunter) (p : Page) (downloadPath : string) : list Event :=
  [SetDownloadBehavior p downloadPath;
   WaitForSelector p (invoiceDownloadButton (selectors this)) false;
   Click p (invoiceDownloadButton (selectors this))].

Definition isGoto (ev : Event) : bool :=
  match ev with Goto _ _ => true | _ => false end.

Definition isProgress (ev : Event) : bool :=
  match ev with ReportProgress _ | ReportTick => true | _ => false end.

(** The kinds of call [processRowItem] makes. *)
Definition rowCall (ev : Event) : Prop :=
  match ev with
  | Click _ _ | WaitForSelector _ _ _ | SetDownloadBehavior _ _ | PathExists _
  | WaitForTimeout _ _ | Report success _ | Rename _ _ | ReportWithFilepath _ _ _ => True
  | _ => False
  end.

(** The kinds of call [init] makes. *)
Definition initCall (ev : Event) : Prop :=
  match ev with
  | Report info _ | Launch | NewPage _ | Goto _ _ => True
  | _ => False
  end.

(** The kind of call discovery makes. *)
Definition readCall (ev : Event) : Prop :=
  match ev with ExtractText _ _ => True | _ => False end.

(** The calls of [processRowItem] before it saves: the click on the action
    button of the row and the wait for the invoice. *)
Definition opening (this : Hunter) (p : Page) (row : ProcessedRow) : list Event :=
  [Click p (actionSelector this row);
   WaitForSelector p (invoiceContent (selectors this)) true].

(** The calls of [saveInvoice] when the file is found at poll [k], up to
    and including the rename. *)
Definition saving {W} (env : Env W) (this : Hunter) (p : Page) (downloadPath : string)
           (row : ProcessedRow) (k : nat) : list Event :=
  (downloadRequest this p downloadPath
     ++ polls p (downloadPath ++ "/" ++ fileName this) k
     ++ [PathExists (downloadPath ++ "/" ++ fileName this);
         Report success "Invoice saved";
         Rename (downloadPath ++ "/" ++ fileName this)
                (downloadPath ++ "/" ++ newFileName env this row)])%list.

(** The last call of [saveInvoice]. *)
Definition renamed {W} (env : Env W) (this : Hunter) (row : ProcessedRow) : Event :=
  ReportWithFilepath "Invoice renamed to" (newFileName env this row) (Some success).

(** What a run may ask about files: downloads go to the directory of the
    object; the file renamed is the download in that directory, and the
    path it is renamed to is the directory, a [/] and the new file name
    of a record. *)
Definition within {W} (env : Env W) (this : Hunter) (ev : Event) : Prop :=
  match ev with
  | SetDownloadBehavior _ path => path = downloadDir this
  | Rename a b =>
      a = downloadDir this ++ "/" ++ fileName this
      /\ exists row, b = downloadDir this ++ "/" ++ newFileName env this row
  | _ => True
  end.

(** [st'] is [st] after the calls [new], with the same fields. *)
Definition after {W} (new : list Event) (st st' : State W) : Prop :=
  trace st' = (trace st ++ new)%list
  /\ page st' = page st /\ browser st' = browser st
  /\ rowsToProcess st' = rowsToProcess st.

(** Whatever [m] does, it leaves [rowsToProcess] as it was. *)
Definition sameRows {W A} (m : M (State W) A) : Prop :=
  forall st,
    match m st with
    | Ret _ st' => rowsToProcess st' = rowsToProcess st
    | Throw _ st' => rowsToProcess st' = rowsToProcess st
    | Pending => True
    end.

(** The calls of [init], in order, for the browser [b] and the page [p]. *)
Definition initCalls (this : Hunter) (b : Browser) (p : Page) : list Event :=
  [Report info "Initializing..."; Launch; NewPage b; Goto p (rootPath this)].

(** Further faults for the simulated portal. *)
Module Faults.

(** The list view cannot be opened. *)
Definition listViewDown (ev : Event) : bool :=
  match ev with
  | Goto _ url => String.eqb url "https://portal.example/invoices"
  | _ => false
  end.

(** The root address cannot be opened. *)
Definition rootDown (ev : Event) : bool :=
  match ev with
  | Goto _ url => String.eqb url "https://portal.example"
  | _ => false
  end.

End Faults.

(* ===================================================================== *)
(** ** The loop, record by record *)
(* ===================================================================== *)

Section Turns.

Variable W : Type.
Variable env : Env W.
Variable this : Hunter.
Variable rounds : nat.

(** The state in which the turn of [row], at index [i], calls
    [processRowItem], when the list view was shown in [s]: the separator
    is reported before the first record, then the start of the record. *)
Definition entered (row : ProcessedRow) (i : nat) (s : State W) : State W :=
  record (started row)
         (if (i =? 0)%nat then record (Report log (seperator env)) s else s).

(** The state in which a turn ends, [s] being the state after the attempt
    and the report of its failure, if any. *)
Definition advanced (s : State W) : State W :=
  record (Report log (seperator env)) (record ReportTick s).

(** The loop told record by record.  [Turns rows i st raised st'] holds
    when, from [st], the records [rows], at the indices from [i] on, are
    attempted one after the other, each from the state the turn before
    left: the list view is opened again, but for the first record, and
    [processRowItem] returns or raises on the record.  [raised] are the
    records on which it raised and [st'] is the state after the last
    turn. *)
Inductive Turns
  : list ProcessedRow -> nat -> State W -> list ProcessedRow -> State W -> Prop :=
| Turns_done (i : nat) (st : State W) : Turns [] i st [] st
| Turns_saved (row : ProcessedRow) (rows : list ProcessedRow) (i : nat)
              (st s1 s2 : State W) (raised : list ProcessedRow) (st' : State W) :
    (if (0 <? i)%nat then navigateToInvoicesPage env this else ret tt) st = Ret tt s1 ->
    processRowItem env this rounds row (entered row i s1) = Ret tt s2 ->
    Turns rows (S i) (advanced s2) raised st' ->
    Turns (row :: rows) i st raised st'
| Turns_failed (row : ProcessedRow) (rows : list ProcessedRow) (i : nat)
               (st s1 s2 : State W) (e : Error) (raised : list ProcessedRow)
               (st' : State W) :
    (if (0 <? i)%nat then navigateToInvoicesPage env this else ret tt) st = Ret tt s1 ->
    processRowItem env this rounds row (entered row i s1) = Throw e s2 ->
    Turns rows (S i) (advanced (record (failed row) s2)) raised st' ->
    Turns (row :: rows) i st (row :: raised) st'.

End Turns.

(** Stages of the worked examples. *)
Module Stages.

(** The run of [Sim.ana] on the calm portal: after [init], after the
    login, after [downloadInvoices]. *)
Definition initialized : State Sim.World :=
  Sim.stateOf (init Sim.calm Sim.ana Sim.start) Sim.start.

Definition loggedIn : State Sim.World :=
  Sim.stateOf (loginPhase Sim.calm Sim.ana (record (Report info "Running...") initialized))
              Sim.start.

Definition harvested : State Sim.World :=
  Sim.stateOf (downloadInvoices Sim.calm Sim.ana 10
                 (record (Report info "Downloading invoices") loggedIn))
              Sim.start.

(** The loop when the third row is stuck: the first record saved, the
    list view shown again, the second record given up. *)
Definition firstSaved : State Sim.World :=
  Sim.stateOf (processRowItem Sim.stuck Sim.ana 10 Sim.march5Row
                 (entered Sim.stuck Sim.march5Row 0 Sim.listView))
              Sim.listView.

Definition shownAgain : State Sim.World :=
  Sim.stateOf (navigateToInvoicesPage Sim.stuck Sim.ana (advanced Sim.stuck firstSaved))
              Sim.listView.

Definition secondGivenUp : State Sim.World :=
  Sim.stateOf (processRowItem Sim.stuck Sim.ana 10 Sim.may7Row
                 (entered Sim.stuck Sim.may7Row 1 shownAgain))
              Sim.listView.

End Stages.

(* ===================================================================== *)
(** * Properties *)
(* ===================================================================== *)

(* ===================================================================== *)
(** ** Strings and paths *)
(* ===================================================================== *)

Lemma append_assoc (a b c : string) : (a ++ b) ++ c = a ++ (b ++ c).
Proof. induction a as [|x a IH]; simpl; [reflexivity | now rewrite IH]. Qed.

Lemma append_nonempty (a : string) (c : ascii) (b : string) :
  String.eqb (a ++ String c b) "" = false.
Proof. destruct a; reflexivity. Qed.

Lemma splitSlash_nonempty (s : string) : Js.splitSlash s <> [].
Proof.
  induction s as [|c r IH]; simpl; [discriminate|].
  destruct (Js.isSlash c); [discriminate|].
  destruct (Js.splitSlash r); discriminate.
Qed.

Lemma splitSlash_app (a b : string) :
  Js.splitSlash (a ++ String "/" b) = (Js.splitSlash a ++ Js.splitSlash b)%list.
Proof.
  induction a as [|c r IH]; simpl; [reflexivity|].
  destruct (Js.isSlash c); [now rewrite IH|].
  rewrite IH.
  destruct (Js.splitSlash r) as [|seg rest] eqn:E; [|reflexivity].
  now apply splitSlash_nonempty in E.
Qed.

Lemma joinSlash_last (segs : list string) (s : string) :
  exists pre, Js.joinSlash (segs ++ [s]) = pre ++ s.
Proof.
  induction segs as [|x segs [pre IH]]; simpl.
  - now exists "".
  - destruct (segs ++ [s])%list as [|y l] eqn:E.
    + now destruct segs.
    + exists (x ++ "/" ++ pre). rewrite IH. now rewrite !append_assoc.
Qed.

Lemma lastChar_app (a : string) (c : ascii) (b : string) :
  Js.lastChar (a ++ String c b) = Js.lastChar (String c b).
Proof.
  induction a as [|x a IH]; [reflexivity|].
  change ((String x a) ++ String c b) with (String x (a ++ String c b)).
  cbn [Js.lastChar]. destruct (a ++ String c b) eqn:E; [now destruct a|].
  exact IH.
Qed.

(** Whatever the directory given, the directory the class saves to ends
    with the component [endesa]. *)
Lemma join_endesa (dir : string) :
  exists prefix, Path.join [dir; "/endesa/"] = prefix ++ "endesa/".
Proof.
  unfold Path.join. cbn [Path.glue].
  destruct (String.eqb dir "") eqn:Edir.
  - exists "/". reflexivity.
  - cbn [String.eqb]. unfold Path.normalize.
    assert (Hne : String.eqb (dir ++ "/" ++ "/endesa/") "" = false)
      by (destruct dir; [discriminate | reflexivity]).
    rewrite Hne.
    assert (Hend : Path.endsWithSlash (dir ++ "/" ++ "/endesa/") = true).
    { unfold Path.endsWithSlash. change ("/" ++ "/endesa/") with (String "/" "/endesa/").
      rewrite lastChar_app. reflexivity. }
    rewrite Hend.
    set (allow := negb (Path.startsWithSlash (dir ++ "/" ++ "/endesa/"))).
    unfold Path.normalizeString.
    change ("/" ++ "/endesa/") with (String "/" "/endesa/").
    rewrite splitSlash_app, fold_left_app.
    set (stack := fold_left (Path.pushSegment allow) (Js.splitSlash dir) []).
    change (fold_left (Path.pushSegment allow) (Js.splitSlash "/endesa/") stack)
      with ("endesa" :: stack).
    cbn [rev].
    destruct (joinSlash_last (rev stack) "endesa") as [pre Hpre].
    rewrite Hpre.
    change "endesa" with (String "e" "ndesa") at 1.
    rewrite append_nonempty.
    destruct (Path.startsWithSlash _).
    + exists ("/" ++ pre). now rewrite !append_assoc.
    + exists pre. now rewrite !append_assoc.
Qed.

(* ===================================================================== *)
(** ** Sequencing *)
(* ===================================================================== *)

Section Sequencing.

Variables (S A B : Type).

Lemma bind_Ret (m : M S A) (k : A -> M S B) (s s' : S) (b : B) :
  bind m k s = Ret b s' ->
  exists a s1, m s = Ret a s1 /\ k a s1 = Ret b s'.
Proof.
  unfold bind. destruct (m s) as [a s1| |]; try discriminate. eauto.
Qed.

Lemma bind_Throw (m : M S A) (k : A -> M S B) (s s' : S) (e : Error) :
  bind m k s = Throw e s' ->
  m s = Throw e s' \/ exists a s1, m s = Ret a s1 /\ k a s1 = Throw e s'.
Proof.
  unfold bind. destruct (m s) as [a s1| |]; try discriminate; intros H.
  - right. eauto.
  - left. now inversion H.
Qed.

Lemma Ret_inj (a a' : A) (s s' : S) : Ret a s = Ret a' s' -> a = a' /\ s = s'.
Proof. intros H. now inversion H. Qed.

Lemma bind_step (m : M S A) (k : A -> M S B) (s s1 : S) (a : A) :
  m s = Ret a s1 -> bind m k s = k a s1.
Proof. unfold bind. now intros ->. Qed.

End Sequencing.

(* ===================================================================== *)
(** ** Frames *)
(* ===================================================================== *)

Section FrameRules.

Variable W : Type.
Variable ok : Event -> Prop.

Local Abbreviation St := (State W).

Lemma grows_refl (st : St) : grows ok st st.
Proof. exists []. rewrite app_nil_r. auto. Qed.

Lemma grows_trans (a b c : St) : grows ok a b -> grows ok b c -> grows ok a c.
Proof.
  intros (n1 & T1 & F1 & P1 & B1) (n2 & T2 & F2 & P2 & B2).
  exists (n1 ++ n2)%list. rewrite T2, T1, app_assoc, P2, B2.
  repeat split; auto. apply Forall_app; auto.
Qed.

Lemma grows_record (ev : Event) (st : St) : ok ev -> grows ok st (record ev st).
Proof. intros H. exists [ev]. simpl. auto. Qed.

Lemma grows_withWorld (w : W) (st : St) : grows ok st (withWorld w st).
Proof. exists []. simpl. rewrite app_nil_r. auto. Qed.

Lemma keeps_ret A (a : A) : keeps ok (ret (S := St) a).
Proof. intros st. apply grows_refl. Qed.

Lemma keeps_throw A (e : Error) : keeps ok (throw (S := St) (A := A) e).
Proof. intros st. apply grows_refl. Qed.

Lemma keeps_bind A B (m : M St A) (k : A -> M St B) :
  keeps ok m -> (forall a, keeps ok (k a)) -> keeps ok (bind m k).
Proof.
  intros Hm Hk st. unfold bind. specialize (Hm st).
  destruct (m st) as [a s1|e s1|]; auto.
  specialize (Hk a s1). destruct (k a s1); auto; eapply grows_trans; eauto.
Qed.

Lemma keeps_tryCatch A (body : M St A) (handler : Error -> M St A) :
  keeps ok body -> (forall e, keeps ok (handler e)) -> keeps ok (tryCatch body handler).
Proof.
  intros Hb Hh st. unfold tryCatch. specialize (Hb st).
  destruct (body st) as [a s1|e s1|]; auto.
  specialize (Hh e s1). destruct (handler e s1); auto; eapply grows_trans; eauto.
Qed.

Lemma keeps_call A (ev : Event) (op : W -> Res W A) : ok ev -> keeps ok (call ev op).
Proof.
  intros H st. unfold call.
  destruct (op (world st)); (eapply grows_trans; [apply grows_withWorld | now apply grows_record]).
Qed.

Lemma keeps_onPage (method : Page -> M St unit) :
  (forall p, keeps ok (method p)) -> keeps ok (onPage method).
Proof.
  intros H st. unfold onPage. destruct (page st) as [p|]; [apply H | apply grows_refl].
Qed.

Lemma keeps_print (msg : string) (type : Level) :
  ok (Report type msg) -> keeps ok (print (W := W) msg type).
Proof. intros H st. now apply grows_record. Qed.

Lemma keeps_printWithFilepath (label path : string) (type : option Level) :
  ok (ReportWithFilepath label path type) ->
  keeps ok (printWithFilepath (W := W) label path type).
Proof. intros H st. now apply grows_record. Qed.

Lemma keeps_note (ev : Event) :
  ok ev -> keeps ok (fun st : St => Ret tt (record ev st)).
Proof. intros H st. now apply grows_record. Qed.

Lemma keeps_setRowsToProcess (rows : list ProcessedRow) :
  keeps ok (setRowsToProcess (W := W) rows).
Proof. intros st. exists []. simpl. rewrite app_nil_r. auto. Qed.

Lemma keeps_byPage A (some : Page -> M St A) (none : M St A) :
  (forall p, keeps ok (some p)) -> keeps ok none ->
  keeps ok (fun st => match page st with Some p => some p st | None => none st end).
Proof. intros Hs Hn st. destruct (page st); [apply Hs | apply Hn]. Qed.

Lemma keeps_if A (c : bool) (m1 m2 : M St A) :
  keeps ok m1 -> keeps ok m2 -> keeps ok (if c then m1 else m2).
Proof. now destruct c. Qed.

End FrameRules.

Lemma grows_weaken W (ok ok' : Event -> Prop) (st st' : State W) :
  (forall ev, ok ev -> ok' ev) -> grows ok st st' -> grows ok' st st'.
Proof.
  intros H (new & T & F & P & B). exists new. repeat split; auto.
  eapply Forall_impl; eauto.
Qed.

Lemma keeps_weaken W A (ok ok' : Event -> Prop) (m : M (State W) A) :
  (forall ev, ok ev -> ok' ev) -> keeps ok m -> keeps ok' m.
Proof.
  intros H Hm st. specialize (Hm st).
  destruct (m st); auto; eapply grows_weaken; eauto.
Qed.

Lemma filter_none A (f : A -> bool) (l : list A) :
  Forall (fun x => f x = false) l -> filter f l = [].
Proof.
  induction 1 as [|x l Hx _ IH]; simpl; [reflexivity | now rewrite Hx].
Qed.

Lemma plain_notClose ev : plain ev -> notClose ev.
Proof. now intros [H _]. Qed.

Lemma keeps_plain W A (m : M (State W) A) : keeps plain m -> keeps notClose m.
Proof. apply keeps_weaken. exact plain_notClose. Qed.

(** Solves [keeps ok m] for a method written with the combinators, when
    [ok] holds of each call it names. *)
Ltac frame :=
  repeat first
    [ eassumption
    | apply keeps_bind; [|intros ?]
    | apply keeps_tryCatch; [|intros ?]
    | apply keeps_onPage; intros ?
    | apply keeps_if
    | apply keeps_byPage; [intros ?|]
    | apply keeps_ret
    | apply keeps_throw
    | apply keeps_setRowsToProcess
    | apply keeps_print
    | apply keeps_printWithFilepath
    | apply keeps_note
    | apply keeps_call
    | match goal with |- keeps _ (match ?x with _ => _ end) => destruct x end ];
  try solve [repeat split; reflexivity | cbn; auto].

Section MethodsKeep.

Variable W : Type.
Variable env : Env W.
Variable this : Hunter.

Let D := driver env.

Lemma login_notClose : keeps notClose (login env this).
Proof. unfold login, goto, typeText, click, waitForTimeout. frame. Qed.

Lemma navigateToInvoicesPage_plain : keeps plain (navigateToInvoicesPage env this).
Proof. unfold navigateToInvoicesPage, goto, waitForSelector. frame. Qed.

Lemma waitUntilFileIsDownloaded_keeps (ok : Event -> Prop) (rounds : nat)
      (filePath : string) :
  ok (PathExists filePath) ->
  (forall p, ok (WaitForTimeout p 1000)) ->
  keeps ok (waitUntilFileIsDownloaded env rounds filePath).
Proof.
  intros Hpoll Hwait.
  induction rounds as [|rounds IH]; cbn [waitUntilFileIsDownloaded].
  - intros st. exact I.
  - unfold pathExists, waitForTimeout. frame.
Qed.

Lemma waitUntilFileIsDownloaded_plain (rounds : nat) (filePath : string) :
  keeps plain (waitUntilFileIsDownloaded env rounds filePath).
Proof. apply waitUntilFileIsDownloaded_keeps; repeat split. Qed.

Lemma saveInvoice_plain (rounds : nat) (downloadPath : string) (row : ProcessedRow) :
  keeps plain (saveInvoice env this rounds downloadPath row).
Proof.
  pose proof (waitUntilFileIsDownloaded_plain rounds
                (downloadPath ++ "/" ++ fileName this)).
  unfold saveInvoice, waitForSelector, click. frame.
Qed.

Lemma processRowItem_plain (rounds : nat) (row : ProcessedRow) :
  keeps plain (processRowItem env this rounds row).
Proof.
  pose proof (saveInvoice_plain rounds (downloadDir this) row).
  unfold processRowItem, waitForSelector, click. frame.
Qed.

Lemma findRowsLoop_plain (p : Page) (rows : list ElementHandle) :
  forall i result, keeps plain (findRowsLoop env this p rows i result).
Proof.
  induction rows as [|r rows IH]; intros i result; cbn [findRowsLoop].
  - frame.
  - apply keeps_bind; [frame|]. intros text. apply keeps_if; apply IH.
Qed.

Lemma findAndSetRowsToProcess_plain (rows : list ElementHandle) :
  keeps plain (findAndSetRowsToProcess env this rows).
Proof.
  unfold findAndSetRowsToProcess, findRowsToProcess.
  apply keeps_bind; [|frame].
  apply keeps_byPage; [intros p; apply findRowsLoop_plain|].
  intros st. apply grows_refl.
Qed.

Lemma loopBody_notClose (rounds : nat) (row : ProcessedRow) (i c : nat) :
  keeps notClose (loopBody env this rounds row i c).
Proof.
  pose proof (keeps_plain (processRowItem_plain rounds row)).
  pose proof (keeps_plain navigateToInvoicesPage_plain).
  unfold loopBody. frame.
Qed.

Lemma downloadLoop_notClose (rounds : nat) (rows : list ProcessedRow) :
  forall i c, keeps notClose (downloadLoop env this rounds rows i c).
Proof.
  induction rows as [|row rows IH]; intros i c; cbn [downloadLoop].
  - frame.
  - apply keeps_bind; [apply loopBody_notClose | intros n; apply IH].
Qed.

Lemma downloadInvoices_notClose (rounds : nat) :
  keeps notClose (downloadInvoices env this rounds).
Proof.
  pose proof (keeps_plain navigateToInvoicesPage_plain).
  unfold downloadInvoices.
  apply keeps_byPage; [intros p | intros st; apply grows_refl].
  apply keeps_bind; [assumption | intros _].
  apply keeps_bind; [frame | intros rows].
  apply keeps_bind;
    [exact (keeps_plain (findAndSetRowsToProcess_plain rows)) | intros _].
  intros st. destruct (rowsToProcess st) as [|r todo] eqn:E; [apply grows_refl|].
  revert st E.
  assert (H0 : forall l, keeps notClose
    (bind (print (W := W) ("Found " ++ Js.ofNat (List.length l) ++ " invoices") info) (fun _ =>
     bind (printWithFilepath "Saving invoices to" (downloadDir this) None) (fun _ =>
     bind (fun st2 => Ret tt (record (ReportProgress (List.length l)) st2)) (fun _ =>
     bind (downloadLoop env this rounds l 0 0) (fun n =>
     ret (mkCounts (List.length l) n))))))).
  { intros l. pose proof (downloadLoop_notClose rounds l 0 0). frame. }
  intros st E. apply (H0 (r :: todo)).
Qed.

Lemma reportCounts_notClose (count : Counts) : keeps notClose (reportCounts (W := W) count).
Proof. unfold reportCounts. frame. Qed.

Lemma downloadPhase_notClose (rounds : nat) : keeps notClose (downloadPhase env this rounds).
Proof.
  pose proof (downloadInvoices_notClose rounds).
  pose proof reportCounts_notClose.
  unfold downloadPhase. frame.
Qed.

(** The second [try]/[catch] of [run] lets no error through. *)
Lemma downloadPhase_catches (rounds : nat) (st : State W) :
  isThrow (downloadPhase env this rounds st) = false.
Proof.
  unfold downloadPhase, tryCatch.
  destruct (bind _ _ st); reflexivity.
Qed.

End MethodsKeep.

(* ===================================================================== *)
(** ** Polling for the downloaded file *)
(* ===================================================================== *)

Section Polling.

Variable W : Type.
Variable env : Env W.

Let D := driver env.

Lemma waitUntilFileIsDownloaded_no_throw (rounds : nat) (filePath : string) :
  forall st, isThrow (waitUntilFileIsDownloaded env rounds filePath st) = false.
Proof.
  induction rounds as [|rounds IH]; intros st; cbn [waitUntilFileIsDownloaded].
  - reflexivity.
  - unfold bind at 1, pathExists, call.
    destruct (fsPathExists (driver env) filePath (world st)); [reflexivity|].
    unfold bind, onPage. cbn [page record withWorld].
    destruct (page st) as [p|]; [unfold waitForTimeout, call|]; apply IH.
Qed.

Lemma waitUntilFileIsDownloaded_found (p : Page) (filePath : string) (k : nat) :
  forall rounds st,
    page st = Some p ->
    k < rounds ->
    (forall j, j < k -> fsPathExists D filePath (afterWaits D p j (world st)) = false) ->
    fsPathExists D filePath (afterWaits D p k (world st)) = true ->
    waitUntilFileIsDownloaded env rounds filePath st = Ret tt (polled D p filePath k st).
Proof.
  induction k as [|k IH]; intros rounds st Hp Hk Habs Hpres;
    (destruct rounds as [|rounds]; [lia|]); cbn [waitUntilFileIsDownloaded];
    unfold bind at 1, pathExists, call.
  - cbn [afterWaits] in Hpres. fold D. rewrite Hpres.
    unfold ret, polled, record, withWorld. cbn. reflexivity.
  - pose proof (Habs 0 ltac:(lia)) as H0. cbn [afterWaits] in H0.
    fold D. rewrite H0.
    unfold bind, onPage. cbn [page record withWorld]. rewrite Hp.
    unfold waitForTimeout, call. cbn [world record withWorld].
    rewrite IH; cbn [page world record withWorld]; auto; try lia.
    + unfold polled. cbn [world trace rowsToProcess browser page record withWorld polls afterWaits].
      f_equal. f_equal. rewrite <- !app_assoc. reflexivity.
    + intros j Hj. apply (Habs (S j)). lia.
Qed.

Lemma waitUntilFileIsDownloaded_absent (p : Page) (filePath : string) (rounds : nat) :
  forall st,
    page st = Some p ->
    (forall j, j < rounds -> fsPathExists D filePath (afterWaits D p j (world st)) = false) ->
    waitUntilFileIsDownloaded env rounds filePath st = Pending.
Proof.
  induction rounds as [|rounds IH]; intros st Hp Habs; cbn [waitUntilFileIsDownloaded];
    [reflexivity|].
  unfold bind at 1, pathExists, call.
  pose proof (Habs 0 ltac:(lia)) as H0. cbn [afterWaits] in H0.
  fold D. rewrite H0.
  unfold bind, onPage. cbn [page record withWorld]. rewrite Hp.
  unfold waitForTimeout, call. cbn [world record withWorld].
  apply IH; cbn [page world record withWorld]; auto.
  intros j Hj. apply (Habs (S j)). lia.
Qed.

End Polling.

(** C8: [waitUntilFileIsDownloaded] never raises.  With the page open, it
    returns at the first poll that finds the file, having waited one second
    after each poll that did not; while the file is absent it is still
    polling after any number of rounds. *)
Theorem waitUntilFileIsDownloaded_polls W (env : Env W) (filePath : string) (st : State W) :
  (forall rounds, isThrow (waitUntilFileIsDownloaded env rounds filePath st) = false)
  /\ forall p, page st = Some p ->
       (forall k rounds,
           k < rounds ->
           (forall j, j < k ->
                 fsPathExists (driver env) filePath
                   (afterWaits (driver env) p j (world st)) = false) ->
           fsPathExists (driver env) filePath
             (afterWaits (driver env) p k (world st)) = true ->
           waitUntilFileIsDownloaded env rounds filePath st
           = Ret tt (polled (driver env) p filePath k st))
       /\ ((forall j, fsPathExists (driver env) filePath
                        (afterWaits (driver env) p j (world st)) = false) ->
           forall rounds, waitUntilFileIsDownloaded env rounds filePath st = Pending).
Proof.
  split; [intros rounds; apply waitUntilFileIsDownloaded_no_throw|].
  intros p Hp. split.
  - intros k rounds. now apply waitUntilFileIsDownloaded_found.
  - intros Habs rounds. eapply waitUntilFileIsDownloaded_absent; eauto.
Qed.

(* ===================================================================== *)
(** ** Classifying the counts *)
(* ===================================================================== *)

(** C6: the report of the counts is one message whose level is that of the
    outcome: nothing to do when [total = 0], full success when
    [total = downloaded] and [total > 0], total failure when
    [downloaded = 0] and [total > 0], partial success otherwise; nothing
    else changes. *)
Theorem reportCounts_classifies W (totalCandidates downloadedCount : nat) (st : State W) :
  reportCounts (mkCounts totalCandidates downloadedCount) st
  = Ret tt (record (Report (levelOf (classify totalCandidates downloadedCount))
                      (match classify totalCandidates downloadedCount with
                       | NothingToDo => "No invoices found to download"
                       | _ => "Downloaded " ++ Js.ofNat downloadedCount ++ "/"
                                ++ Js.ofNat totalCandidates ++ " invoices"
                       end)) st)
  /\ (classify totalCandidates downloadedCount = NothingToDo <-> totalCandidates = 0)
  /\ (classify totalCandidates downloadedCount = FullSuccess <-> totalCandidates = downloadedCount /\ 0 < totalCandidates)
  /\ (classify totalCandidates downloadedCount = TotalFailure <-> downloadedCount = 0 /\ 0 < totalCandidates)
  /\ (classify totalCandidates downloadedCount = PartialSuccess
      <-> ~ totalCandidates = 0 /\ ~ totalCandidates = downloadedCount /\ ~ (downloadedCount = 0 /\ 0 < totalCandidates)).
Proof.
  unfold reportCounts, classify, print. cbn [total downloaded].
  destruct (Nat.eqb_spec totalCandidates 0) as [->|Hz].
  - cbn. repeat split; try discriminate; try lia; auto.
  - replace (0 <? totalCandidates)%nat with true by (symmetry; apply Nat.ltb_lt; lia).
    destruct (Nat.eqb_spec totalCandidates downloadedCount) as [->|Hd].
    + cbn. repeat split; try discriminate; try lia; auto.
    + destruct (Nat.eqb_spec downloadedCount 0) as [->|Hn];
        cbn; repeat split; try discriminate; try lia; auto.
Qed.

(* ===================================================================== *)
(** ** Discovery *)
(* ===================================================================== *)

Lemma isBefore_strictlyBefore (w d : Moment.t) :
  Moment.isBefore w d = true <-> strictlyBefore w d.
Proof.
  unfold Moment.isBefore, strictlyBefore. split.
  - destruct (Moment.valueOf w) as [x|], (Moment.valueOf d) as [y|]; try discriminate.
    intros H. exists x, y. repeat split. now apply Z.ltb_lt.
  - intros (x & y & -> & -> & H). now apply Z.ltb_lt.
Qed.

Lemma isBefore_invalid (w d : Moment.t) :
  Moment.isValid d = false -> Moment.isBefore w d = false.
Proof.
  unfold Moment.isValid, Moment.isBefore.
  destruct (Moment.valueOf w), (Moment.valueOf d); auto; discriminate.
Qed.

Section DiscoveryFacts.

Variable W : Type.
Variable env : Env W.
Variable this : Hunter.

Lemma candidate_date (i : nat) (text : string) :
  Moment.valueOf (date (candidate env this i text))
  = Moment.valueOf (parsedDate env this text).
Proof. reflexivity. Qed.

Lemma findRowsLoop_reads (p : Page) (rows : list ElementHandle) :
  forall i result st,
    findRowsLoop env this p rows i result st
    = bind (readDateCells env this p rows i)
           (fun texts => ret (result ++ selectRows env this i texts)%list) st.
Proof.
  induction rows as [|r rows IH]; intros i result st;
    cbn [findRowsLoop readDateCells].
  - unfold bind, ret. cbn [selectRows]. now rewrite app_nil_r.
  - unfold bind.
    destruct (call _ _ st) as [text s1|e s1|]; try reflexivity.
    change (Moment.isBefore (lastInvoiceDate this) (date (candidate env this i text)))
      with (Moment.isBefore (lastInvoiceDate this) (parsedDate env this text)).
    destruct (Moment.isBefore (lastInvoiceDate this) (parsedDate env this text)) eqn:Hb;
      rewrite IH; unfold bind, ret;
      destruct (readDateCells env this p rows (S i) s1); try reflexivity;
      cbn [selectRows]; rewrite Hb; [|reflexivity].
    now rewrite <- app_assoc.
Qed.

Lemma findRowsToProcess_reads (p : Page) (rows : list ElementHandle) (st : State W) :
  page st = Some p ->
  findRowsToProcess env this rows st
  = bind (readDateCells env this p rows 0)
         (fun texts => ret (selectRows env this 0 texts)) st.
Proof. intros Hp. unfold findRowsToProcess. rewrite Hp. apply findRowsLoop_reads. Qed.

Lemma readDateCells_length (p : Page) (rows : list ElementHandle) :
  forall i st texts st',
    readDateCells env this p rows i st = Ret texts st' ->
    List.length texts = List.length rows.
Proof.
  induction rows as [|r rows IH]; intros i st texts st' H; cbn [readDateCells] in H.
  - now inversion H.
  - apply bind_Ret in H as (text & s1 & _ & H).
    apply bind_Ret in H as (rest & s2 & H & E).
    inversion E; subst. cbn. f_equal. eapply IH; eauto.
Qed.

Lemma selectRows_intro (texts : list string) :
  forall i j text,
    nth_error texts j = Some text ->
    Moment.isBefore (lastInvoiceDate this) (parsedDate env this text) = true ->
    In (candidate env this (i + j) text) (selectRows env this i texts).
Proof.
  induction texts as [|t texts IH]; intros i j text Hn Hb; [now destruct j|].
  cbn [selectRows]. destruct j as [|j]; cbn [nth_error] in Hn.
  - inversion Hn; subst. rewrite Hb, Nat.add_0_r. now left.
  - replace (i + S j) with (S i + j) by lia.
    destruct (Moment.isBefore _ (parsedDate env this t)); [right|]; now apply IH.
Qed.

Lemma selectRows_elim (texts : list string) :
  forall i r,
    In r (selectRows env this i texts) ->
    exists j text,
      nth_error texts j = Some text /\ r = candidate env this (i + j) text
      /\ Moment.isBefore (lastInvoiceDate this) (parsedDate env this text) = true.
Proof.
  induction texts as [|t texts IH]; intros i r Hin; [contradiction|].
  cbn [selectRows] in Hin.
  destruct (Moment.isBefore _ (parsedDate env this t)) eqn:Hb.
  - destruct Hin as [<-|Hin].
    + exists 0, t. rewrite Nat.add_0_r. auto.
    + apply IH in Hin as (j & text & Hn & -> & Hb').
      exists (S j), text. replace (i + S j) with (S i + j) by lia. auto.
  - apply IH in Hin as (j & text & Hn & -> & Hb').
    exists (S j), text. replace (i + S j) with (S i + j) by lia. auto.
Qed.

(** A row is among the selected ones exactly when the watermark is
    strictly before its date. *)
Lemma selected_iff (texts : list string) (i : nat) (text : string) :
  nth_error texts i = Some text ->
  In (candidate env this i text) (selectRows env this 0 texts)
  <-> strictlyBefore (lastInvoiceDate this) (parsedDate env this text).
Proof.
  intros Hn. rewrite <- isBefore_strictlyBefore. split.
  - intros Hin. apply selectRows_elim in Hin as (j & text' & _ & E & Hb).
    unfold Moment.isBefore in *. rewrite <- candidate_date with (i := i).
    rewrite E. exact Hb.
  - intros Hb. now apply (selectRows_intro texts 0 i).
Qed.

End DiscoveryFacts.

(** C1: once the date cells are read, [findRowsToProcess] returns the rows
    selected among them, and a row is selected if and only if the watermark
    is strictly before its parsed date: a date equal to the watermark and a
    date before it are left out. *)
Theorem findRowsToProcess_selects W (env : Env W) (this : Hunter)
        (rows : list ElementHandle) (p : Page) (st st' : State W) (texts : list string) :
  page st = Some p ->
  readDateCells env this p rows 0 st = Ret texts st' ->
  findRowsToProcess env this rows st = Ret (selectRows env this 0 texts) st'
  /\ List.length texts = List.length rows
  /\ forall i text,
      nth_error texts i = Some text ->
      let d := parsedDate env this text in
      let w := lastInvoiceDate this in
      (In (candidate env this i text) (selectRows env this 0 texts) <-> strictlyBefore w d)
      /\ (Moment.valueOf d = Moment.valueOf w ->
          ~ In (candidate env this i text) (selectRows env this 0 texts))
      /\ (strictlyBefore d w ->
          ~ In (candidate env this i text) (selectRows env this 0 texts)).
Proof.
  intros Hp Hread. split; [|split].
  - rewrite findRowsToProcess_reads with (p := p) by exact Hp. unfold bind. now rewrite Hread.
  - eapply readDateCells_length; eauto.
  - intros i text Hn d w. pose proof (selected_iff env this texts i Hn) as Hiff.
    split; [exact Hiff|]. split; intros H Hin; apply Hiff in Hin;
      destruct Hin as (x & y & Hw & Hd & Hlt).
    + fold d w in Hd, Hw. rewrite H, Hw in Hd. inversion Hd. lia.
    + destruct H as (y' & x' & Hd' & Hw' & Hlt').
      fold d in Hd. fold w in Hw. rewrite Hd in Hd'. rewrite Hw in Hw'.
      inversion Hd'. inversion Hw'. lia.
Qed.

(** C4, as the code has it: a label that cannot be read as a date gives an
    invalid date, which nothing is before, so the row is left out and the
    rows after the watermark are returned all the same; the call is cut
    short only when reading a date cell raises. *)
Theorem unreadable_label_is_skipped W (env : Env W) (this : Hunter)
        (rows : list ElementHandle) (p : Page) (st : State W) :
  page st = Some p ->
  (forall texts st',
      readDateCells env this p rows 0 st = Ret texts st' ->
      findRowsToProcess env this rows st = Ret (selectRows env this 0 texts) st'
      /\ forall i text,
          nth_error texts i = Some text ->
          (Moment.isValid (parsedDate env this text) = false ->
           ~ In (candidate env this i text) (selectRows env this 0 texts))
          /\ (strictlyBefore (lastInvoiceDate this) (parsedDate env this text) ->
              In (candidate env this i text) (selectRows env this 0 texts)))
  /\ (forall e st',
         findRowsToProcess env this rows st = Throw e st' ->
         readDateCells env this p rows 0 st = Throw e st').
Proof.
  intros Hp. rewrite findRowsToProcess_reads with (p := p) by exact Hp. unfold bind. split.
  - intros texts st' ->. split; [reflexivity|].
    intros i text Hn. pose proof (selected_iff env this texts i Hn) as Hiff.
    split; [|apply Hiff].
    intros Hinv Hin. apply Hiff, isBefore_strictlyBefore in Hin.
    now rewrite isBefore_invalid in Hin.
  - intros e st'. destruct (readDateCells env this p rows 0 st); try discriminate.
    intros H. now inversion H.
Qed.

(** C9: when the list view shows the same labels again and the watermark
    is the latest date selected by the first run, the second run selects
    nothing. *)
Theorem rerun_selects_nothing W (env : Env W) (E : EndesaConfig) (a1 a2 : Args)
        (rows : list ElementHandle) (p1 p2 : Page) (st1 st1' st2 st2' : State W)
        (texts : list string) (latest : Z) :
  page st1 = Some p1 ->
  page st2 = Some p2 ->
  readDateCells env (constructor E a1) p1 rows 0 st1 = Ret texts st1' ->
  readDateCells env (constructor E a2) p2 rows 0 st2 = Ret texts st2' ->
  Moment.valueOf (argLastInvoiceDate a2) = Some latest ->
  (exists r, In r (selectRows env (constructor E a1) 0 texts)
             /\ Moment.valueOf (date r) = Some latest) ->
  (forall r x, In r (selectRows env (constructor E a1) 0 texts) ->
               Moment.valueOf (date r) = Some x -> (x <= latest)%Z) ->
  findRowsToProcess env (constructor E a1) rows st1
  = Ret (selectRows env (constructor E a1) 0 texts) st1'
  /\ findRowsToProcess env (constructor E a2) rows st2 = Ret [] st2'
  /\ List.length (selectRows env (constructor E a2) 0 texts) = 0.
Proof.
  intros Hp1 Hp2 Hr1 Hr2 Hw2 (r0 & Hin0 & Hv0) Hmax.
  assert (Hnone : selectRows env (constructor E a2) 0 texts = []).
  { destruct (selectRows env (constructor E a2) 0 texts) as [|r l] eqn:Esel; [reflexivity|].
    exfalso.
    assert (Hin : In r (selectRows env (constructor E a2) 0 texts)) by (rewrite Esel; now left).
    apply selectRows_elim in Hin as (j & text & Hn & _ & Hb).
    apply isBefore_strictlyBefore in Hb as (x & y & Hx & Hy & Hlt).
    cbn [lastInvoiceDate constructor] in Hx. rewrite Hw2 in Hx. inversion Hx; subst x.
    apply selectRows_elim in Hin0 as (j0 & text0 & _ & -> & Hb0).
    apply isBefore_strictlyBefore in Hb0 as (w & y0 & Hw & Hy0 & Hlt0).
    rewrite candidate_date in Hv0. rewrite Hy0 in Hv0. inversion Hv0; subst y0.
    assert (Hsel : In (candidate env (constructor E a1) j text)
                      (selectRows env (constructor E a1) 0 texts)).
    { apply selected_iff; [exact Hn|]. exists w, y. repeat split; auto. lia. }
    specialize (Hmax _ y Hsel). rewrite candidate_date in Hmax.
    specialize (Hmax Hy). lia. }
  split; [|split].
  - rewrite findRowsToProcess_reads with (p := p1) by exact Hp1. unfold bind. now rewrite Hr1.
  - rewrite findRowsToProcess_reads with (p := p2) by exact Hp2. unfold bind. rewrite Hr2.
    unfold ret. now rewrite Hnone.
  - now rewrite Hnone.
Qed.

(* ===================================================================== *)
(** ** Rules for outcomes *)
(* ===================================================================== *)

Section PostRules.

Variables (S A B : Type).

Lemma post_ret (a : A) (Q : A -> S -> Prop) E (st : S) : Q a st -> post (ret a) Q E st.
Proof. auto. Qed.

Lemma post_bind (m : M S A) (k : A -> M S B) Q E (st : S) :
  post m (fun a s => post (k a) Q E s) E st -> post (bind m k) Q E st.
Proof. unfold post, bind. destruct (m st); auto. Qed.

Lemma post_tryCatch (body : M S A) (handler : Error -> M S A) Q E (st : S) :
  post body Q (fun e s => post (handler e) Q E s) st -> post (tryCatch body handler) Q E st.
Proof. unfold post, tryCatch. destruct (body st); auto. Qed.

Lemma post_cases (m : M S A) (Q : A -> S -> Prop) (E : Error -> S -> Prop) (st : S) :
  (forall a s, m st = Ret a s -> Q a s) ->
  (forall e s, m st = Throw e s -> E e s) ->
  post m Q E st.
Proof. unfold post. destruct (m st); auto. Qed.

Lemma post_weaken (m : M S A) (Q Q' : A -> S -> Prop) (E E' : Error -> S -> Prop) (st : S) :
  post m Q E st ->
  (forall a s, Q a s -> Q' a s) -> (forall e s, E e s -> E' e s) ->
  post m Q' E' st.
Proof. unfold post. destruct (m st); auto. Qed.

End PostRules.

Lemma post_keeps W A (ok : Event -> Prop) (m : M (State W) A) (st : State W) :
  keeps ok m ->
  post m (fun _ s => grows ok st s) (fun _ s => grows ok st s) st.
Proof. intros H. exact (H st). Qed.

Lemma plain_infos (l : list Event) : Forall plain l -> filter isInfo l = [].
Proof. intros H. apply filter_none. eapply Forall_impl; [|exact H]. now intros ev (_ & ? & _). Qed.

Lemma plain_errors (l : list Event) : Forall plain l -> filter isError l = [].
Proof. intros H. apply filter_none. eapply Forall_impl; [|exact H]. now intros ev (_ & _ & ?). Qed.

Lemma notClose_closes (l : list Event) : Forall notClose l -> filter isClose l = [].
Proof. apply filter_none. Qed.

(* ===================================================================== *)
(** ** The download loop *)
(* ===================================================================== *)

Section Loop.

Variable W : Type.
Variable env : Env W.
Variable this : Hunter.

Lemma processRowItem_attempted (rounds : nat) (row : ProcessedRow) (p : Page)
      (st : State W) :
  page st = Some p ->
  post (processRowItem env this rounds row)
       (fun _ s => attempted this p row st s) (fun _ s => attempted this p row st s) st.
Proof.
  intros Hp. unfold processRowItem. apply post_bind.
  unfold post at 1, onPage. rewrite Hp. unfold click, call.
  destruct (drvClick (driver env) p _ (world st)) as [[] w|e w].
  - eapply post_weaken.
    + apply post_keeps with (ok := plain).
      pose proof (saveInvoice_plain env this rounds (downloadDir this) row).
      unfold waitForSelector. frame.
    + intros _ s (more & T & F & P & B). exists more. rewrite T, P, B.
      cbn [trace page browser record withWorld]. rewrite <- app_assoc. auto.
    + intros _ s (more & T & F & P & B). exists more. rewrite T, P, B.
      cbn [trace page browser record withWorld]. rewrite <- app_assoc. auto.
  - exists []. auto.
Qed.

End Loop.

Section TurnByTurn.

Variable W : Type.
Variable env : Env W.
Variable this : Hunter.
Variable rounds : nat.

(** A turn whose return to the list view returned: the counter goes up
    when the attempt returns and stays when it raises. *)
Lemma loopBody_saved (row : ProcessedRow) (i c : nat) (st s1 s2 : State W) :
  (if (0 <? i)%nat then navigateToInvoicesPage env this else ret tt) st = Ret tt s1 ->
  processRowItem env this rounds row (entered env row i s1) = Ret tt s2 ->
  loopBody env this rounds row i c st = Ret (S c) (advanced env s2).
Proof.
  intros Hnav Hrow. unfold loopBody.
  rewrite (@bind_step _ _ _ _ _ _ _ _ Hnav).
  unfold entered, started in Hrow.
  destruct (i =? 0)%nat; cbv [bind tryCatch print ret]; now rewrite Hrow.
Qed.

Lemma loopBody_failed (row : ProcessedRow) (i c : nat) (st s1 s2 : State W) (e : Error) :
  (if (0 <? i)%nat then navigateToInvoicesPage env this else ret tt) st = Ret tt s1 ->
  processRowItem env this rounds row (entered env row i s1) = Throw e s2 ->
  loopBody env this rounds row i c st = Ret c (advanced env (record (failed row) s2)).
Proof.
  intros Hnav Hrow. unfold loopBody.
  rewrite (@bind_step _ _ _ _ _ _ _ _ Hnav).
  unfold entered, started in Hrow.
  destruct (i =? 0)%nat; cbv [bind tryCatch print ret]; now rewrite Hrow.
Qed.

(** What a turn adds to the trace up to the end of the attempt. *)
Lemma turn_calls (row : ProcessedRow) (i : nat) (p : Page) (st s1 : State W) :
  page st = Some p ->
  (if (0 <? i)%nat then navigateToInvoicesPage env this else ret tt) st = Ret tt s1 ->
  post (processRowItem env this rounds row)
       (fun _ s2 =>
          exists before more,
            trace s2 = (trace st ++ before ++ started row
                          :: Click p (actionSelector this row) :: more)%list
            /\ Forall plain before /\ Forall plain more /\ page s2 = Some p)
       (fun _ s2 =>
          exists before more,
            trace s2 = (trace st ++ before ++ started row
                          :: Click p (actionSelector this row) :: more)%list
            /\ Forall plain before /\ Forall plain more /\ page s2 = Some p)
       (entered env row i s1).
Proof.
  intros Hp Hnav.
  assert (G1 : grows plain st s1).
  { assert (K : keeps plain (if (0 <? i)%nat then navigateToInvoicesPage env this else ret tt))
      by (apply keeps_if; [apply navigateToInvoicesPage_plain | apply keeps_ret]).
    specialize (K st). now rewrite Hnav in K. }
  destruct G1 as (n1 & T1 & F1 & P1 & _).
  assert (G2 : exists n2, trace (entered env row i s1) = (trace s1 ++ n2 ++ [started row])%list
                          /\ Forall plain n2 /\ page (entered env row i s1) = page s1).
  { unfold entered. destruct (i =? 0)%nat.
    - exists [Report log (seperator env)]. cbn. rewrite <- app_assoc.
      repeat split; auto. repeat constructor.
    - exists []. cbn. repeat split; auto. }
  destruct G2 as (n2 & T2 & F2 & P2).
  assert (Hp2 : page (entered env row i s1) = Some p) by congruence.
  eapply post_weaken; [apply (@processRowItem_attempted W env this rounds row p _ Hp2)| |];
    intros _ s2 (more & T & F & P & _);
    exists (n1 ++ n2)%list, more; rewrite T, T2, T1, <- !app_assoc;
    (split; [reflexivity|]); (split; [now apply Forall_app|]); (split; [exact F|]); congruence.
Qed.

(** A turn that returns was one of these two. *)
Lemma loopBody_returned (row : ProcessedRow) (i c c' : nat) (st st' : State W) :
  loopBody env this rounds row i c st = Ret c' st' ->
  exists s1,
    (if (0 <? i)%nat then navigateToInvoicesPage env this else ret tt) st = Ret tt s1
    /\ ((exists s2, processRowItem env this rounds row (entered env row i s1) = Ret tt s2
                    /\ c' = S c /\ st' = advanced env s2)
        \/ (exists e s2, processRowItem env this rounds row (entered env row i s1) = Throw e s2
                         /\ c' = c /\ st' = advanced env (record (failed row) s2))).
Proof.
  intros H.
  destruct ((if (0 <? i)%nat then navigateToInvoicesPage env this else ret tt) st)
    as [[] s1|e s1|] eqn:Hnav.
  - exists s1. split; [reflexivity|].
    destruct (processRowItem env this rounds row (entered env row i s1)) as [[] s2|e s2|] eqn:Hrow.
    + left. exists s2. split; [reflexivity|].
      rewrite (@loopBody_saved row i c st s1 s2 Hnav Hrow) in H.
      apply Ret_inj in H as [<- <-]. auto.
    + right. exists e, s2. split; [reflexivity|].
      rewrite (@loopBody_failed row i c st s1 s2 e Hnav Hrow) in H.
      apply Ret_inj in H as [<- <-]. auto.
    + exfalso. unfold loopBody in H. rewrite (@bind_step _ _ _ _ _ _ _ _ Hnav) in H.
      unfold entered, started in Hrow. revert H.
      destruct (i =? 0)%nat; cbv [bind tryCatch print ret]; now rewrite Hrow.
  - exfalso. unfold loopBody, bind at 1 in H. now rewrite Hnav in H.
  - exfalso. unfold loopBody, bind at 1 in H. now rewrite Hnav in H.
Qed.

(** A loop that returns went turn by turn. *)
Lemma downloadLoop_returned (rows : list ProcessedRow) :
  forall (i c c' : nat) (st st' : State W),
    downloadLoop env this rounds rows i c st = Ret c' st' ->
    exists raised,
      Turns env this rounds rows i st raised st'
      /\ c' + List.length raised = c + List.length rows.
Proof.
  induction rows as [|row rows IH]; intros i c c' st st' H; cbn [downloadLoop] in H.
  - apply Ret_inj in H as [<- <-]. exists []. split; [constructor | cbn; lia].
  - apply bind_Ret in H as (c1 & s & Hturn & Hrest).
    apply loopBody_returned in Hturn as (s1 & Hnav & [(s2 & Hrow & -> & ->)|(e & s2 & Hrow & -> & ->)]);
      apply IH in Hrest as (raised & HT & Hc).
    + exists raised. split; [eapply Turns_saved; eauto | cbn; lia].
    + exists (row :: raised). split; [eapply Turns_failed; eauto | cbn; lia].
Qed.

End TurnByTurn.

(** C2: in the download loop an error raised while a record is opened or
    downloaded is caught in the turn of that record.  Take any run of the
    loop over [rows] in which each return to the list view returns and
    [processRowItem] returns or raises on each record, [raised] being the
    records on which it raised: the loop returns, in the state the last
    turn left, the counter it was given plus the number of records minus
    the number of those in [raised]; every record was attempted, in
    order, the click on its action button included; and the failures
    reported are those of the records in [raised].  Every run in which the
    loop returns is such a run. *)
Theorem downloadLoop_isolates_failures W (env : Env W) (this : Hunter) (rounds : nat)
        (p : Page) (rows : list ProcessedRow) (i c : nat) (st : State W) :
  page st = Some p ->
  (forall (raised : list ProcessedRow) (st' : State W),
      Turns env this rounds rows i st raised st' ->
      downloadLoop env this rounds rows i c st
      = Ret (c + List.length rows - List.length raised) st'
      /\ List.length raised <= List.length rows
      /\ exists new,
          trace st' = (trace st ++ new)%list
          /\ filter isInfo new = map started rows
          /\ (forall row, In row rows -> In (Click p (actionSelector this row)) new)
          /\ filter isError new = map failed raised)
  /\ (forall (c' : nat) (st' : State W),
         downloadLoop env this rounds rows i c st = Ret c' st' ->
         exists raised,
           Turns env this rounds rows i st raised st'
           /\ c' = c + List.length rows - List.length raised).
Proof.
  intros Hp. split.
  2:{ intros c' st' H.
      destruct (@downloadLoop_returned W env this rounds rows i c c' st st' H) as (raised & HT & Hc).
      exists raised. split; [exact HT | lia]. }
  intros raised st' HT. revert c Hp.
  induction HT as [i st|row rows i st s1 s2 raised st' Hnav Hrow HT IH
                  |row rows i st s1 s2 e raised st' Hnav Hrow HT IH]; intros c Hp.
  - cbn [downloadLoop List.length]. unfold ret.
    replace (c + 0 - 0) with c by lia. split; [reflexivity|]. split; [lia|].
    exists []. rewrite app_nil_r. repeat split; auto.
  - pose proof (@turn_calls W env this rounds row i p st s1 Hp Hnav) as K.
    unfold post in K. rewrite Hrow in K. destruct K as (before & more & T & Fb & Fm & P2).
    destruct (IH (S c)) as (R & L & new & T' & I' & C' & E'); [exact P2|].
    cbn [downloadLoop List.length].
    rewrite (@bind_step _ _ _ _ _ _ _ _ (@loopBody_saved W env this rounds row i c st s1 s2 Hnav Hrow)).
    rewrite R. replace (S c + List.length rows - List.length raised)
      with (c + S (List.length rows) - List.length raised) by lia.
    split; [reflexivity|]. split; [lia|].
    exists (before ++ [started row; Click p (actionSelector this row)] ++ more
              ++ [ReportTick; Report log (seperator env)] ++ new)%list.
    split.
    { rewrite T'. cbn [advanced trace record]. rewrite T.
      rewrite <- ?app_assoc. cbn [app]. rewrite <- ?app_assoc. reflexivity. }
    rewrite !filter_app, (plain_infos Fb), (plain_errors Fb),
      (plain_infos Fm), (plain_errors Fm), I', E'.
    split; [reflexivity|]. split; [|reflexivity].
    intros r [<-|Hin]; apply in_or_app; right; apply in_or_app; [left; right; now left|right].
    apply in_or_app; right. apply in_or_app; right. now apply C'.
  - pose proof (@turn_calls W env this rounds row i p st s1 Hp Hnav) as K.
    unfold post in K. rewrite Hrow in K. destruct K as (before & more & T & Fb & Fm & P2).
    destruct (IH c) as (R & L & new & T' & I' & C' & E'); [exact P2|].
    cbn [downloadLoop List.length].
    rewrite (@bind_step _ _ _ _ _ _ _ _ (@loopBody_failed W env this rounds row i c st s1 s2 e Hnav Hrow)).
    rewrite R. replace (c + List.length rows - List.length raised)
      with (c + S (List.length rows) - S (List.length raised)) by lia.
    split; [reflexivity|]. split; [lia|].
    exists (before ++ [started row; Click p (actionSelector this row)] ++ more
              ++ [failed row; ReportTick; Report log (seperator env)] ++ new)%list.
    split.
    { rewrite T'. cbn [advanced trace record]. rewrite T.
      rewrite <- ?app_assoc. cbn [app]. rewrite <- ?app_assoc. reflexivity. }
    rewrite !filter_app, (plain_infos Fb), (plain_errors Fb),
      (plain_infos Fm), (plain_errors Fm), I', E'.
    split; [reflexivity|]. split; [|reflexivity].
    intros r [<-|Hin]; apply in_or_app; right; apply in_or_app; [left; right; now left|right].
    apply in_or_app; right. apply in_or_app; right. now apply C'.
Qed.

(* ===================================================================== *)
(** ** Saving an invoice *)
(* ===================================================================== *)

(** ** Saving on the file system *)

Section Performing.

Variable W : Type.
Variable env : Env W.
Variable this : Hunter.

Lemma call_ok A (ev : Event) (op : W -> Res W A) (st : State W) (a : A) (w : W) :
  op (world st) = Ok a w -> call ev op st = Ret a (extended w [ev] st).
Proof. unfold call. now intros ->. Qed.

Lemma onPage_ok (ev : Page -> Event) (op : Page -> W -> Res W unit) (p : Page)
      (st : State W) (w : W) :
  page st = Some p -> op p (world st) = Ok tt w ->
  onPage (fun q => call (ev q) (op q)) st = Ret tt (extended w [ev p] st).
Proof. intros Hp Hop. unfold onPage. rewrite Hp. now apply call_ok. Qed.

Lemma extended_extended (w1 w2 : W) (n1 n2 : list Event) (st : State W) :
  extended w2 n2 (extended w1 n1 st) = extended w2 (n1 ++ n2) st.
Proof. unfold extended. cbn. now rewrite app_assoc. Qed.

(** What [saveInvoice] does when the browser takes the request and the
    file is there at poll [k]: it renames the file on the file system as
    it is then, and returns or raises as the rename does. *)
Lemma saveInvoice_performs (rounds : nat) (downloadPath : string) (row : ProcessedRow)
      (p : Page) (k : nat) (st : State W) (w1 w2 w3 : W) :
  page st = Some p ->
  drvSetDownloadBehavior (driver env) p downloadPath (world st) = Ok tt w1 ->
  drvWaitForSelector (driver env) p (invoiceDownloadButton (selectors this)) false w1
  = Ok tt w2 ->
  drvClick (driver env) p (invoiceDownloadButton (selectors this)) w2 = Ok tt w3 ->
  k < rounds ->
  (forall j, j < k ->
        fsPathExists (driver env) (downloadPath ++ "/" ++ fileName this)
          (afterWaits (driver env) p j w3) = false) ->
  fsPathExists (driver env) (downloadPath ++ "/" ++ fileName this)
    (afterWaits (driver env) p k w3) = true ->
  saveInvoice env this rounds downloadPath row st
  = match fsRename (driver env) (downloadPath ++ "/" ++ fileName this)
                   (downloadPath ++ "/" ++ newFileName env this row)
                   (afterWaits (driver env) p k w3) with
    | Ok _ w' =>
        Ret tt (extended w' (saving env this p downloadPath row k ++ [renamed env this row]) st)
    | Err e w' => Throw e (extended w' (saving env this p downloadPath row k) st)
    end.
Proof.
  intros Hp H1 H2 H3 Hk Habsent Hpresent. unfold saveInvoice.
  rewrite (@bind_step _ _ _ _ _ _ _ _ (@onPage_ok (fun q => SetDownloadBehavior q downloadPath)
                                  (fun q => drvSetDownloadBehavior (driver env) q downloadPath)
                                  p st _ Hp H1)).
  unfold waitForSelector.
  rewrite (@bind_step _ _ _ _ _ _ _ _ (@onPage_ok
             (fun q => WaitForSelector q (invoiceDownloadButton (selectors this)) false)
             (fun q => drvWaitForSelector (driver env) q
                         (invoiceDownloadButton (selectors this)) false)
             p (extended w1 [SetDownloadBehavior p downloadPath] st) _ Hp H2)).
  unfold click.
  rewrite (@bind_step _ _ _ _ _ _ _ _ (@onPage_ok
             (fun q => Click q (invoiceDownloadButton (selectors this)))
             (fun q => drvClick (driver env) q (invoiceDownloadButton (selectors this)))
             p (extended w2 [WaitForSelector p (invoiceDownloadButton (selectors this)) false]
                       (extended w1 [SetDownloadBehavior p downloadPath] st)) _ Hp H3)).
  rewrite !extended_extended. cbn [app].
  rewrite (@bind_step _ _ _ _ _ _ _ _ (@waitUntilFileIsDownloaded_found W env p
                          (downloadPath ++ "/" ++ fileName this) k rounds
                          (extended w3 (downloadRequest this p downloadPath) st)
                          Hp Hk Habsent Hpresent)).
  unfold bind at 1, print at 1. unfold bind at 1, call.
  cbn [world polled record withWorld extended trace rowsToProcess browser page].
  destruct (fsRename _ _ _ _) as [[] w'|e w'];
    unfold bind, printWithFilepath, ret, record, withWorld, polled, extended, saving, renamed;
    cbn [world trace rowsToProcess browser page];
    f_equal; f_equal; now rewrite <- !app_assoc.
Qed.

(** The same for [processRowItem], which opens the invoice first and saves
    to the directory of the object. *)
Lemma processRowItem_performs (rounds : nat) (row : ProcessedRow) (p : Page) (k : nat)
      (st : State W) (w1 w2 w3 w4 w5 : W) :
  page st = Some p ->
  drvClick (driver env) p (actionSelector this row) (world st) = Ok tt w1 ->
  drvWaitForSelector (driver env) p (invoiceContent (selectors this)) true w1 = Ok tt w2 ->
  drvSetDownloadBehavior (driver env) p (downloadDir this) w2 = Ok tt w3 ->
  drvWaitForSelector (driver env) p (invoiceDownloadButton (selectors this)) false w3
  = Ok tt w4 ->
  drvClick (driver env) p (invoiceDownloadButton (selectors this)) w4 = Ok tt w5 ->
  k < rounds ->
  (forall j, j < k ->
        fsPathExists (driver env) (downloadDir this ++ "/" ++ fileName this)
          (afterWaits (driver env) p j w5) = false) ->
  fsPathExists (driver env) (downloadDir this ++ "/" ++ fileName this)
    (afterWaits (driver env) p k w5) = true ->
  processRowItem env this rounds row st
  = match fsRename (driver env) (downloadDir this ++ "/" ++ fileName this)
                   (downloadDir this ++ "/" ++ newFileName env this row)
                   (afterWaits (driver env) p k w5) with
    | Ok _ w' =>
        Ret tt (extended w' (opening this p row ++ saving env this p (downloadDir this) row k
                               ++ [renamed env this row]) st)
    | Err e w' =>
        Throw e (extended w' (opening this p row ++ saving env this p (downloadDir this) row k) st)
    end.
Proof.
  intros Hp H1 H2 H3 H4 H5 Hk Habsent Hpresent. unfold processRowItem.
  unfold click at 1.
  rewrite (@bind_step _ _ _ _ _ _ _ _ (@onPage_ok
             (fun q => Click q (selector row ++ " " ++ invoicesActionCell (selectors this)
                                 ++ " " ++ invoicesActionButton (selectors this)))
             (fun q => drvClick (driver env) q
                         (selector row ++ " " ++ invoicesActionCell (selectors this)
                            ++ " " ++ invoicesActionButton (selectors this)))
             p st _ Hp H1)).
  unfold waitForSelector at 1.
  rewrite (@bind_step _ _ _ _ _ _ _ _ (@onPage_ok
             (fun q => WaitForSelector q (invoiceContent (selectors this)) true)
             (fun q => drvWaitForSelector (driver env) q (invoiceContent (selectors this)) true)
             p (extended w1 [Click p (actionSelector this row)] st) _ Hp H2)).
  rewrite extended_extended.
  rewrite (@saveInvoice_performs rounds (downloadDir this) row p k
             (extended w2 ([Click p (actionSelector this row)]
                             ++ [WaitForSelector p (invoiceContent (selectors this)) true]) st)
             w3 w4 w5 Hp H3 H4 H5 Hk Habsent Hpresent).
  destruct (fsRename _ _ _ _) as [[] w'|e w']; rewrite extended_extended; reflexivity.
Qed.

End Performing.



(* ===================================================================== *)
(** ** Where the invoices go *)
(* ===================================================================== *)

(** ** Entries of a directory *)

Lemma entryName_noSlash (s : string) : entryName s = true -> noSlash s = true.
Proof.
  unfold entryName. intros H.
  apply andb_prop in H as [H _]. apply andb_prop in H as [H _].
  now apply andb_prop in H as [H _].
Qed.

Lemma entryName_intro (s : string) :
  noSlash s = true -> String.eqb s "" = false -> String.eqb s "." = false ->
  String.eqb s ".." = false -> entryName s = true.
Proof. unfold entryName. now intros -> -> -> ->. Qed.

Lemma entryName_elim (s : string) :
  entryName s = true ->
  String.eqb s "" = false /\ String.eqb s "." = false /\ String.eqb s ".." = false.
Proof.
  unfold entryName. intros H.
  apply andb_prop in H as [H H3]. apply andb_prop in H as [H H2].
  apply andb_prop in H as [_ H1].
  repeat split; now apply negb_true_iff.
Qed.

Lemma entryName_first (s : string) :
  entryName s = true -> exists c r, s = String c r /\ Js.isSlash c = false.
Proof.
  intros H. pose proof (entryName_noSlash s H) as N.
  destruct s as [|c r]; [discriminate H|].
  exists c, r. split; [reflexivity|]. cbn in N.
  apply andb_prop in N as [N _]. now apply negb_true_iff.
Qed.

Lemma splitSlash_noSlash (s : string) : noSlash s = true -> Js.splitSlash s = [s].
Proof.
  induction s as [|c r IH]; [reflexivity|]. cbn [noSlash Js.splitSlash].
  intros H. apply andb_prop in H as [Hc Hr]. apply negb_true_iff in Hc.
  rewrite Hc, (IH Hr). reflexivity.
Qed.

Lemma splitSlash_segments (s : string) :
  Forall (fun seg => noSlash seg = true) (Js.splitSlash s).
Proof.
  induction s as [|c r IH]; cbn [Js.splitSlash]; [repeat constructor|].
  destruct (Js.isSlash c) eqn:Ec; [constructor; [reflexivity | exact IH]|].
  destruct (Js.splitSlash r) as [|seg rest]; [repeat constructor; cbn; now rewrite Ec|].
  inversion IH; subst. constructor; [|assumption].
  cbn. now rewrite Ec.
Qed.

Lemma splitSlash_joinSlash (segs : list string) :
  segs <> [] -> Forall (fun seg => noSlash seg = true) segs ->
  Js.splitSlash (Js.joinSlash segs) = segs.
Proof.
  induction segs as [|s rest IH]; [contradiction|]. intros _ F.
  inversion F as [|? ? Hs Hrest]; subst.
  destruct rest as [|s' rest'].
  - cbn. now apply splitSlash_noSlash.
  - change (Js.joinSlash (s :: s' :: rest')) with (s ++ String "/" (Js.joinSlash (s' :: rest'))).
    rewrite splitSlash_app, (splitSlash_noSlash s Hs), IH; [reflexivity|discriminate|assumption].
Qed.

Lemma joinSlash_snoc (segs : list string) (s : string) :
  segs <> [] -> Js.joinSlash (segs ++ [s]) = Js.joinSlash segs ++ "/" ++ s.
Proof.
  induction segs as [|x rest IH]; [contradiction|]. intros _.
  destruct rest as [|y rest'].
  - reflexivity.
  - change (Js.joinSlash ((x :: y :: rest') ++ [s]))
      with (x ++ "/" ++ Js.joinSlash ((y :: rest') ++ [s])).
    rewrite IH by discriminate.
    change (Js.joinSlash (x :: y :: rest')) with (x ++ "/" ++ Js.joinSlash (y :: rest')).
    now rewrite !append_assoc.
Qed.

Lemma joinSlash_first (seg : string) (rest : list string) :
  exists more, Js.joinSlash (seg :: rest) = seg ++ more.
Proof.
  destruct rest as [|y rest'].
  - exists "". cbn. clear. induction seg as [|c r IH]; cbn; [reflexivity | now rewrite <- IH].
  - now exists ("/" ++ Js.joinSlash (y :: rest')).
Qed.

(** ** What [normalizeString] keeps *)

Lemma pushSegment_entry (allow : bool) (stack : list string) (seg : string) :
  entryName seg = true -> Path.pushSegment allow stack seg = seg :: stack.
Proof.
  intros H. apply entryName_elim in H as (H1 & H2 & H3).
  unfold Path.pushSegment. now rewrite H1, H2, H3.
Qed.

Lemma Kept_dots (stack : list string) :
  Forall (fun s => s = "..") stack -> Kept true stack.
Proof.
  induction 1 as [|s stack Hs F IH]; [constructor|]. subst s. now constructor.
Qed.

Lemma pushSegment_Kept (allow : bool) (stack : list string) (seg : string) :
  noSlash seg = true -> Kept allow stack -> Kept allow (Path.pushSegment allow stack seg).
Proof.
  intros Hseg K. unfold Path.pushSegment.
  destruct (String.eqb seg "") eqn:E1; [exact K|].
  destruct (String.eqb seg ".") eqn:E2; [exact K|].
  destruct (String.eqb seg "..") eqn:E3.
  - apply String.eqb_eq in E3. subst seg.
    destruct stack as [|top below].
    + destruct allow eqn:Ea; [|constructor].
      apply Kept_up; [reflexivity | constructor | constructor].
    + destruct (String.eqb top "..") eqn:Et.
      * apply String.eqb_eq in Et. subst top.
        inversion K as [|? Ha F K'|? ? Hn K']; subst.
        -- apply Kept_up; [reflexivity | now constructor | exact K].
        -- discriminate Hn.
      * inversion K as [|? Ha F K'|? ? Hn K']; subst; [discriminate Et | exact K'].
  - apply Kept_name; [|exact K]. now apply entryName_intro.
Qed.

Lemma fold_Kept (allow : bool) (segs : list string) :
  Forall (fun seg => noSlash seg = true) segs ->
  forall stack, Kept allow stack ->
                Kept allow (fold_left (Path.pushSegment allow) segs stack).
Proof.
  induction 1 as [|seg segs Hseg _ IH]; intros stack K; [exact K|].
  cbn [fold_left]. apply IH. now apply pushSegment_Kept.
Qed.

(** Normalising what was kept keeps it all. *)
Lemma fold_rev_Kept (allow : bool) (stack : list string) :
  Kept allow stack -> fold_left (Path.pushSegment allow) (rev stack) [] = stack.
Proof.
  induction 1 as [|stack Ha F K IH|seg stack Hn K IH]; [reflexivity| |];
    cbn [rev]; rewrite fold_left_app, IH; cbn [fold_left].
  - subst allow. unfold Path.pushSegment. cbn [String.eqb Ascii.eqb Bool.eqb].
    destruct stack as [|top below]; [reflexivity|].
    inversion F; subst. reflexivity.
  - now apply pushSegment_entry.
Qed.

Lemma Kept_first (allow : bool) (stack : list string) (seg : string) (rest : list string) :
  Kept allow stack -> rev stack = seg :: rest ->
  exists c r, seg = String c r /\ Js.isSlash c = false.
Proof.
  intros K E.
  assert (Hall : Forall (fun s => exists c r, s = String c r /\ Js.isSlash c = false) stack).
  { clear E. induction K as [|stack Ha F K IH|s stack Hn K IH]; constructor; auto.
    - now exists "."%char, ".".
    - now apply entryName_first. }
  apply Forall_rev in Hall. rewrite E in Hall. now inversion Hall.
Qed.

Lemma startsWithSlash_root (absolute : bool) (seg : string) (rest : list string) (more : string) :
  (exists c r, seg = String c r /\ Js.isSlash c = false) ->
  Path.startsWithSlash ((if absolute then "/" else "") ++ Js.joinSlash (seg :: rest) ++ more)
  = absolute.
Proof.
  intros (c & r & -> & Hc). destruct absolute; [reflexivity|].
  destruct (joinSlash_first (String c r) rest) as (tail & ->).
  cbn. exact Hc.
Qed.

Lemma lastChar_entry (a name : string) :
  entryName name = true -> Path.endsWithSlash (a ++ name) = false.
Proof.
  intros H. pose proof (entryName_noSlash name H) as N.
  destruct name as [|c r]; [discriminate H|].
  unfold Path.endsWithSlash. rewrite lastChar_app. clear H.
  revert c N. induction r as [|c' r IH]; intros c N.
  - cbn in *. apply andb_prop in N as [N _]. now apply negb_true_iff.
  - cbn [noSlash] in N. apply andb_prop in N as [_ N].
    change (Js.lastChar (String c (String c' r))) with (Js.lastChar (String c' r)).
    now apply IH.
Qed.

Lemma root_split (absolute : bool) (s : string) :
  fold_left (Path.pushSegment (negb absolute))
            (Js.splitSlash ((if absolute then "/" else "") ++ s)) []
  = fold_left (Path.pushSegment (negb absolute)) (Js.splitSlash s) [].
Proof. destruct absolute; reflexivity. Qed.

(** A path made of a root, of what a normalisation kept and of one more
    entry is in normal form already, but for the [/] doubled before the
    entry. *)
Lemma normalize_entry (absolute : bool) (stack : list string) (name : string) :
  Kept (negb absolute) stack -> stack <> [] -> entryName name = true ->
  Path.normalize (((if absolute then "/" else "") ++ Js.joinSlash (rev stack) ++ "/")
                    ++ "/" ++ name)
  = ((if absolute then "/" else "") ++ Js.joinSlash (rev stack) ++ "/") ++ name.
Proof.
  intros K Hne Hname.
  destruct (rev stack) as [|seg rest] eqn:Erev.
  { apply (f_equal (@rev string)) in Erev. rewrite rev_involutive in Erev. contradiction. }
  pose proof (Kept_first K Erev) as Hfirst.
  set (root := if absolute then "/" else "").
  set (path := root ++ Js.joinSlash (seg :: rest) ++ String "/" ("/" ++ name)).
  assert (Eform : (root ++ Js.joinSlash (seg :: rest) ++ "/") ++ "/" ++ name = path).
  { unfold path. now rewrite !append_assoc. }
  assert (Hnonempty : String.eqb path "" = false).
  { unfold path. rewrite <- append_assoc. apply append_nonempty. }
  assert (Hstart : Path.startsWithSlash path = absolute).
  { apply startsWithSlash_root. exact Hfirst. }
  assert (Hend : Path.endsWithSlash path = false).
  { unfold path. change (String "/" ("/" ++ name)) with ("//" ++ name).
    rewrite <- !append_assoc. now apply lastChar_entry. }
  assert (Hsegs : Forall (fun s => noSlash s = true) (seg :: rest)).
  { rewrite <- Erev. apply Forall_rev.
    clear - K. induction K as [|stack Ha F K IH|s stack Hn K IH]; constructor; auto.
    now apply entryName_noSlash. }
  assert (Hnorm : Path.normalizeString path (negb absolute)
                  = Js.joinSlash (seg :: rest) ++ "/" ++ name).
  { unfold Path.normalizeString, path, root. rewrite root_split.
    rewrite splitSlash_app, fold_left_app.
    rewrite splitSlash_joinSlash by (discriminate || assumption).
    rewrite <- Erev, (fold_rev_Kept K).
    change ("/" ++ name) with (String "/" name).
    cbn [Js.splitSlash Js.isSlash Ascii.eqb Bool.eqb].
    rewrite (splitSlash_noSlash name (entryName_noSlash name Hname)).
    cbn [fold_left]. unfold Path.pushSegment at 2. cbn [String.eqb].
    rewrite (@pushSegment_entry _ _ name Hname). cbn [rev].
    rewrite joinSlash_snoc by (rewrite Erev; discriminate).
    reflexivity. }
  assert (Hp : String.eqb (Js.joinSlash (seg :: rest) ++ "/" ++ name) "" = false).
  { apply append_nonempty. }
  rewrite Eform. unfold Path.normalize. cbv zeta.
  rewrite Hnonempty, Hstart, Hend, Hnorm, Hp.
  unfold root. destruct absolute; now rewrite ?append_assoc.
Qed.

(** ** The directory [endesa] *)

(** The directory the class saves to: a root, what the normalisation
    keeps of the directory given, and the entry [endesa]. *)
Lemma join_endesa_kept (dir : string) :
  exists (absolute : bool) (stack : list string),
    Kept (negb absolute) stack
    /\ Path.join [dir; "/endesa/"]
       = (if absolute then "/" else "") ++ Js.joinSlash (rev ("endesa" :: stack)) ++ "/".
Proof.
  unfold Path.join. cbn [Path.glue].
  destruct (String.eqb dir "") eqn:Edir.
  - exists true, []. split; [constructor | reflexivity].
  - cbn [String.eqb]. unfold Path.normalize. cbv zeta.
    assert (Hne : String.eqb (dir ++ "/" ++ "/endesa/") "" = false)
      by (destruct dir; [discriminate | reflexivity]).
    rewrite Hne.
    assert (Hend : Path.endsWithSlash (dir ++ "/" ++ "/endesa/") = true).
    { unfold Path.endsWithSlash. change ("/" ++ "/endesa/") with (String "/" "/endesa/").
      rewrite lastChar_app. reflexivity. }
    rewrite Hend.
    set (absolute := Path.startsWithSlash (dir ++ "/" ++ "/endesa/")).
    unfold Path.normalizeString.
    change ("/" ++ "/endesa/") with (String "/" "/endesa/").
    rewrite splitSlash_app, fold_left_app.
    set (stack := fold_left (Path.pushSegment (negb absolute)) (Js.splitSlash dir) []).
    change (fold_left (Path.pushSegment (negb absolute)) (Js.splitSlash "/endesa/") stack)
      with ("endesa" :: stack).
    exists absolute, stack. split.
    + apply fold_Kept; [apply splitSlash_segments | constructor].
    + assert (Hp : String.eqb (Js.joinSlash (rev ("endesa" :: stack))) "" = false).
      { cbn [rev]. destruct (joinSlash_last (rev stack) "endesa") as [pre ->].
        change "endesa" with (String "e" "ndesa"). apply append_nonempty. }
      rewrite Hp. destruct absolute; cbn [negb]; now rewrite ?append_assoc.
Qed.

(** A file put in that directory under an entry name is the entry of that
    name in the directory. *)
Lemma inside_endesa (dir name : string) :
  entryName name = true ->
  Path.normalize (Path.join [dir; "/endesa/"] ++ "/" ++ name)
  = Path.join [dir; "/endesa/"] ++ name.
Proof.
  intros Hname. destruct (join_endesa_kept dir) as (absolute & stack & K & ->).
  apply normalize_entry; [|discriminate|exact Hname].
  now apply Kept_name.
Qed.

Lemma fold_entries (allow : bool) (segs : list string) :
  Forall (fun s => entryName s = true) segs ->
  forall stack, fold_left (Path.pushSegment allow) segs stack = (rev segs ++ stack)%list.
Proof.
  induction 1 as [|seg segs Hseg _ IH]; intros stack; [reflexivity|].
  cbn [fold_left rev]. rewrite (@pushSegment_entry allow stack seg Hseg), IH.
  now rewrite <- app_assoc.
Qed.

(** For a directory written as its entries, the directory of the class is
    the entry [endesa] inside it. *)
Lemma join_endesa_entries (absolute : bool) (segs : list string) :
  segs <> [] -> Forall (fun s => entryName s = true) segs ->
  Path.join [(if absolute then "/" else "") ++ Js.joinSlash segs; "/endesa/"]
  = ((if absolute then "/" else "") ++ Js.joinSlash segs) ++ "/endesa/".
Proof.
  intros Hne F.
  destruct segs as [|seg rest]; [contradiction|].
  assert (Hfirst : exists c r, seg = String c r /\ Js.isSlash c = false).
  { inversion F; subst. now apply entryName_first. }
  assert (Hsegs : Forall (fun s => noSlash s = true) (seg :: rest)).
  { eapply Forall_impl; [|exact F]. intros s. apply entryName_noSlash. }
  set (root := if absolute then "/" else "").
  set (dir := root ++ Js.joinSlash (seg :: rest)).
  set (path := root ++ Js.joinSlash (seg :: rest) ++ String "/" "/endesa/").
  assert (Edir : String.eqb dir "" = false).
  { unfold dir, root. destruct Hfirst as (c & r & -> & _).
    destruct (joinSlash_first (String c r) rest) as (more & ->).
    destruct absolute; reflexivity. }
  assert (Eform : dir ++ "/" ++ "/endesa/" = path).
  { unfold dir, path. now rewrite append_assoc. }
  assert (Hnonempty : String.eqb path "" = false).
  { unfold path. rewrite <- append_assoc. apply append_nonempty. }
  assert (Hstart : Path.startsWithSlash path = absolute).
  { apply startsWithSlash_root. exact Hfirst. }
  assert (Hend : Path.endsWithSlash path = true).
  { unfold path, Path.endsWithSlash. rewrite <- append_assoc, lastChar_app. reflexivity. }
  assert (Hnorm : Path.normalizeString path (negb absolute)
                  = Js.joinSlash (seg :: rest) ++ "/" ++ "endesa").
  { unfold Path.normalizeString, path, root. rewrite root_split.
    rewrite splitSlash_app, fold_left_app.
    rewrite splitSlash_joinSlash by (discriminate || assumption).
    rewrite (fold_entries _ F), app_nil_r.
    change (fold_left (Path.pushSegment (negb absolute)) (Js.splitSlash "/endesa/")
                      (rev (seg :: rest)))
      with ("endesa" :: rev (seg :: rest)).
    change (rev ("endesa" :: rev (seg :: rest)))
      with (rev (rev (seg :: rest)) ++ ["endesa"])%list.
    rewrite rev_involutive. apply joinSlash_snoc. discriminate. }
  assert (Hp : String.eqb (Js.joinSlash (seg :: rest) ++ "/" ++ "endesa") "" = false).
  { apply append_nonempty. }
  unfold Path.join. cbn [Path.glue]. fold root. fold dir. rewrite Edir.
  cbn [String.eqb]. rewrite Eform. unfold Path.normalize. cbv zeta.
  rewrite Hnonempty, Hstart, Hend, Hnorm, Hp.
  unfold dir, root. destruct absolute; now rewrite ?append_assoc.
Qed.

(** C10, as the code has it: the constructor joins the directory it is
    given with [/endesa/].  The directory of the object ends with the
    component [endesa], and for a directory given by its entries it is the
    entry [endesa] of that directory.  [processRowItem] sends the download
    there and renames the file [<invoice name>.<ext>] of that directory,
    on the file system, to the path made of the directory, a [/] and the
    new file name.  That path is the entry of that name in the directory
    whenever the new file name is an entry name; nothing in the class
    makes it one. *)
Theorem invoices_go_under_endesa W (env : Env W) (E : EndesaConfig) (a : Args)
        (rounds : nat) (row : ProcessedRow) :
  let this := constructor E a in
  (exists prefix, downloadDir this = prefix ++ "endesa/")
  /\ (forall (absolute : bool) (segs : list string),
         segs <> [] -> Forall (fun s => entryName s = true) segs ->
         argDownloadDir a = (if absolute then "/" else "") ++ Js.joinSlash segs ->
         downloadDir this = argDownloadDir a ++ "/endesa/")
  /\ (forall (p : Page) (k : nat) (st : State W) (w1 w2 w3 w4 w5 : W),
         page st = Some p ->
         drvClick (driver env) p (actionSelector this row) (world st) = Ok tt w1 ->
         drvWaitForSelector (driver env) p (invoiceContent (selectors this)) true w1
         = Ok tt w2 ->
         drvSetDownloadBehavior (driver env) p (downloadDir this) w2 = Ok tt w3 ->
         drvWaitForSelector (driver env) p (invoiceDownloadButton (selectors this)) false w3
         = Ok tt w4 ->
         drvClick (driver env) p (invoiceDownloadButton (selectors this)) w4 = Ok tt w5 ->
         k < rounds ->
         (forall j, j < k ->
               fsPathExists (driver env) (downloadDir this ++ "/" ++ fileName this)
                 (afterWaits (driver env) p j w5) = false) ->
         fsPathExists (driver env) (downloadDir this ++ "/" ++ fileName this)
           (afterWaits (driver env) p k w5) = true ->
         processRowItem env this rounds row st
         = match fsRename (driver env) (downloadDir this ++ "/" ++ fileName this)
                          (downloadDir this ++ "/" ++ newFileName env this row)
                          (afterWaits (driver env) p k w5) with
           | Ok _ w' =>
               Ret tt (extended w'
                         (opening this p row ++ saving env this p (downloadDir this) row k
                            ++ [renamed env this row])
                         st)
           | Err e w' =>
               Throw e (extended w'
                          (opening this p row ++ saving env this p (downloadDir this) row k)
                          st)
           end)
  /\ (forall name,
         entryName name = true ->
         Path.normalize (downloadDir this ++ "/" ++ name) = downloadDir this ++ name).
Proof.
  intros this. split; [apply join_endesa|]. split; [|split].
  - intros absolute segs Hne F Hdir. cbn [this downloadDir constructor].
    rewrite Hdir. now apply join_endesa_entries.
  - intros p k st w1 w2 w3 w4 w5. apply processRowItem_performs.
  - intros name Hname. cbn [this downloadDir constructor]. now apply inside_endesa.
Qed.

(* ===================================================================== *)
(** ** The run *)
(* ===================================================================== *)

Section Run.

Variable W : Type.
Variable env : Env W.
Variable this : Hunter.

Lemma init_opens (st : State W) :
  post (init env this)
       (fun _ s => exists p b new,
                     trace s = (trace st ++ new)%list /\ Forall notClose new
                     /\ page s = Some p /\ browser s = Some b)
       (fun _ _ => True) st.
Proof.
  unfold init, post, bind, print, call, setBrowser, setPage, goto, call.
  cbn [world trace page browser rowsToProcess record withWorld].
  destruct (drvLaunch (driver env) (world st)) as [b w1|]; [|exact I].
  cbn [world trace page browser rowsToProcess record withWorld].
  destruct (drvNewPage (driver env) b w1) as [p w2|]; [|exact I].
  cbn [world trace page browser rowsToProcess record withWorld].
  destruct (drvGoto (driver env) p (rootPath this) w2) as [[] w3|]; [|exact I].
  exists p, b, [Report info "Initializing..."; Launch; NewPage b; Goto p (rootPath this)].
  cbn [trace page browser record withWorld]. rewrite <- !app_assoc.
  repeat split; repeat constructor.
Qed.

Lemma session_closes A (v : A) (p : Page) (b : Browser) (st : State W) :
  closesCleanly env -> page st = Some p -> browser st = Some b ->
  post (bind (closePage env) (fun _ => bind (closeBrowser env) (fun _ => ret v)))
       (fun v' s => v' = v
                    /\ trace s = (trace st ++ [ClosePage p; CloseBrowser b])%list)
       (fun _ _ => False) st.
Proof.
  intros [Hpage Hbrowser] Hp Hb.
  unfold post, bind, closePage, closeBrowser, onPage, call, ret. rewrite Hp.
  destruct (Hpage p (world st)) as (w1 & ->).
  cbn [world trace page browser record withWorld]. rewrite Hb.
  destruct (Hbrowser b w1) as (w2 & ->).
  cbn [world trace page browser record withWorld]. rewrite <- app_assoc. auto.
Qed.

(** The first [try]/[catch]: either the login went through and nothing
    was closed, or the handler released the session. *)
Lemma loginPhase_outcome (p : Page) (b : Browser) (st : State W) :
  closesCleanly env -> page st = Some p -> browser st = Some b ->
  post (loginPhase env this)
       (fun loggedIn s =>
          if loggedIn : bool then grows notClose st s else releasedOnce p b st s)
       (fun _ _ => False) st.
Proof.
  intros Hclose Hp Hb. unfold loginPhase.
  apply post_tryCatch, post_bind. unfold post at 1, print at 1.
  set (s1 := record (Report info "Trying to login...") st).
  assert (G1 : grows notClose st s1) by (now apply grows_record).
  apply post_bind.
  eapply post_weaken; [apply post_keeps, login_notClose| |].
  - intros u s2 G2. cbn in *. eapply grows_trans; [exact G1|].
    eapply grows_trans; [exact G2|]. now apply grows_record.
  - intros e s2 G2. cbn beta in *.
    apply post_bind. unfold post at 1, print at 1.
    set (s3 := record (Report error "Failed to login with provided credentials") s2).
    assert (G3 : grows notClose st s3).
    { eapply grows_trans; [exact G1|]. eapply grows_trans; [exact G2|].
      now apply grows_record. }
    destruct G3 as (new & T & F & P3 & B3).
    eapply post_weaken;
      [apply (@session_closes bool false p b s3 Hclose); congruence| |].
    + intros v s (-> & Ts).
      exists (new ++ [ClosePage p; CloseBrowser b])%list.
      rewrite Ts, T, <- app_assoc. split; [reflexivity|].
      rewrite filter_app, (notClose_closes F). reflexivity.
    + intros _ _ [].
Qed.

Lemma init_returned (st s0 : State W) :
  init env this st = Ret tt s0 ->
  exists p b, page s0 = Some p /\ browser s0 = Some b.
Proof.
  intros H. pose proof (init_opens st) as K. unfold post in K. rewrite H in K.
  destruct K as (p & b & _ & _ & _ & P & B). eauto.
Qed.

(** What is left of [run] once [init] has returned. *)
Lemma run_after_init (rounds : nat) (st s0 : State W) :
  init env this st = Ret tt s0 ->
  run env this rounds st
  = bind (loginPhase env this)
         (fun loggedIn : bool =>
            if loggedIn
            then bind (downloadPhase env this rounds)
                      (fun _ => bind (closePage env)
                                     (fun _ => bind (closeBrowser env) (fun _ => ret None)))
            else ret None)
         (record (Report info "Running...") s0).
Proof. intros H. unfold run, bind at 1. rewrite H. reflexivity. Qed.

End Run.

(** C3, as the code has it: when closing the page and closing the browser
    do not themselves raise, every way [run] comes back after [init] --
    downloads done, login refused, or an error caught during the downloads
    -- has closed the page once and then the browser once.  [run] raises
    only when [init] does, before any teardown is due. *)
Theorem run_releases_session_once W (env : Env W) (this : Hunter) (rounds : nat)
        (st : State W) :
  closesCleanly env ->
  match run env this rounds st with
  | Ret _ st' =>
      exists s0 p b,
        init env this st = Ret tt s0 /\ page s0 = Some p /\ browser s0 = Some b
        /\ releasedOnce p b st st'
  | Throw e st' => init env this st = Throw e st'
  | Pending => True
  end.
Proof.
  intros Hclose.
  change (post (run env this rounds)
               (fun _ st' =>
                  exists s0 p b,
                    init env this st = Ret tt s0 /\ page s0 = Some p /\ browser s0 = Some b
                    /\ releasedOnce p b st st')
               (fun e st' => init env this st = Throw e st') st).
  unfold run. apply post_bind, post_cases; [|auto].
  intros [] s0 E0.
  pose proof (init_opens env this st) as Hinit. unfold post in Hinit. rewrite E0 in Hinit.
  destruct Hinit as (p & b & new0 & T0 & F0 & P0 & B0).
  apply post_bind. unfold post at 1, print at 1.
  set (s1 := record (Report info "Running...") s0).
  assert (G1 : grows notClose s0 s1) by (now apply grows_record).
  apply post_bind.
  eapply post_weaken;
    [apply (@loginPhase_outcome W env this p b s1 Hclose); assumption| |intros _ _ []].
  intros [|] s2 H2.
  - (* logged in *)
    apply post_bind, post_cases.
    2:{ intros e s HT. pose proof (downloadPhase_catches env this rounds s2) as C.
        now rewrite HT in C. }
    intros [] s3 E3.
    pose proof (downloadPhase_notClose env this rounds s2) as G3. rewrite E3 in G3.
    destruct (grows_trans G1 (grows_trans H2 G3)) as (new & T & F & P & B).
    eapply post_weaken;
      [apply (@session_closes W env (option Counts) None p b s3 Hclose); congruence
      | |intros _ _ []].
    intros v s (_ & Ts). exists s0, p, b. repeat split; auto.
    exists (new0 ++ new ++ [ClosePage p; CloseBrowser b])%list.
    rewrite Ts, T, T0, <- !app_assoc. split; [reflexivity|].
    now rewrite !filter_app, (notClose_closes F0), (notClose_closes F).
  - (* login refused: the handler has released the session *)
    apply post_ret. exists s0, p, b. repeat split; auto.
    destruct H2 as (new & T & C). destruct G1 as (n1 & T1 & F1 & _).
    exists (new0 ++ n1 ++ new)%list. rewrite T, T1, T0, <- !app_assoc.
    split; [reflexivity|].
    now rewrite !filter_app, (notClose_closes F0), (notClose_closes F1).
Qed.

(** The one report [run] makes of the counts. *)
Lemma reportCounts_report W (c : Counts) (st : State W) :
  reportCounts c st
  = Ret tt (record (Report (levelOf (classify (total c) (downloaded c)))
                      (match classify (total c) (downloaded c) with
                       | NothingToDo => "No invoices found to download"
                       | _ => "Downloaded " ++ Js.ofNat (downloaded c) ++ "/"
                                ++ Js.ofNat (total c) ++ " invoices"
                       end)) st).
Proof.
  unfold reportCounts, classify, print.
  destruct (Nat.eqb_spec (total c) 0) as [->|Hz]; [reflexivity|].
  replace (0 <? total c)%nat with true by (symmetry; apply Nat.ltb_lt; lia).
  destruct (total c =? downloaded c)%nat; [reflexivity|].
  destruct (downloaded c =? 0)%nat; reflexivity.
Qed.

(** A login phase that says the login went through has left the page and
    the browser in place. *)
Lemma loginPhase_true W (env : Env W) (this : Hunter) (st s2 : State W) :
  loginPhase env this st = Ret true s2 ->
  page s2 = page st /\ browser s2 = browser st.
Proof.
  unfold loginPhase, tryCatch. intros H.
  assert (K : keeps notClose
                (bind (print (W := W) "Trying to login..." info) (fun _ =>
                 bind (login env this) (fun _ =>
                 bind (print "Logged in successfully" info) (fun _ => ret true)))))
    by (pose proof (login_notClose env this); frame).
  specialize (K st).
  destruct (bind _ _ st) as [v s|e s|]; [| |discriminate H].
  - apply Ret_inj in H as [_ <-]. destruct K as (_ & _ & _ & P & B). auto.
  - exfalso.
    apply bind_Ret in H as ([] & s3 & _ & H).
    apply bind_Ret in H as ([] & s4 & _ & H).
    apply bind_Ret in H as ([] & s5 & _ & H).
    apply Ret_inj in H as [H _]. discriminate H.
Qed.

(** C5, as the code has it: [run] takes no argument and, whenever it
    returns, hands back [undefined].  The counts [downloadInvoices]
    returns stay inside [run]: in a run that returns they reach the
    caller's side as one report, "Downloaded <downloaded>/<total>
    invoices" or, when there was nothing to download, "No invoices found
    to download", after which [run] only closes the page and the
    browser. *)
Theorem run_returns_undefined W (env : Env W) (this : Hunter) (rounds : nat)
        (st st' : State W) (v : option Counts) :
  run env this rounds st = Ret v st' ->
  v = None
  /\ forall (s0 s2 s3 : State W) (c : Counts),
       init env this st = Ret tt s0 ->
       loginPhase env this (record (Report info "Running...") s0) = Ret true s2 ->
       downloadInvoices env this rounds (record (Report info "Downloading invoices") s2)
       = Ret c s3 ->
       exists p b,
         page s0 = Some p /\ browser s0 = Some b
         /\ trace st'
            = (trace s3
                 ++ [Report (levelOf (classify (total c) (downloaded c)))
                            (match classify (total c) (downloaded c) with
                             | NothingToDo => "No invoices found to download"
                             | _ => "Downloaded " ++ Js.ofNat (downloaded c) ++ "/"
                                      ++ Js.ofNat (total c) ++ " invoices"
                             end);
                     ClosePage p; CloseBrowser b])%list.
Proof.
  intros Hrun. split.
  - unfold run in Hrun.
    apply bind_Ret in Hrun as ([] & s0 & _ & H).
    apply bind_Ret in H as ([] & s1 & _ & H).
    apply bind_Ret in H as ([|] & s2 & _ & H).
    + apply bind_Ret in H as ([] & s3 & _ & H).
      apply bind_Ret in H as ([] & s4 & _ & H).
      apply bind_Ret in H as ([] & s5 & _ & H).
      now inversion H.
    + now inversion H.
  - intros s0 s2 s3 c Hinit Hlogin Hdown.
    destruct (@init_returned W env this st s0 Hinit) as (p & b & P0 & B0).
    destruct (@loginPhase_true W env this _ s2 Hlogin) as (P2 & B2).
    cbn [page browser record] in P2, B2.
    pose proof (downloadInvoices_notClose env this rounds
                  (record (Report info "Downloading invoices") s2)) as G3.
    rewrite Hdown in G3. destruct G3 as (_ & _ & _ & P3 & B3).
    cbn [page browser record] in P3, B3.
    exists p, b. split; [exact P0|]. split; [exact B0|].
    rewrite (@run_after_init W env this rounds st s0 Hinit) in Hrun.
    unfold bind at 1 in Hrun. rewrite Hlogin in Hrun.
    unfold bind at 1, downloadPhase, tryCatch in Hrun.
    unfold bind at 1, print at 1 in Hrun. unfold bind at 1 in Hrun.
    rewrite Hdown, reportCounts_report in Hrun.
    set (report := Report _ _) in *.
    apply bind_Ret in Hrun as ([] & s4 & Hpage & Hrun).
    apply bind_Ret in Hrun as ([] & s5 & Hbrowser & Hrun).
    apply Ret_inj in Hrun as [_ <-].
    unfold closePage, onPage in Hpage. cbn [page record] in Hpage.
    rewrite P3, P2, P0 in Hpage.
    unfold closeBrowser in Hbrowser.
    unfold call in Hpage.
    destruct (drvClosePage _ _ _) as [[] w4|e w4]; [|discriminate Hpage].
    apply Ret_inj in Hpage as [_ <-].
    cbn [browser record withWorld] in Hbrowser. rewrite B3, B2, B0 in Hbrowser.
    unfold call in Hbrowser.
    destruct (drvCloseBrowser _ _ _) as [[] w5|e w5]; [|discriminate Hbrowser].
    apply Ret_inj in Hbrowser as [_ <-].
    cbn [trace record withWorld]. now rewrite <- !app_assoc.
Qed.

(* ===================================================================== *)
(** * Worked examples on the simulated portal *)
(* ===================================================================== *)

(** ** Discovery *)

(** Of the four rows of the list view, [ana] keeps the first and the
    third: the second has no date, the fourth is dated on the watermark. *)
Example discovery_on_the_list_view :
  findRowsToProcess Sim.calm Sim.ana Sim.rows Sim.listView
  = Ret [Sim.march5Row; Sim.may7Row]
        (Sim.stateOf (readDateCells Sim.calm Sim.ana 1 Sim.rows 0 Sim.listView) Sim.listView).
Proof. vm_compute. reflexivity. Qed.

Lemma findRowsToProcess_selects_witness :
  page Sim.listView = Some 1
  /\ readDateCells Sim.calm Sim.ana 1 Sim.rows 0 Sim.listView
     = Ret Sim.labels
           (Sim.stateOf (readDateCells Sim.calm Sim.ana 1 Sim.rows 0 Sim.listView) Sim.listView)
  /\ findRowsToProcess Sim.calm Sim.ana Sim.rows Sim.listView
     = Ret (selectRows Sim.calm Sim.ana 0 Sim.labels)
           (Sim.stateOf (readDateCells Sim.calm Sim.ana 1 Sim.rows 0 Sim.listView) Sim.listView)
  /\ In (candidate Sim.calm Sim.ana 2 "07/05/2024") (selectRows Sim.calm Sim.ana 0 Sim.labels)
  /\ ~ In (candidate Sim.calm Sim.ana 3 "01/01/2024") (selectRows Sim.calm Sim.ana 0 Sim.labels).
Proof.
  assert (Hp : page Sim.listView = Some 1) by reflexivity.
  assert (Hr : readDateCells Sim.calm Sim.ana 1 Sim.rows 0 Sim.listView
               = Ret Sim.labels
                     (Sim.stateOf (readDateCells Sim.calm Sim.ana 1 Sim.rows 0 Sim.listView)
                                  Sim.listView))
    by (vm_compute; reflexivity).
  destruct (@findRowsToProcess_selects _ Sim.calm Sim.ana Sim.rows 1 Sim.listView _ Sim.labels Hp Hr)
    as (Hret & _ & Hsel).
  split; [exact Hp|]. split; [exact Hr|]. split; [exact Hret|]. split.
  - apply (proj1 (Hsel 2 "07/05/2024" eq_refl)).
    exists 1704063600000%Z, 1715036400000%Z. repeat split.
  - apply (proj1 (proj2 (Hsel 3 "01/01/2024" eq_refl))). reflexivity.
Defined.

(** The second row reads [n/a]: no date, and no error either. *)
Lemma unreadable_label_does_not_abort :
  Moment.isValid (parsedDate Sim.calm Sim.ana " n/a ") = false
  /\ isThrow (findRowsToProcess Sim.calm Sim.ana Sim.rows Sim.listView) = false
  /\ findRowsToProcess Sim.calm Sim.ana Sim.rows Sim.listView
     = Ret [Sim.march5Row; Sim.may7Row]
           (Sim.stateOf (readDateCells Sim.calm Sim.ana 1 Sim.rows 0 Sim.listView) Sim.listView).
Proof. repeat split; vm_compute; reflexivity. Qed.

Lemma unreadable_label_is_skipped_witness :
  page Sim.listView = Some 1
  /\ findRowsToProcess Sim.calm Sim.ana Sim.rows Sim.listView
     = Ret (selectRows Sim.calm Sim.ana 0 Sim.labels)
           (Sim.stateOf (readDateCells Sim.calm Sim.ana 1 Sim.rows 0 Sim.listView) Sim.listView)
  /\ ~ In (candidate Sim.calm Sim.ana 1 " n/a ") (selectRows Sim.calm Sim.ana 0 Sim.labels)
  /\ In (candidate Sim.calm Sim.ana 2 "07/05/2024") (selectRows Sim.calm Sim.ana 0 Sim.labels).
Proof.
  assert (Hp : page Sim.listView = Some 1) by reflexivity.
  destruct (@unreadable_label_is_skipped _ Sim.calm Sim.ana Sim.rows 1 Sim.listView Hp)
    as (Hread & _).
  destruct (Hread Sim.labels
              (Sim.stateOf (readDateCells Sim.calm Sim.ana 1 Sim.rows 0 Sim.listView) Sim.listView))
    as (Hret & Hrows); [vm_compute; reflexivity|].
  split; [exact Hp|]. split; [exact Hret|]. split.
  - apply (proj1 (Hrows 1 " n/a " eq_refl)). reflexivity.
  - apply (proj2 (Hrows 2 "07/05/2024" eq_refl)).
    exists 1704063600000%Z, 1715036400000%Z. repeat split.
Defined.

Lemma rerun_selects_nothing_witness :
  page Sim.listView = Some 1
  /\ findRowsToProcess Sim.calm (constructor Sim.portal Sim.first) Sim.rows Sim.listView
     = Ret [Sim.march5Row; Sim.may7Row]
           (Sim.stateOf (readDateCells Sim.calm Sim.ana 1 Sim.rows 0 Sim.listView) Sim.listView)
  /\ Moment.valueOf (argLastInvoiceDate Sim.again) = Moment.valueOf (date Sim.may7Row)
  /\ findRowsToProcess Sim.calm (constructor Sim.portal Sim.again) Sim.rows Sim.listView
     = Ret []
           (Sim.stateOf (readDateCells Sim.calm Sim.ana 1 Sim.rows 0 Sim.listView) Sim.listView).
Proof.
  assert (Hp : page Sim.listView = Some 1) by reflexivity.
  assert (Hr1 : readDateCells Sim.calm (constructor Sim.portal Sim.first) 1 Sim.rows 0 Sim.listView
                = Ret Sim.labels
                      (Sim.stateOf (readDateCells Sim.calm Sim.ana 1 Sim.rows 0 Sim.listView)
                                   Sim.listView))
    by (vm_compute; reflexivity).
  assert (Hr2 : readDateCells Sim.calm (constructor Sim.portal Sim.again) 1 Sim.rows 0 Sim.listView
                = Ret Sim.labels
                      (Sim.stateOf (readDateCells Sim.calm Sim.ana 1 Sim.rows 0 Sim.listView)
                                   Sim.listView))
    by (vm_compute; reflexivity).
  assert (Hsel : selectRows Sim.calm (constructor Sim.portal Sim.first) 0 Sim.labels
                 = [Sim.march5Row; Sim.may7Row]) by (vm_compute; reflexivity).
  destruct (@rerun_selects_nothing _ Sim.calm Sim.portal Sim.first Sim.again Sim.rows 1 1
              Sim.listView _ Sim.listView _ Sim.labels 1715036400000%Z Hp Hp Hr1 Hr2 eq_refl)
    as (H1 & H2 & _).
  - exists Sim.may7Row. rewrite Hsel. split; [right; now left | reflexivity].
  - intros r x. rewrite Hsel. intros [<-|[<-|[]]] Hx; vm_compute in Hx; inversion Hx; lia.
  - rewrite Hsel in H1. repeat split; assumption.
Defined.

(** ** Polling *)

Lemma waitUntilFileIsDownloaded_polls_witness :
  page Sim.downloading = Some 1
  /\ (forall j, j < 3 ->
        fsPathExists (driver Sim.calm) Sim.awaited
          (afterWaits (driver Sim.calm) 1 j (world Sim.downloading)) = false)
  /\ fsPathExists (driver Sim.calm) Sim.awaited
       (afterWaits (driver Sim.calm) 1 3 (world Sim.downloading)) = true
  /\ waitUntilFileIsDownloaded Sim.calm 10 Sim.awaited Sim.downloading
     = Ret tt (polled (driver Sim.calm) 1 Sim.awaited 3 Sim.downloading).
Proof.
  assert (Habsent : forall j, j < 3 ->
            fsPathExists (driver Sim.calm) Sim.awaited
              (afterWaits (driver Sim.calm) 1 j (world Sim.downloading)) = false).
  { intros j Hj. destruct j as [|[|[|j]]]; try reflexivity. lia. }
  assert (Hpresent : fsPathExists (driver Sim.calm) Sim.awaited
                       (afterWaits (driver Sim.calm) 1 3 (world Sim.downloading)) = true)
    by reflexivity.
  destruct (waitUntilFileIsDownloaded_polls Sim.calm Sim.awaited Sim.downloading) as (_ & H).
  destruct (H 1 eq_refl) as (Hfound & _).
  split; [reflexivity|]. split; [exact Habsent|]. split; [exact Hpresent|].
  apply Hfound; [lia | exact Habsent | exact Hpresent].
Defined.

(** A file that is not on its way is awaited for ever. *)
Example nothing_arrives (rounds : nat) :
  waitUntilFileIsDownloaded Sim.calm rounds Sim.awaited Sim.listView = Pending.
Proof.
  apply waitUntilFileIsDownloaded_absent with (p := 1); [reflexivity|].
  intros j _. unfold Sim.calm, Sim.env, driver, Sim.browserAndDisk, fsPathExists, Sim.onDisk.
  assert (H : forall w, Sim.disk (afterWaits (Sim.browserAndDisk (Sim.setup Sim.noFault)) 1 j w)
                        = Sim.disk w).
  { induction j as [|j IH]; intros w; [reflexivity|]. cbn [afterWaits]. now rewrite IH. }
  now rewrite H.
Qed.

(** ** The download loop *)

Lemma downloadLoop_isolates_failures_witness :
  page Sim.listView = Some 1
  /\ processRowItem Sim.stuck Sim.ana 10 Sim.march5Row (entered Sim.stuck Sim.march5Row 0 Sim.listView)
     = Ret tt Stages.firstSaved
  /\ navigateToInvoicesPage Sim.stuck Sim.ana (advanced Sim.stuck Stages.firstSaved)
     = Ret tt Stages.shownAgain
  /\ processRowItem Sim.stuck Sim.ana 10 Sim.may7Row (entered Sim.stuck Sim.may7Row 1 Stages.shownAgain)
     = Throw Sim.injected Stages.secondGivenUp
  /\ Turns Sim.stuck Sim.ana 10 [Sim.march5Row; Sim.may7Row] 0 Sim.listView [Sim.may7Row]
           (advanced Sim.stuck (record (failed Sim.may7Row) Stages.secondGivenUp))
  /\ downloadLoop Sim.stuck Sim.ana 10 [Sim.march5Row; Sim.may7Row] 0 0 Sim.listView
     = Ret 1 (advanced Sim.stuck (record (failed Sim.may7Row) Stages.secondGivenUp))
  /\ exists new,
      trace (advanced Sim.stuck (record (failed Sim.may7Row) Stages.secondGivenUp))
      = (trace Sim.listView ++ new)%list
      /\ filter isInfo new = [started Sim.march5Row; started Sim.may7Row]
      /\ In (Click 1 (actionSelector Sim.ana Sim.may7Row)) new
      /\ filter isError new = [failed Sim.may7Row].
Proof.
  assert (Hp : page Sim.listView = Some 1) by reflexivity.
  assert (H1 : processRowItem Sim.stuck Sim.ana 10 Sim.march5Row
                 (entered Sim.stuck Sim.march5Row 0 Sim.listView)
               = Ret tt Stages.firstSaved) by (vm_compute; reflexivity).
  assert (H2 : navigateToInvoicesPage Sim.stuck Sim.ana (advanced Sim.stuck Stages.firstSaved)
               = Ret tt Stages.shownAgain) by (vm_compute; reflexivity).
  assert (H3 : processRowItem Sim.stuck Sim.ana 10 Sim.may7Row
                 (entered Sim.stuck Sim.may7Row 1 Stages.shownAgain)
               = Throw Sim.injected Stages.secondGivenUp) by (vm_compute; reflexivity).
  assert (HT : Turns Sim.stuck Sim.ana 10 [Sim.march5Row; Sim.may7Row] 0 Sim.listView
                     [Sim.may7Row]
                     (advanced Sim.stuck (record (failed Sim.may7Row) Stages.secondGivenUp))).
  { apply Turns_saved with (s1 := Sim.listView) (s2 := Stages.firstSaved);
      [reflexivity | exact H1 |].
    apply Turns_failed with (s1 := Stages.shownAgain) (s2 := Stages.secondGivenUp) (e := Sim.injected);
      [exact H2 | exact H3 |].
    apply Turns_done. }
  destruct (@downloadLoop_isolates_failures _ Sim.stuck Sim.ana 10 1
              [Sim.march5Row; Sim.may7Row] 0 0 Sim.listView Hp) as (Hcount & _).
  destruct (Hcount _ _ HT) as (R & _ & new & T & I & C & E).
  split; [exact Hp|]. split; [exact H1|]. split; [exact H2|]. split; [exact H3|].
  split; [exact HT|]. split; [exact R|].
  exists new. split; [exact T|]. split; [exact I|]. split; [|exact E].
  apply C. right. now left.
Defined.

(** ** The run *)

(** A run in which nothing rejects: two invoices, both saved, the session
    closed at the end. *)
Example run_on_a_calm_portal :
  run Sim.calm Sim.ana 10 Sim.start
  = Ret None (Sim.stateOf (run Sim.calm Sim.ana 10 Sim.start) Sim.start)
  /\ In (Report success "Downloaded 2/2 invoices")
        (trace (Sim.stateOf (run Sim.calm Sim.ana 10 Sim.start) Sim.start))
  /\ filter isClose (trace (Sim.stateOf (run Sim.calm Sim.ana 10 Sim.start) Sim.start))
     = [ClosePage 1; CloseBrowser 1].
Proof.
  split; [vm_compute; reflexivity|]. split; [|vm_compute; reflexivity].
  vm_compute. repeat first [left; reflexivity | right].
Qed.

(** The counts of the run above are 2 and 2, and what [run] hands back
    holds neither. *)
Lemma run_hands_back_no_counts :
  In (Report success "Downloaded 2/2 invoices")
     (trace (Sim.stateOf (run Sim.calm Sim.ana 10 Sim.start) Sim.start))
  /\ isRet (run Sim.calm Sim.ana 10 Sim.start) = true
  /\ ~ exists result st', run Sim.calm Sim.ana 10 Sim.start = Ret (Some result) st'.
Proof.
  split; [vm_compute; repeat first [left; reflexivity | right]|].
  split; [vm_compute; reflexivity|].
  intros (result & st' & H).
  assert (Hval : run Sim.calm Sim.ana 10 Sim.start
                 = Ret None (Sim.stateOf (run Sim.calm Sim.ana 10 Sim.start) Sim.start))
    by (vm_compute; reflexivity).
  rewrite Hval in H. apply Ret_inj in H as [H _]. discriminate H.
Qed.

Lemma run_returns_undefined_witness :
  run Sim.calm Sim.ana 10 Sim.start
  = Ret None (Sim.stateOf (run Sim.calm Sim.ana 10 Sim.start) Sim.start)
  /\ init Sim.calm Sim.ana Sim.start = Ret tt Stages.initialized
  /\ loginPhase Sim.calm Sim.ana (record (Report info "Running...") Stages.initialized)
     = Ret true Stages.loggedIn
  /\ downloadInvoices Sim.calm Sim.ana 10
       (record (Report info "Downloading invoices") Stages.loggedIn)
     = Ret (mkCounts 2 2) Stages.harvested
  /\ @None Counts = None
  /\ trace (Sim.stateOf (run Sim.calm Sim.ana 10 Sim.start) Sim.start)
     = (trace Stages.harvested
          ++ [Report success "Downloaded 2/2 invoices"; ClosePage 1; CloseBrowser 1])%list.
Proof.
  assert (Hval : run Sim.calm Sim.ana 10 Sim.start
                 = Ret None (Sim.stateOf (run Sim.calm Sim.ana 10 Sim.start) Sim.start))
    by (vm_compute; reflexivity).
  assert (Hinit : init Sim.calm Sim.ana Sim.start = Ret tt Stages.initialized)
    by (vm_compute; reflexivity).
  assert (Hlogin : loginPhase Sim.calm Sim.ana (record (Report info "Running...") Stages.initialized)
                   = Ret true Stages.loggedIn) by (vm_compute; reflexivity).
  assert (Hdown : downloadInvoices Sim.calm Sim.ana 10
                    (record (Report info "Downloading invoices") Stages.loggedIn)
                  = Ret (mkCounts 2 2) Stages.harvested) by (vm_compute; reflexivity).
  destruct (@run_returns_undefined _ Sim.calm Sim.ana 10 Sim.start _ None Hval)
    as (Hnone & Hcounts).
  destruct (Hcounts Stages.initialized Stages.loggedIn Stages.harvested (mkCounts 2 2) Hinit Hlogin Hdown)
    as (p & b & P & B & T).
  assert (Ep : Some p = Some 1) by (rewrite <- P; vm_compute; reflexivity).
  assert (Eb : Some b = Some 1) by (rewrite <- B; vm_compute; reflexivity).
  inversion Ep. inversion Eb. subst p b.
  split; [exact Hval|]. split; [exact Hinit|]. split; [exact Hlogin|]. split; [exact Hdown|].
  split; [exact Hnone|]. exact T.
Defined.

(** The page refuses to close after the downloads: [run] raises, and the
    browser is never asked to close. *)
Lemma page_close_rejects_browser_stays_open :
  isRet (init (Sim.env (Sim.setup Sim.pageWillNotClose)) Sim.ana Sim.start) = true
  /\ isThrow (run (Sim.env (Sim.setup Sim.pageWillNotClose)) Sim.ana 10 Sim.start) = true
  /\ filter isClose
       (trace (Sim.stateOf (run (Sim.env (Sim.setup Sim.pageWillNotClose)) Sim.ana 10 Sim.start)
                           Sim.start))
     = [ClosePage 1].
Proof. repeat split; vm_compute; reflexivity. Qed.

Lemma run_releases_session_once_witness :
  closesCleanly (Sim.env (Sim.setup Sim.loginRefused))
  /\ isRet (run (Sim.env (Sim.setup Sim.loginRefused)) Sim.ana 10 Sim.start) = true
  /\ match run (Sim.env (Sim.setup Sim.loginRefused)) Sim.ana 10 Sim.start with
     | Ret _ st' =>
         exists s0 p b,
           init (Sim.env (Sim.setup Sim.loginRefused)) Sim.ana Sim.start = Ret tt s0
           /\ page s0 = Some p /\ browser s0 = Some b
           /\ releasedOnce p b Sim.start st'
     | Throw e st' => init (Sim.env (Sim.setup Sim.loginRefused)) Sim.ana Sim.start = Throw e st'
     | Pending => True
     end.
Proof.
  assert (Hclose : closesCleanly (Sim.env (Sim.setup Sim.loginRefused))).
  { split; intros x w; eexists; reflexivity. }
  split; [exact Hclose|]. split; [vm_compute; reflexivity|].
  exact (@run_releases_session_once _ (Sim.env (Sim.setup Sim.loginRefused)) Sim.ana 10
           Sim.start Hclose).
Defined.

(** With the login refused the session is closed by the handler, once. *)
Example run_with_login_refused :
  run (Sim.env (Sim.setup Sim.loginRefused)) Sim.ana 10 Sim.start
  = Ret None (Sim.stateOf (run (Sim.env (Sim.setup Sim.loginRefused)) Sim.ana 10 Sim.start)
                          Sim.start)
  /\ In (Report error "Failed to login with provided credentials")
        (trace (Sim.stateOf (run (Sim.env (Sim.setup Sim.loginRefused)) Sim.ana 10 Sim.start)
                            Sim.start))
  /\ filter isClose
       (trace (Sim.stateOf (run (Sim.env (Sim.setup Sim.loginRefused)) Sim.ana 10 Sim.start)
                           Sim.start))
     = [ClosePage 1; CloseBrowser 1].
Proof.
  split; [vm_compute; reflexivity|]. split; [|vm_compute; reflexivity].
  vm_compute. repeat first [left; reflexivity | right].
Qed.

(** ** Saving *)

(** The labels and the patterns of the examples are among those the model
    of [moment] answers for; read as UTC, the date of the first row would
    print as the day before. *)
Example examples_within_the_model :
  Moment.parse Sim.zone "05/03/2024" "DD/MM/YYYY" "es" = Some (Moment.locale "es" Sim.march5)
  /\ Moment.parse Sim.zone "n/a" "DD/MM/YYYY" "es" = Some (Moment.invalid "es")
  /\ Moment.format Sim.zone Sim.march5 "DD-MM-YY" = Some "05-03-24"
  /\ Moment.format 0 Sim.march5 "DD-MM-YY" = Some "04-03-24"
  /\ Moment.format Sim.zone Sim.march5 "../DD-MM-YY" = Some "../05-03-24".
Proof. repeat split; vm_compute; reflexivity. Qed.

(** A no-break space before a label is trimmed like a space. *)
Example trim_no_break_space :
  Js.trim (String (ascii_of_nat 194) (String (ascii_of_nat 160) " 05/03/2024 ")) = "05/03/2024".
Proof. vm_compute. reflexivity. Qed.


(** ** Where the invoices go *)

(** Told to name the invoices [../DD-MM-YY], the hunter renames the
    invoice of the fifth of March out of [/out/endesa/]: the file ends up
    in [/out], and [/out/endesa/] holds nothing. *)
Lemma name_format_leads_out_of_endesa :
  downloadDir Sim.upward = "/out/endesa/"
  /\ newFileName Sim.calm Sim.upward Sim.march5Row = "../05-03-24.pdf"
  /\ processRowItem Sim.calm Sim.upward 10 Sim.march5Row Sim.listView
     = Ret tt (Sim.stateOf (processRowItem Sim.calm Sim.upward 10 Sim.march5Row Sim.listView)
                           Sim.listView)
  /\ In (Rename "/out/endesa//factura.pdf" "/out/endesa//../05-03-24.pdf")
        (trace (Sim.stateOf (processRowItem Sim.calm Sim.upward 10 Sim.march5Row Sim.listView)
                            Sim.listView))
  /\ world (Sim.stateOf (processRowItem Sim.calm Sim.upward 10 Sim.march5Row Sim.listView)
                        Sim.listView)
     = Sim.holding "/out/05-03-24.pdf"
  /\ Path.normalize "/out/endesa//../05-03-24.pdf" = "/out/05-03-24.pdf".
Proof.
  split; [vm_compute; reflexivity|]. split; [vm_compute; reflexivity|].
  split; [vm_compute; reflexivity|]. split; [|split; vm_compute; reflexivity].
  vm_compute. repeat first [left; reflexivity | right].
Qed.

Lemma invoices_go_under_endesa_witness :
  argDownloadDir Sim.first = "/" ++ Js.joinSlash ["out"]
  /\ downloadDir (constructor Sim.portal Sim.first) = "/out/endesa/"
  /\ page Sim.listView = Some 1
  /\ drvClick (driver Sim.calm) 1 "tr.invoice:nth-child(1) td.action button" (world Sim.listView)
     = Ok tt (world Sim.listView)
  /\ drvSetDownloadBehavior (driver Sim.calm) 1 "/out/endesa/" (world Sim.listView)
     = Ok tt Sim.directed
  /\ drvClick (driver Sim.calm) 1 "#download" Sim.directed = Ok tt Sim.requested
  /\ (forall j, j < 3 ->
        fsPathExists (driver Sim.calm) "/out/endesa//factura.pdf"
          (afterWaits (driver Sim.calm) 1 j Sim.requested) = false)
  /\ fsPathExists (driver Sim.calm) "/out/endesa//factura.pdf"
       (afterWaits (driver Sim.calm) 1 3 Sim.requested) = true
  /\ processRowItem Sim.calm (constructor Sim.portal Sim.first) 10 Sim.march5Row Sim.listView
     = Ret tt (extended (Sim.holding "/out/endesa/05-03-24.pdf")
                 ([Click 1 "tr.invoice:nth-child(1) td.action button";
                   WaitForSelector 1 "#invoice" true;
                   SetDownloadBehavior 1 "/out/endesa/";
                   WaitForSelector 1 "#download" false;
                   Click 1 "#download"]
                    ++ polls 1 "/out/endesa//factura.pdf" 3
                    ++ [PathExists "/out/endesa//factura.pdf";
                        Report success "Invoice saved";
                        Rename "/out/endesa//factura.pdf" "/out/endesa//05-03-24.pdf";
                        ReportWithFilepath "Invoice renamed to" "05-03-24.pdf" (Some success)])
                 Sim.listView)
  /\ entryName "05-03-24.pdf" = true
  /\ Path.normalize ("/out/endesa/" ++ "/" ++ "05-03-24.pdf") = "/out/endesa/" ++ "05-03-24.pdf".
Proof.
  assert (Hdir : argDownloadDir Sim.first = "/" ++ Js.joinSlash ["out"]) by reflexivity.
  assert (Hp : page Sim.listView = Some 1) by reflexivity.
  assert (H1 : drvClick (driver Sim.calm) 1
                 (actionSelector (constructor Sim.portal Sim.first) Sim.march5Row)
                 (world Sim.listView)
               = Ok tt (world Sim.listView)) by (vm_compute; reflexivity).
  assert (H2 : drvWaitForSelector (driver Sim.calm) 1
                 (invoiceContent (selectors (constructor Sim.portal Sim.first))) true
                 (world Sim.listView)
               = Ok tt (world Sim.listView)) by reflexivity.
  assert (H3 : drvSetDownloadBehavior (driver Sim.calm) 1
                 (downloadDir (constructor Sim.portal Sim.first)) (world Sim.listView)
               = Ok tt Sim.directed) by (vm_compute; reflexivity).
  assert (H4 : drvWaitForSelector (driver Sim.calm) 1
                 (invoiceDownloadButton (selectors (constructor Sim.portal Sim.first))) false
                 Sim.directed
               = Ok tt Sim.directed) by reflexivity.
  assert (H5 : drvClick (driver Sim.calm) 1
                 (invoiceDownloadButton (selectors (constructor Sim.portal Sim.first)))
                 Sim.directed
               = Ok tt Sim.requested) by (vm_compute; reflexivity).
  assert (Habsent : forall j, j < 3 ->
            fsPathExists (driver Sim.calm)
              (downloadDir (constructor Sim.portal Sim.first)
                 ++ "/" ++ fileName (constructor Sim.portal Sim.first))
              (afterWaits (driver Sim.calm) 1 j Sim.requested) = false).
  { intros j Hj. destruct j as [|[|[|j]]]; try (vm_compute; reflexivity). lia. }
  assert (Hpresent : fsPathExists (driver Sim.calm)
                       (downloadDir (constructor Sim.portal Sim.first)
                          ++ "/" ++ fileName (constructor Sim.portal Sim.first))
                       (afterWaits (driver Sim.calm) 1 3 Sim.requested) = true)
    by (vm_compute; reflexivity).
  assert (Hname : entryName "05-03-24.pdf" = true) by reflexivity.
  destruct (invoices_go_under_endesa Sim.calm Sim.portal Sim.first 10 Sim.march5Row)
    as (_ & Hentries & Hrow & Hinside).
  assert (Hout : downloadDir (constructor Sim.portal Sim.first) = "/out/endesa/").
  { rewrite (Hentries true ["out"] ltac:(discriminate)
               ltac:(repeat constructor) Hdir). reflexivity. }
  split; [exact Hdir|]. split; [exact Hout|]. split; [exact Hp|].
  split; [exact H1|]. split; [exact H3|]. split; [exact H5|].
  split; [exact Habsent|]. split; [exact Hpresent|]. split.
  - rewrite (Hrow 1 3 Sim.listView _ _ _ _ _ Hp H1 H2 H3 H4 H5 ltac:(lia) Habsent Hpresent).
    vm_compute. reflexivity.
  - split; [exact Hname|].
    pose proof (Hinside "05-03-24.pdf" Hname) as H. rewrite Hout in H. exact H.
Defined.

(* ===================================================================== *)
(** * Further properties *)
(* ===================================================================== *)

(** ** Calls one after the other *)

Section AfterRules.

Variable W : Type.

Lemma after_refl (st : State W) : after [] st st.
Proof. unfold after. rewrite app_nil_r. auto. Qed.

Lemma after_trans (n1 n2 : list Event) (a b c : State W) :
  after n1 a b -> after n2 b c -> after (n1 ++ n2) a c.
Proof.
  intros (T1 & P1 & B1 & R1) (T2 & P2 & B2 & R2). unfold after.
  rewrite T2, T1, app_assoc, P2, B2, R2. auto.
Qed.

Lemma after_record (ev : Event) (st : State W) : after [ev] st (record ev st).
Proof. unfold after. cbn. auto. Qed.

Lemma call_after A (ev : Event) (op : W -> Res W A) (st : State W) :
  match call ev op st with
  | Ret _ st' => after [ev] st st'
  | Throw _ st' => after [ev] st st'
  | Pending => False
  end.
Proof. unfold call. destruct (op (world st)); unfold after; cbn; auto. Qed.

Lemma call_returned A (ev : Event) (op : W -> Res W A) (st st' : State W) (a : A) :
  call ev op st = Ret a st' -> after [ev] st st'.
Proof. intros H. pose proof (call_after ev op st) as K. now rewrite H in K. Qed.

Lemma call_raised A (ev : Event) (op : W -> Res W A) (st st' : State W) (e : Error) :
  call ev op st = Throw e st' -> after [ev] st st'.
Proof. intros H. pose proof (call_after ev op st) as K. now rewrite H in K. Qed.

Lemma onPage_open (method : Page -> M (State W) unit) (p : Page) (st : State W) :
  page st = Some p -> onPage method st = method p st.
Proof. unfold onPage. now intros ->. Qed.

End AfterRules.

(** ** Discovery, row by row *)

Section DiscoveryCalls.

Variable W : Type.
Variable env : Env W.
Variable this : Hunter.

Lemma extractions_cons (p : Page) (i n : nat) :
  extractions this p i (S n)
  = ExtractText p (rowSelector this i ++ " " ++ invoicesDateCell (selectors this))
      :: extractions this p (S i) n.
Proof. reflexivity. Qed.

Lemma findRowsLoop_calls (p : Page) (rows : list ElementHandle) :
  forall i result st,
    match findRowsLoop env this p rows i result st with
    | Ret _ st' => after (extractions this p i (List.length rows)) st st'
    | Throw _ st' =>
        exists k, k < List.length rows /\ after (extractions this p i (S k)) st st'
    | Pending => False
    end.
Proof.
  induction rows as [|r rows IH]; intros i result st; cbn [findRowsLoop List.length].
  - apply after_refl.
  - unfold bind.
    pose proof (call_after
                  (ExtractText p (rowSelector this i ++ " " ++ invoicesDateCell (selectors this)))
                  (drvExtractText (driver env) p
                     (rowSelector this i ++ " " ++ invoicesDateCell (selectors this))) st) as K.
    destruct (call _ _ st) as [text s1|e s1|]; [|exists 0; split; [lia | exact K]|exact K].
    assert (Hnext : forall result',
               match findRowsLoop env this p rows (S i) result' s1 with
               | Ret _ st' => after (extractions this p i (S (List.length rows))) st st'
               | Throw _ st' =>
                   exists k, k < S (List.length rows)
                             /\ after (extractions this p i (S k)) st st'
               | Pending => False
               end).
    { intros result'. specialize (IH (S i) result' s1).
      destruct (findRowsLoop env this p rows (S i) result' s1) as [found st'|e st'|]; auto.
      - rewrite extractions_cons. exact (after_trans K IH).
      - destruct IH as (k & Hk & A). exists (S k). split; [lia|].
        rewrite extractions_cons. exact (after_trans K A). }
    destruct (Moment.isBefore _ _); apply Hnext.
Qed.

Lemma selectRows_filter (texts : list string) :
  forall i,
    selectRows env this i texts
    = map (fun it => candidate env this (fst it) (snd it))
          (filter (fun it => Moment.isBefore (lastInvoiceDate this)
                               (parsedDate env this (snd it)))
                  (indexed i texts)).
Proof.
  induction texts as [|t texts IH]; intros i; [reflexivity|].
  unfold indexed. cbn [selectRows List.length seq combine filter snd].
  destruct (Moment.isBefore _ _); cbn [map fst snd]; now rewrite IH.
Qed.

End DiscoveryCalls.

(** X1: with the page open, the rows [findRowsToProcess] returns are the
    rows of the list view whose date, as read from their date cells, is
    after the watermark, one record each, in the order of the list view:
    nothing is sorted, merged or repeated. *)
Theorem findRowsToProcess_keeps_order W (env : Env W) (this : Hunter)
        (rows : list ElementHandle) (p : Page) (st st' : State W)
        (found : list ProcessedRow) :
  page st = Some p ->
  findRowsToProcess env this rows st = Ret found st' ->
  exists texts,
    readDateCells env this p rows 0 st = Ret texts st'
    /\ List.length texts = List.length rows
    /\ found = map (fun it => candidate env this (fst it) (snd it))
                   (filter (fun it => Moment.isBefore (lastInvoiceDate this)
                                        (parsedDate env this (snd it)))
                           (indexed 0 texts))
    /\ List.length found <= List.length rows.
Proof.
  intros Hp H.
  rewrite findRowsToProcess_reads with (p := p) in H by exact Hp.
  apply bind_Ret in H as (texts & s1 & Hread & Hret).
  apply Ret_inj in Hret as [<- <-].
  pose proof (@readDateCells_length W env this p rows 0 st texts s1 Hread) as Hlen.
  exists texts. split; [exact Hread|]. split; [exact Hlen|].
  split; [apply selectRows_filter|].
  rewrite selectRows_filter, length_map, <- Hlen.
  etransitivity; [apply filter_length_le|].
  unfold indexed. rewrite length_combine, length_seq. lia.
Qed.


(** X3: [findAndSetRowsToProcess] replaces [rowsToProcess] by the rows
    found when discovery returns, and leaves the field as it was when
    discovery raises. *)
Theorem findAndSetRowsToProcess_sets_or_keeps W (env : Env W) (this : Hunter)
        (rows : list ElementHandle) (st : State W) :
  match findAndSetRowsToProcess env this rows st with
  | Ret _ st' =>
      exists found s1,
        findRowsToProcess env this rows st = Ret found s1
        /\ rowsToProcess st' = found
        /\ trace st' = trace s1 /\ world st' = world s1
  | Throw e st' =>
      findRowsToProcess env this rows st = Throw e st'
      /\ rowsToProcess st' = rowsToProcess st
  | Pending => False
  end.
Proof.
  unfold findAndSetRowsToProcess, bind, setRowsToProcess.
  destruct (findRowsToProcess env this rows st) as [found s1|e s1|] eqn:Hfind.
  - exists found, s1. auto.
  - split; [reflexivity|].
    unfold findRowsToProcess in Hfind. destruct (page st) as [p|] eqn:Hp.
    + pose proof (findRowsLoop_calls env this p rows 0 [] st) as K.
      rewrite Hfind in K. destruct K as (k & _ & _ & _ & _ & R). exact R.
    + apply eq_sym in Hfind. inversion Hfind. reflexivity.
  - unfold findRowsToProcess in Hfind. destruct (page st) as [p|] eqn:Hp; [|discriminate].
    pose proof (findRowsLoop_calls env this p rows 0 [] st) as K. now rewrite Hfind in K.
Qed.

(** ** Saving, call by call *)

Section SavingCalls.

Variable W : Type.
Variable env : Env W.
Variable this : Hunter.

Lemma polled_after (p : Page) (filePath : string) (k : nat) (st : State W) :
  after (polls p filePath k ++ [PathExists filePath]) st
        (polled (driver env) p filePath k st).
Proof. unfold after, polled. cbn. auto. Qed.

Lemma waitUntilFileIsDownloaded_returned (p : Page) (filePath : string) (rounds : nat) :
  forall st st',
    page st = Some p ->
    waitUntilFileIsDownloaded env rounds filePath st = Ret tt st' ->
    exists k,
      k < rounds
      /\ (forall j, j < k ->
            fsPathExists (driver env) filePath
              (afterWaits (driver env) p j (world st)) = false)
      /\ fsPathExists (driver env) filePath
           (afterWaits (driver env) p k (world st)) = true
      /\ st' = polled (driver env) p filePath k st.
Proof.
  induction rounds as [|rounds IH]; intros st st' Hp H; cbn [waitUntilFileIsDownloaded] in H;
    [discriminate|].
  unfold bind at 1, pathExists, call in H.
  destruct (fsPathExists (driver env) filePath (world st)) eqn:Hnow.
  - exists 0. split; [lia|]. split; [intros j Hj; lia|]. split; [exact Hnow|].
    apply Ret_inj in H as [_ <-]. unfold polled, record, withWorld. cbn. reflexivity.
  - unfold bind, onPage in H. cbn [page record withWorld] in H. rewrite Hp in H.
    unfold waitForTimeout, call in H. cbn [world record withWorld] in H.
    apply IH in H as (k & Hk & Habs & Hpres & ->); [|cbn; exact Hp].
    cbn [world] in Habs, Hpres.
    exists (S k). split; [lia|]. split; [|split; [exact Hpres|]].
    + intros [|j] Hj; [exact Hnow | apply Habs; lia].
    + unfold polled.
      cbn [world trace rowsToProcess browser page record withWorld polls afterWaits].
      f_equal. rewrite <- !app_assoc. reflexivity.
Qed.

Lemma saveInvoice_calls (rounds : nat) (downloadPath : string) (row : ProcessedRow)
      (p : Page) (st st' : State W) :
  page st = Some p ->
  saveInvoice env this rounds downloadPath row st = Ret tt st' ->
  exists k,
    k < rounds
    /\ after (downloadRequest this p downloadPath
                ++ polls p (downloadPath ++ "/" ++ fileName this) k
                ++ [PathExists (downloadPath ++ "/" ++ fileName this);
                    Report success "Invoice saved";
                    Rename (downloadPath ++ "/" ++ fileName this)
                           (downloadPath ++ "/" ++ newFileName env this row);
                    ReportWithFilepath "Invoice renamed to" (newFileName env this row)
                                       (Some success)])
             st st'.
Proof.
  intros Hp H. unfold saveInvoice in H.
  apply bind_Ret in H as ([] & s1 & E1 & H).
  apply bind_Ret in H as ([] & s2 & E2 & H).
  apply bind_Ret in H as ([] & s3 & E3 & H).
  apply bind_Ret in H as ([] & s4 & E4 & H).
  apply bind_Ret in H as ([] & s5 & E5 & H).
  apply bind_Ret in H as ([] & s6 & E6 & H).
  rewrite onPage_open with (p := p) in E1 by exact Hp.
  apply call_returned in E1.
  assert (Hp1 : page s1 = Some p) by (destruct E1 as (_ & -> & _); exact Hp).
  rewrite onPage_open with (p := p) in E2 by exact Hp1.
  apply call_returned in E2.
  assert (Hp2 : page s2 = Some p) by (destruct E2 as (_ & -> & _); exact Hp1).
  rewrite onPage_open with (p := p) in E3 by exact Hp2.
  apply call_returned in E3.
  assert (Hp3 : page s3 = Some p) by (destruct E3 as (_ & -> & _); exact Hp2).
  apply waitUntilFileIsDownloaded_returned with (p := p) in E4 as (k & Hk & _ & _ & ->);
    [|exact Hp3].
  pose proof (polled_after p (downloadPath ++ "/" ++ fileName this) k s3) as E4.
  apply Ret_inj in E5 as [_ <-]. apply call_returned in E6.
  apply Ret_inj in H as [_ <-].
  exists k. split; [exact Hk|].
  pose proof (after_trans E1 (after_trans E2 (after_trans E3 (after_trans E4
               (after_trans (after_record (Report success "Invoice saved") _)
                  (after_trans E6 (after_record
                     (ReportWithFilepath "Invoice renamed to" (newFileName env this row)
                                         (Some success)) s6))))))) as A.
  unfold downloadRequest. cbn [app] in *. rewrite <- !app_assoc in A. exact A.
Qed.


End SavingCalls.

(** X4: with the page open, [waitUntilFileIsDownloaded] returns only from a
    poll that found the file: the polls before it did not, each was
    followed by a wait of one second, and those are all its calls. *)
Theorem waitUntilFileIsDownloaded_returns_when_found W (env : Env W) (p : Page)
        (filePath : string) (rounds : nat) (st st' : State W) :
  page st = Some p ->
  waitUntilFileIsDownloaded env rounds filePath st = Ret tt st' ->
  exists k,
    k < rounds
    /\ (forall j, j < k ->
          fsPathExists (driver env) filePath
            (afterWaits (driver env) p j (world st)) = false)
    /\ fsPathExists (driver env) filePath
         (afterWaits (driver env) p k (world st)) = true
    /\ st' = polled (driver env) p filePath k st.
Proof. apply waitUntilFileIsDownloaded_returned. Qed.

(** X5: with the page open, a [saveInvoice] that returns has made these
    calls and no other, in this order: the download destination is set,
    the download button awaited and clicked, the file polled for until it
    is there, "Invoice saved" reported, the file renamed, the new name
    reported. *)
Theorem saveInvoice_calls_in_order W (env : Env W) (this : Hunter) (rounds : nat)
        (downloadPath : string) (row : ProcessedRow) (p : Page) (st st' : State W) :
  page st = Some p ->
  saveInvoice env this rounds downloadPath row st = Ret tt st' ->
  exists k,
    k < rounds
    /\ after (downloadRequest this p downloadPath
                ++ polls p (downloadPath ++ "/" ++ fileName this) k
                ++ [PathExists (downloadPath ++ "/" ++ fileName this);
                    Report success "Invoice saved";
                    Rename (downloadPath ++ "/" ++ fileName this)
                           (downloadPath ++ "/" ++ newFileName env this row);
                    ReportWithFilepath "Invoice renamed to" (newFileName env this row)
                                       (Some success)])
             st st'.
Proof. apply saveInvoice_calls. Qed.


(** X7: on an object without a page, [login] reports "Login called without
    initializing" and raises "Missing init call", [downloadInvoices] raises
    "Missing init call" and [findRowsToProcess] raises "Page not
    initialized"; none of them calls the browser or the file system. *)
Theorem methods_raise_without_page W (env : Env W) (this : Hunter) (rounds : nat)
        (rows : list ElementHandle) (st : State W) :
  page st = None ->
  login env this st
  = Throw (mkError "Missing init call")
          (record (Report error "Login called without initializing") st)
  /\ downloadInvoices env this rounds st = Throw (mkError "Missing init call") st
  /\ findRowsToProcess env this rows st = Throw (mkError "Page not initialized") st.
Proof.
  intros Hp. unfold login, downloadInvoices, findRowsToProcess. rewrite Hp. auto.
Qed.

(** ** The field [rowsToProcess] *)

Section RowsRules.

Variable W : Type.

Local Abbreviation St := (State W).

Lemma sameRows_ret A (a : A) : sameRows (ret (S := St) a).
Proof. intros st. reflexivity. Qed.

Lemma sameRows_bind A B (m : M St A) (k : A -> M St B) :
  sameRows m -> (forall a, sameRows (k a)) -> sameRows (bind m k).
Proof.
  intros Hm Hk st. unfold bind. specialize (Hm st).
  destruct (m st) as [a s1|e s1|]; auto.
  specialize (Hk a s1). destruct (k a s1); auto; congruence.
Qed.

Lemma sameRows_tryCatch A (body : M St A) (handler : Error -> M St A) :
  sameRows body -> (forall e, sameRows (handler e)) -> sameRows (tryCatch body handler).
Proof.
  intros Hb Hh st. unfold tryCatch. specialize (Hb st).
  destruct (body st) as [a s1|e s1|]; auto.
  specialize (Hh e s1). destruct (handler e s1); auto; congruence.
Qed.

Lemma sameRows_call A (ev : Event) (op : W -> Res W A) : sameRows (call ev op).
Proof. intros st. unfold call. destruct (op (world st)); reflexivity. Qed.

Lemma sameRows_onPage (method : Page -> M St unit) :
  (forall p, sameRows (method p)) -> sameRows (onPage method).
Proof. intros H st. unfold onPage. destruct (page st) as [p|]; [apply H | reflexivity]. Qed.

Lemma sameRows_print (msg : string) (type : Level) : sameRows (print (W := W) msg type).
Proof. intros st. reflexivity. Qed.

Lemma sameRows_printWithFilepath (label path : string) (type : option Level) :
  sameRows (printWithFilepath (W := W) label path type).
Proof. intros st. reflexivity. Qed.

Lemma sameRows_note (ev : Event) : sameRows (fun st : St => Ret tt (record ev st)).
Proof. intros st. reflexivity. Qed.

Lemma sameRows_if A (c : bool) (m1 m2 : M St A) :
  sameRows m1 -> sameRows m2 -> sameRows (if c then m1 else m2).
Proof. now destruct c. Qed.

End RowsRules.

(** Solves [sameRows m] for a method written with the combinators. *)
Ltac rowsframe :=
  repeat first
    [ eassumption
    | apply sameRows_bind; [|intros ?]
    | apply sameRows_tryCatch; [|intros ?]
    | apply sameRows_onPage; intros ?
    | apply sameRows_if
    | apply sameRows_ret
    | apply sameRows_print
    | apply sameRows_printWithFilepath
    | apply sameRows_note
    | apply sameRows_call ].

Section RowsKept.

Variable W : Type.
Variable env : Env W.
Variable this : Hunter.

Lemma navigateToInvoicesPage_sameRows : sameRows (navigateToInvoicesPage env this).
Proof. unfold navigateToInvoicesPage, goto, waitForSelector. rowsframe. Qed.

Lemma waitUntilFileIsDownloaded_sameRows (rounds : nat) (filePath : string) :
  sameRows (waitUntilFileIsDownloaded env rounds filePath).
Proof.
  induction rounds as [|rounds IH]; cbn [waitUntilFileIsDownloaded].
  - intros st. exact I.
  - unfold pathExists, waitForTimeout. rowsframe.
Qed.

Lemma processRowItem_sameRows (rounds : nat) (row : ProcessedRow) :
  sameRows (processRowItem env this rounds row).
Proof.
  pose proof (waitUntilFileIsDownloaded_sameRows rounds
                (downloadDir this ++ "/" ++ fileName this)).
  unfold processRowItem, saveInvoice, waitForSelector, click. rowsframe.
Qed.

Lemma loopBody_sameRows (rounds : nat) (row : ProcessedRow) (i c : nat) :
  sameRows (loopBody env this rounds row i c).
Proof.
  pose proof (processRowItem_sameRows rounds row).
  pose proof navigateToInvoicesPage_sameRows.
  unfold loopBody. rowsframe.
Qed.

Lemma downloadLoop_sameRows (rounds : nat) (rows : list ProcessedRow) :
  forall i c, sameRows (downloadLoop env this rounds rows i c).
Proof.
  induction rows as [|row rows IH]; intros i c; cbn [downloadLoop].
  - rowsframe.
  - apply sameRows_bind; [apply loopBody_sameRows | intros n; apply IH].
Qed.

End RowsKept.

(** X8: the download loop, with everything it calls, never writes
    [rowsToProcess]: the array it walks is the one discovery left. *)
Theorem downloadLoop_leaves_rowsToProcess W (env : Env W) (this : Hunter) (rounds : nat)
        (rows : list ProcessedRow) (i c : nat) (st : State W) :
  match downloadLoop env this rounds rows i c st with
  | Ret _ st' => rowsToProcess st' = rowsToProcess st
  | Throw _ st' => rowsToProcess st' = rowsToProcess st
  | Pending => True
  end.
Proof. apply downloadLoop_sameRows. Qed.

(** ** Counting in the download loop *)

Lemma rowCall_gotos (l : list Event) : Forall rowCall l -> filter isGoto l = [].
Proof.
  intros H. apply filter_none. eapply Forall_impl; [|exact H].
  intros [] Hev; try reflexivity; contradiction.
Qed.

Lemma rowCall_progress (l : list Event) : Forall rowCall l -> filter isProgress l = [].
Proof.
  intros H. apply filter_none. eapply Forall_impl; [|exact H].
  intros [] Hev; try reflexivity; contradiction.
Qed.

Section Accounts.

Variable W : Type.
Variable env : Env W.
Variable this : Hunter.

Lemma navigateToInvoicesPage_returned (p : Page) (st st' : State W) :
  page st = Some p ->
  navigateToInvoicesPage env this st = Ret tt st' ->
  after (navigation this p) st st'.
Proof.
  intros Hp H. unfold navigateToInvoicesPage in H.
  apply bind_Ret in H as ([] & s1 & E1 & H).
  rewrite onPage_open with (p := p) in E1 by exact Hp.
  apply call_returned in E1.
  assert (Hp1 : page s1 = Some p) by (destruct E1 as (_ & -> & _); exact Hp).
  rewrite onPage_open with (p := p) in H by exact Hp1.
  apply call_returned in H. exact (after_trans E1 H).
Qed.

Lemma processRowItem_rowCall (rounds : nat) (row : ProcessedRow) :
  keeps rowCall (processRowItem env this rounds row).
Proof.
  pose proof (@waitUntilFileIsDownloaded_keeps W env rowCall rounds
                (downloadDir this ++ "/" ++ fileName this) I (fun _ => I)).
  unfold processRowItem, saveInvoice, waitForSelector, click. frame.
Qed.

(** One turn of the loop, by what it adds. *)
Lemma loopBody_accounts (rounds : nat) (row : ProcessedRow) (i c : nat) (p : Page)
      (st : State W) :
  page st = Some p ->
  post (loopBody env this rounds row i c)
       (fun c' s =>
          exists new,
            trace s = (trace st ++ new)%list /\ page s = page st
            /\ c <= c' <= S c
            /\ filter isProgress new = [ReportTick]
            /\ filter isGoto new
               = if (0 <? i)%nat then [Goto p (invoicesUrl this)] else [])
       (fun _ _ => True) st.
Proof.
  intros Hp. unfold loopBody.
  apply post_bind, post_cases; [|auto].
  intros [] s1 E1.
  assert (A1 : exists n1,
             trace s1 = (trace st ++ n1)%list /\ page s1 = page st
             /\ filter isProgress n1 = []
             /\ filter isGoto n1
                = if (0 <? i)%nat then [Goto p (invoicesUrl this)] else []).
  { destruct (0 <? i)%nat.
    - apply navigateToInvoicesPage_returned with (p := p) in E1; [|exact Hp].
      destruct E1 as (T & P & _). exists (navigation this p). auto.
    - apply Ret_inj in E1 as [_ <-]. exists []. rewrite app_nil_r. auto. }
  destruct A1 as (n1 & T1 & P1 & G1 & Q1).
  apply post_bind, post_cases; [|auto].
  intros [] s2 E2.
  assert (A2 : exists n2,
             trace s2 = (trace s1 ++ n2)%list /\ page s2 = page s1
             /\ filter isProgress n2 = [] /\ filter isGoto n2 = []).
  { destruct (i =? 0)%nat.
    - apply Ret_inj in E2 as [_ <-]. exists [Report log (seperator env)]. cbn. auto.
    - apply Ret_inj in E2 as [_ <-]. exists []. rewrite app_nil_r. auto. }
  destruct A2 as (n2 & T2 & P2 & G2 & Q2).
  apply post_bind, post_tryCatch, post_bind. unfold post at 1, print at 1.
  apply post_bind.
  set (s3 := record (started row) s2).
  eapply post_weaken; [apply post_keeps, processRowItem_rowCall| |].
  - intros u s4 (n4 & T4 & F4 & P4 & _). cbn.
    exists (n1 ++ n2 ++ [started row] ++ n4
              ++ [ReportTick; Report log (seperator env)])%list.
    cbn [trace record]. rewrite T4. cbn [trace s3 record]. rewrite T2, T1.
    split; [now rewrite <- !app_assoc|].
    split; [cbn [page record]; rewrite P4; unfold s3; cbn [page record]; congruence|].
    rewrite !filter_app, G1, G2, Q1, Q2, (rowCall_progress F4), (rowCall_gotos F4).
    cbn. rewrite app_nil_r. repeat split; auto; lia.
  - intros e s4 (n4 & T4 & F4 & P4 & _). cbn.
    exists (n1 ++ n2 ++ [started row] ++ n4
              ++ [failed row; ReportTick; Report log (seperator env)])%list.
    cbn [trace record]. rewrite T4. cbn [trace s3 record]. rewrite T2, T1.
    split; [now rewrite <- !app_assoc|].
    split; [cbn [page record]; rewrite P4; unfold s3; cbn [page record]; congruence|].
    rewrite !filter_app, G1, G2, Q1, Q2, (rowCall_progress F4), (rowCall_gotos F4).
    cbn. rewrite app_nil_r. repeat split; auto; lia.
Qed.

Lemma downloadLoop_accounts (rounds : nat) (p : Page) (rows : list ProcessedRow) :
  forall i c st,
    page st = Some p ->
    post (downloadLoop env this rounds rows i c)
         (fun c' s =>
            exists new,
              trace s = (trace st ++ new)%list /\ page s = page st
              /\ c <= c' <= c + List.length rows
              /\ filter isProgress new = repeat ReportTick (List.length rows)
              /\ filter isGoto new
                 = repeat (Goto p (invoicesUrl this))
                          (List.length rows - if (0 <? i)%nat then 0 else 1))
         (fun _ _ => True) st.
Proof.
  induction rows as [|row rows IH]; intros i c st Hp; cbn [downloadLoop List.length].
  - apply post_ret. exists []. rewrite app_nil_r. cbn. repeat split; auto; lia.
  - apply post_bind.
    eapply post_weaken; [apply loopBody_accounts; exact Hp| |auto].
    intros c1 s1 (n1 & T1 & P1 & C1 & G1 & Q1). cbn beta.
    eapply post_weaken; [apply (IH (S i) c1 s1); congruence| |auto].
    intros c' s' (n2 & T2 & P2 & C2 & G2 & Q2). cbn beta.
    change (0 <? S i)%nat with true in Q2. rewrite Nat.sub_0_r in Q2.
    exists (n1 ++ n2)%list. rewrite T2, T1, <- app_assoc.
    split; [reflexivity|]. split; [congruence|]. split; [lia|].
    rewrite !filter_app, G1, G2, Q1, Q2. split; [reflexivity|].
    destruct i; cbn; rewrite ?Nat.sub_0_r; reflexivity.
Qed.

End Accounts.

Lemma extractions_gotos (this : Hunter) (p : Page) (n : nat) :
  forall i, filter isGoto (extractions this p i n) = [].
Proof. induction n as [|n IH]; intros i; [reflexivity|]. cbn. apply IH. Qed.

Lemma extractions_progress (this : Hunter) (p : Page) (n : nat) :
  forall i, filter isProgress (extractions this p i n) = [].
Proof. induction n as [|n IH]; intros i; [reflexivity|]. cbn. apply IH. Qed.

Section InvoicesAccounts.

Variable W : Type.
Variable env : Env W.
Variable this : Hunter.

(** What [downloadInvoices] has counted and called when it returns. *)
Lemma downloadInvoices_accounts (rounds : nat) (p : Page) (st st' : State W) (c : Counts) :
  page st = Some p ->
  downloadInvoices env this rounds st = Ret c st' ->
  downloaded c <= total c
  /\ total c = List.length (rowsToProcess st')
  /\ exists new,
      trace st' = (trace st ++ new)%list
      /\ filter isProgress new
         = (if (total c =? 0)%nat then []
            else ReportProgress (total c) :: repeat ReportTick (total c))
      /\ filter isGoto new = repeat (Goto p (invoicesUrl this)) (Nat.max 1 (total c)).
Proof.
  intros Hp H. unfold downloadInvoices in H. rewrite Hp in H.
  apply bind_Ret in H as ([] & s1 & E1 & H).
  apply bind_Ret in H as (rows & s2 & E2 & H).
  apply bind_Ret in H as ([] & s3 & E3 & H).
  apply navigateToInvoicesPage_returned with (p := p) in E1; [|exact Hp].
  apply call_returned in E2.
  pose proof (after_trans E1 E2) as A2. cbn [app navigation] in A2.
  assert (Hp2 : page s2 = Some p) by (destruct A2 as (_ & -> & _); exact Hp).
  unfold findAndSetRowsToProcess in E3.
  apply bind_Ret in E3 as (found & s2' & Efind & Eset).
  unfold findRowsToProcess in Efind. rewrite Hp2 in Efind.
  pose proof (findRowsLoop_calls env this p rows 0 [] s2) as A3. rewrite Efind in A3.
  pose proof (after_trans A2 A3) as A. cbn [app] in A.
  destruct A as (T & P & _).
  apply Ret_inj in Eset as [_ <-]. cbn [rowsToProcess] in H.
  set (s3 := mkState (world s2') (trace s2') found (browser s2') (page s2')) in *.
  assert (T3 : trace s3 = trace s2') by reflexivity.
  assert (P3 : page s3 = Some p) by (cbn; congruence).
  destruct found as [|r todo].
  - apply Ret_inj in H as [<- <-]. cbn [total downloaded rowsToProcess s3 List.length].
    split; [lia|]. split; [reflexivity|].
    eexists. split; [rewrite T3; exact T|].
    cbn [filter isProgress isGoto Nat.eqb Nat.max repeat].
    now rewrite extractions_gotos, extractions_progress.
  - apply bind_Ret in H as ([] & s4 & E4 & H). apply Ret_inj in E4 as [_ <-].
    apply bind_Ret in H as ([] & s5 & E5 & H). apply Ret_inj in E5 as [_ <-].
    apply bind_Ret in H as ([] & s6 & E6 & H). apply Ret_inj in E6 as [_ <-].
    apply bind_Ret in H as (n & s7 & Eloop & H). apply Ret_inj in H as [<- <-].
    set (s6 := record (ReportProgress (List.length (r :: todo))) _) in *.
    assert (P6 : page s6 = Some p) by (cbn; exact P3).
    pose proof (@downloadLoop_accounts W env this rounds p (r :: todo) 0 0 s6 P6) as L.
    unfold post in L. rewrite Eloop in L.
    destruct L as (nl & Tl & _ & Cl & Gl & Ql).
    pose proof (downloadLoop_sameRows env this rounds (r :: todo) 0 0 s6) as R.
    rewrite Eloop in R.
    cbn [total downloaded]. split; [lia|]. split; [rewrite R; reflexivity|].
    eexists. split.
    + rewrite Tl. unfold s6. cbn [trace record]. rewrite T3, T, <- !app_assoc. reflexivity.
    + cbn [List.length] in *. rewrite !filter_app, Gl, Ql.
      cbn [filter isProgress isGoto app Nat.eqb Nat.max Nat.ltb Nat.leb].
      rewrite extractions_gotos, extractions_progress.
      cbn [app Nat.sub]. rewrite Nat.sub_0_r. split; reflexivity.
Qed.

End InvoicesAccounts.

(** X9: when [downloadInvoices] returns, [downloaded] is at most [total],
    [total] is the number of rows in [rowsToProcess], and with no row to
    process both are zero. *)
Theorem downloadInvoices_counts W (env : Env W) (this : Hunter) (rounds : nat)
        (st st' : State W) (c : Counts) :
  downloadInvoices env this rounds st = Ret c st' ->
  downloaded c <= total c
  /\ total c = List.length (rowsToProcess st')
  /\ (total c = 0 -> downloaded c = 0).
Proof.
  intros H. destruct (page st) as [p|] eqn:Hp.
  - destruct (@downloadInvoices_accounts W env this rounds p st st' c Hp H) as (Hle & Hlen & _).
    repeat split; auto. lia.
  - unfold downloadInvoices in H. rewrite Hp in H. discriminate H.
Qed.

(** X10: the progress bar is created once, for [total] steps, and advanced
    once per row whether the row was saved or not; with no row to process
    it is not created at all. *)
Theorem downloadInvoices_ticks_once_per_row W (env : Env W) (this : Hunter)
        (rounds : nat) (p : Page) (st st' : State W) (c : Counts) :
  page st = Some p ->
  downloadInvoices env this rounds st = Ret c st' ->
  exists new,
    trace st' = (trace st ++ new)%list
    /\ filter isProgress new
       = if (total c =? 0)%nat then []
         else ReportProgress (total c) :: repeat ReportTick (total c).
Proof.
  intros Hp H.
  destruct (@downloadInvoices_accounts W env this rounds p st st' c Hp H) as (_ & _ & new & T & G & _).
  exists new. auto.
Qed.

(** X11: [downloadInvoices] opens the list view once before discovery and
    once more before each row but the first, and opens no other address:
    [max 1 total] times in all. *)
Theorem downloadInvoices_returns_to_the_list W (env : Env W) (this : Hunter)
        (rounds : nat) (p : Page) (st st' : State W) (c : Counts) :
  page st = Some p ->
  downloadInvoices env this rounds st = Ret c st' ->
  exists new,
    trace st' = (trace st ++ new)%list
    /\ filter isGoto new = repeat (Goto p (invoicesUrl this)) (Nat.max 1 (total c)).
Proof.
  intros Hp H.
  destruct (@downloadInvoices_accounts W env this rounds p st st' c Hp H) as (_ & _ & new & T & _ & Q).
  exists new. auto.
Qed.

(** X12: the return to the list view before a row is not inside the [try]
    of that row: when it raises, the loop raises with it, in the state the
    navigation left, and neither this row nor the rows after it are
    attempted. *)
Theorem downloadLoop_stops_when_navigation_raises W (env : Env W) (this : Hunter)
        (rounds : nat) (row : ProcessedRow) (rows : list ProcessedRow) (i c : nat)
        (st st' : State W) (e : Error) :
  0 < i ->
  navigateToInvoicesPage env this st = Throw e st' ->
  downloadLoop env this rounds (row :: rows) i c st = Throw e st'.
Proof.
  intros Hi Hnav. cbn [downloadLoop]. unfold bind at 1. unfold loopBody, bind at 1.
  replace (0 <? i)%nat with true by (symmetry; now apply Nat.ltb_lt).
  now rewrite Hnav.
Qed.

(** ** The ways out of [run] *)

Section RunPaths.

Variable W : Type.
Variable env : Env W.
Variable this : Hunter.

Lemma init_raised (st st' : State W) (e : Error) :
  init env this st = Throw e st' ->
  exists b p k,
    2 <= k <= 4 /\ trace st' = (trace st ++ firstn k (initCalls this b p))%list.
Proof.
  unfold init, bind, print, call, setBrowser, setPage, goto, call.
  cbn [world trace page browser rowsToProcess record withWorld].
  destruct (drvLaunch (driver env) (world st)) as [b w1|e1 w1].
  - cbn [world trace page browser rowsToProcess record withWorld].
    destruct (drvNewPage (driver env) b w1) as [p w2|e2 w2].
    + cbn [world trace page browser rowsToProcess record withWorld].
      destruct (drvGoto (driver env) p (rootPath this) w2) as [[] w3|e3 w3];
        [discriminate|].
      intros H. apply eq_sym in H. inversion H. exists b, p, 4. split; [lia|].
      cbn. now rewrite <- !app_assoc.
    + intros H. apply eq_sym in H. inversion H. exists b, 0, 3. split; [lia|].
      cbn. now rewrite <- !app_assoc.
  - intros H. apply eq_sym in H. inversion H. exists 0, 0, 2. split; [lia|].
    cbn. now rewrite <- !app_assoc.
Qed.

Lemma session_closed A (v : A) (p : Page) (b : Browser) (st : State W) :
  closesCleanly env -> page st = Some p -> browser st = Some b ->
  exists st',
    bind (closePage env) (fun _ => bind (closeBrowser env) (fun _ => ret v)) st = Ret v st'
    /\ trace st' = (trace st ++ [ClosePage p; CloseBrowser b])%list.
Proof.
  intros [Hpage Hbrowser] Hp Hb.
  unfold bind, closePage, closeBrowser, onPage, call, ret. rewrite Hp.
  destruct (Hpage p (world st)) as (w1 & ->).
  cbn [world trace page browser record withWorld]. rewrite Hb.
  destruct (Hbrowser b w1) as (w2 & ->).
  eexists. split; [reflexivity|].
  cbn [world trace page browser record withWorld]. now rewrite <- app_assoc.
Qed.

End RunPaths.

(** X13: when [init] raises, [run] raises the same error without closing
    anything: the calls made are the report, the launch of the browser
    and, as far as [init] got, the opening of the page and of the root
    address; a browser that was launched stays open. *)
Theorem run_leaves_browser_open_when_init_raises W (env : Env W) (this : Hunter)
        (rounds : nat) (st st' : State W) (e : Error) :
  init env this st = Throw e st' ->
  run env this rounds st = Throw e st'
  /\ exists b p k,
      2 <= k <= 4 /\ trace st' = (trace st ++ firstn k (initCalls this b p))%list.
Proof.
  intros H. split; [|exact (@init_raised W env this st st' e H)].
  unfold run, bind at 1. now rewrite H.
Qed.

(** X14: when [login] raises, [run] reports the failure, closes the page
    and then the browser, and returns; it makes no call after these, so
    neither the list view nor any invoice is asked for. *)
Theorem run_stops_after_login_failure W (env : Env W) (this : Hunter) (rounds : nat)
        (st s0 s2 : State W) (e : Error) :
  closesCleanly env ->
  init env this st = Ret tt s0 ->
  login env this (record (Report info "Trying to login...")
                         (record (Report info "Running...") s0)) = Throw e s2 ->
  exists p b st',
    page s0 = Some p /\ browser s0 = Some b
    /\ run env this rounds st = Ret None st'
    /\ trace st' = (trace s2 ++ [Report error "Failed to login with provided credentials";
                                 ClosePage p; CloseBrowser b])%list.
Proof.
  intros Hclose Hinit Hlogin.
  destruct (@init_returned W env this st s0 Hinit) as (p & b & P0 & B0).
  pose proof (login_notClose env this
                (record (Report info "Trying to login...")
                        (record (Report info "Running...") s0))) as G.
  rewrite Hlogin in G. destruct G as (_ & _ & _ & P2 & B2).
  cbn [page browser record] in P2, B2.
  destruct (@session_closed W env bool false p b
              (record (Report error "Failed to login with provided credentials") s2) Hclose)
    as (st' & Hclosed & T); [cbn; congruence | cbn; congruence |].
  exists p, b, st'. split; [exact P0|]. split; [exact B0|]. split.
  - rewrite (@run_after_init W env this rounds st s0 Hinit).
    unfold bind at 1, loginPhase, tryCatch. unfold bind at 1, print at 1.
    unfold bind at 1. rewrite Hlogin. unfold bind at 1, print at 1.
    rewrite Hclosed. reflexivity.
  - rewrite T. cbn [trace record]. now rewrite <- app_assoc.
Qed.

(** X15: an error raised by [downloadInvoices] does not leave [run]: it is
    reported as "Failed to download invoices" followed by its message,
    then the page and the browser are closed and [run] returns. *)
Theorem run_reports_download_error W (env : Env W) (this : Hunter) (rounds : nat)
        (st s0 s2 s3 : State W) (e : Error) :
  closesCleanly env ->
  init env this st = Ret tt s0 ->
  loginPhase env this (record (Report info "Running...") s0) = Ret true s2 ->
  downloadInvoices env this rounds (record (Report info "Downloading invoices") s2)
  = Throw e s3 ->
  exists p b st',
    page s0 = Some p /\ browser s0 = Some b
    /\ run env this rounds st = Ret None st'
    /\ trace st' = (trace s3 ++ [Report error "Failed to download invoices";
                                 Report error (message e);
                                 ClosePage p; CloseBrowser b])%list.
Proof.
  intros Hclose Hinit Hlogin Hdown.
  destruct (@init_returned W env this st s0 Hinit) as (p & b & P0 & B0).
  pose proof (@loginPhase_outcome W env this p b (record (Report info "Running...") s0)
                Hclose P0 B0) as G2.
  unfold post in G2. rewrite Hlogin in G2. destruct G2 as (_ & _ & _ & P2 & B2).
  cbn [page browser record] in P2, B2.
  pose proof (downloadInvoices_notClose env this rounds
                (record (Report info "Downloading invoices") s2)) as G3.
  rewrite Hdown in G3. destruct G3 as (_ & _ & _ & P3 & B3).
  cbn [page browser record] in P3, B3.
  destruct (@session_closed W env (option Counts) None p b
              (record (Report error (message e))
                      (record (Report error "Failed to download invoices") s3)) Hclose)
    as (st' & Hclosed & T); [cbn; congruence | cbn; congruence |].
  exists p, b, st'. split; [exact P0|]. split; [exact B0|]. split.
  - rewrite (@run_after_init W env this rounds st s0 Hinit).
    unfold bind at 1. rewrite Hlogin.
    unfold bind at 1, downloadPhase, tryCatch. unfold bind at 1, print at 1.
    unfold bind at 1. rewrite Hdown. unfold bind at 1, print at 1, print at 1.
    exact Hclosed.
  - rewrite T. cbn [trace record]. now rewrite <- !app_assoc.
Qed.

(** X17: when [downloadInvoices] returns its counts, [run] hands them to
    the reporter in one message, closes the page and then the browser, and
    returns; the counts go nowhere else. *)
Theorem run_reports_counts_then_closes W (env : Env W) (this : Hunter) (rounds : nat)
        (st s0 s2 s3 : State W) (c : Counts) :
  closesCleanly env ->
  init env this st = Ret tt s0 ->
  loginPhase env this (record (Report info "Running...") s0) = Ret true s2 ->
  downloadInvoices env this rounds (record (Report info "Downloading invoices") s2)
  = Ret c s3 ->
  exists p b msg type st',
    page s0 = Some p /\ browser s0 = Some b
    /\ reportCounts c s3 = Ret tt (record (Report type msg) s3)
    /\ run env this rounds st = Ret None st'
    /\ trace st' = (trace s3 ++ [Report type msg; ClosePage p; CloseBrowser b])%list.
Proof.
  intros Hclose Hinit Hlogin Hdown.
  destruct (@init_returned W env this st s0 Hinit) as (p & b & P0 & B0).
  pose proof (@loginPhase_outcome W env this p b (record (Report info "Running...") s0)
                Hclose P0 B0) as G2.
  unfold post in G2. rewrite Hlogin in G2. destruct G2 as (_ & _ & _ & P2 & B2).
  cbn [page browser record] in P2, B2.
  pose proof (downloadInvoices_notClose env this rounds
                (record (Report info "Downloading invoices") s2)) as G3.
  rewrite Hdown in G3. destruct G3 as (_ & _ & _ & P3 & B3).
  cbn [page browser record] in P3, B3.
  assert (Hreport : exists msg type, reportCounts c s3 = Ret tt (record (Report type msg) s3)).
  { unfold reportCounts. destruct (0 <? total c)%nat; eexists; eexists; reflexivity. }
  destruct Hreport as (msg & type & Hreport).
  destruct (@session_closed W env (option Counts) None p b (record (Report type msg) s3) Hclose)
    as (st' & Hclosed & T); [cbn; congruence | cbn; congruence |].
  exists p, b, msg, type, st'.
  split; [exact P0|]. split; [exact B0|]. split; [exact Hreport|]. split.
  - rewrite (@run_after_init W env this rounds st s0 Hinit).
    unfold bind at 1. rewrite Hlogin.
    unfold bind at 1, downloadPhase, tryCatch. unfold bind at 1, print at 1.
    unfold bind at 1. rewrite Hdown, Hreport. exact Hclosed.
  - rewrite T. cbn [trace record]. now rewrite <- !app_assoc.
Qed.

(** ** Files touched during a run *)

Lemma initCall_within W (env : Env W) (this : Hunter) (ev : Event) :
  initCall ev -> within env this ev.
Proof. destruct ev; cbn; auto; contradiction. Qed.

Section RunWithin.

Variable W : Type.
Variable env : Env W.
Variable this : Hunter.

Local Abbreviation ok := (within env this).

Lemma login_within : keeps ok (login env this).
Proof. unfold login, goto, typeText, click, waitForTimeout. frame. Qed.

Lemma navigateToInvoicesPage_within : keeps ok (navigateToInvoicesPage env this).
Proof. unfold navigateToInvoicesPage, goto, waitForSelector. frame. Qed.

Lemma processRowItem_within (rounds : nat) (row : ProcessedRow) :
  keeps ok (processRowItem env this rounds row).
Proof.
  pose proof (@waitUntilFileIsDownloaded_keeps W env ok rounds
                (downloadDir this ++ "/" ++ fileName this) I (fun _ => I)).
  assert (keeps ok
            (call (Rename (downloadDir this ++ "/" ++ fileName this)
                          (downloadDir this ++ "/" ++ newFileName env this row))
                  (fsRename (driver env) (downloadDir this ++ "/" ++ fileName this)
                            (downloadDir this ++ "/" ++ newFileName env this row)))).
  { apply keeps_call. split; [reflexivity | exists row; reflexivity]. }
  unfold processRowItem, saveInvoice, waitForSelector, click. frame.
Qed.

Lemma findRowsLoop_within (p : Page) (rows : list ElementHandle) :
  forall i result, keeps ok (findRowsLoop env this p rows i result).
Proof.
  induction rows as [|r rows IH]; intros i result; cbn [findRowsLoop].
  - frame.
  - apply keeps_bind; [frame|]. intros text. apply keeps_if; apply IH.
Qed.

Lemma findAndSetRowsToProcess_within (rows : list ElementHandle) :
  keeps ok (findAndSetRowsToProcess env this rows).
Proof.
  unfold findAndSetRowsToProcess, findRowsToProcess.
  apply keeps_bind; [|frame].
  apply keeps_byPage; [intros p; apply findRowsLoop_within|].
  intros st. apply grows_refl.
Qed.

Lemma loopBody_within (rounds : nat) (row : ProcessedRow) (i c : nat) :
  keeps ok (loopBody env this rounds row i c).
Proof.
  pose proof (processRowItem_within rounds row).
  pose proof navigateToInvoicesPage_within.
  unfold loopBody. frame.
Qed.

Lemma downloadLoop_within (rounds : nat) (rows : list ProcessedRow) :
  forall i c, keeps ok (downloadLoop env this rounds rows i c).
Proof.
  induction rows as [|row rows IH]; intros i c; cbn [downloadLoop].
  - frame.
  - apply keeps_bind; [apply loopBody_within | intros n; apply IH].
Qed.

Lemma downloadInvoices_within (rounds : nat) :
  keeps ok (downloadInvoices env this rounds).
Proof.
  pose proof navigateToInvoicesPage_within.
  unfold downloadInvoices.
  apply keeps_byPage; [intros p | intros st; apply grows_refl].
  apply keeps_bind; [assumption | intros _].
  apply keeps_bind; [frame | intros rows].
  apply keeps_bind; [apply findAndSetRowsToProcess_within | intros _].
  intros st. destruct (rowsToProcess st) as [|r todo] eqn:E; [apply grows_refl|].
  revert st E.
  assert (H0 : forall l, keeps ok
    (bind (print (W := W) ("Found " ++ Js.ofNat (List.length l) ++ " invoices") info) (fun _ =>
     bind (printWithFilepath "Saving invoices to" (downloadDir this) None) (fun _ =>
     bind (fun st2 => Ret tt (record (ReportProgress (List.length l)) st2)) (fun _ =>
     bind (downloadLoop env this rounds l 0 0) (fun n =>
     ret (mkCounts (List.length l) n))))))).
  { intros l. pose proof (downloadLoop_within rounds l 0 0). frame. }
  intros st E. apply (H0 (r :: todo)).
Qed.

Lemma closeBrowser_within : keeps ok (closeBrowser env).
Proof.
  intros st. unfold closeBrowser. destruct (browser st) as [b|]; [|apply grows_refl].
  apply keeps_call. exact I.
Qed.

Lemma run_after_init_within (rounds : nat) :
  keeps ok
    (bind (print (W := W) "Running..." info) (fun _ =>
     bind (loginPhase env this) (fun loggedIn : bool =>
       if loggedIn
       then bind (downloadPhase env this rounds)
                 (fun _ => bind (closePage env)
                                (fun _ => bind (closeBrowser env) (fun _ => ret None)))
       else ret (A := option Counts) None))).
Proof.
  pose proof login_within. pose proof closeBrowser_within.
  pose proof (downloadInvoices_within rounds).
  unfold loginPhase, downloadPhase, closePage, reportCounts. frame.
Qed.

Lemma init_calls (st : State W) :
  match init env this st with
  | Ret _ st' => exists new, trace st' = (trace st ++ new)%list /\ Forall initCall new
  | Throw _ st' => exists new, trace st' = (trace st ++ new)%list /\ Forall initCall new
  | Pending => False
  end.
Proof.
  unfold init, bind, print, call, setBrowser, setPage, goto, call.
  cbn [world trace page browser rowsToProcess record withWorld].
  destruct (drvLaunch (driver env) (world st)) as [b w1|e1 w1];
    cbn [world trace page browser rowsToProcess record withWorld].
  - destruct (drvNewPage (driver env) b w1) as [p w2|e2 w2];
      cbn [world trace page browser rowsToProcess record withWorld].
    + destruct (drvGoto (driver env) p (rootPath this) w2) as [[] w3|e3 w3];
        exists (initCalls this b p); cbn; rewrite <- !app_assoc;
        (split; [reflexivity | repeat constructor]).
    + exists (firstn 3 (initCalls this b 0)). cbn. rewrite <- !app_assoc.
      split; [reflexivity | repeat constructor].
  - exists (firstn 2 (initCalls this 0 0)). cbn. rewrite <- !app_assoc.
    split; [reflexivity | repeat constructor].
Qed.

End RunWithin.

(** X16: in a whole [run], whatever raises, downloads are only ever sent to
    the directory of the object, the only file renamed is the downloaded
    [<invoice name>.<extension>] of that directory, and the path it is
    renamed to is that directory, a [/] and the new file name of a record
    (a path of that directory when the new file name is an entry name). *)
Theorem run_touches_its_directory_only W (env : Env W) (this : Hunter) (rounds : nat)
        (st : State W) :
  match run env this rounds st with
  | Ret _ st' =>
      exists new, trace st' = (trace st ++ new)%list /\ Forall (within env this) new
  | Throw _ st' =>
      exists new, trace st' = (trace st ++ new)%list /\ Forall (within env this) new
  | Pending => True
  end.
Proof.
  unfold run, bind at 1.
  pose proof (init_calls env this st) as I0.
  destruct (init env this st) as [[] s0|e s0|]; [| |contradiction].
  - destruct I0 as (n0 & T0 & F0).
    pose proof (run_after_init_within env this rounds s0) as K.
    match goal with
    | |- match ?m with _ => _ end =>
        match type of K with match ?m' with _ => _ end => change m with m' end
    end.
    destruct (bind _ _ s0) as [v s|e s|]; auto;
      destruct K as (n1 & T1 & F1 & _);
      exists (n0 ++ n1)%list; rewrite T1, T0, <- app_assoc;
      (split; [reflexivity|]); apply Forall_app; split; auto;
      (eapply Forall_impl; [|exact F0]); intros ev; apply initCall_within.
  - destruct I0 as (n0 & T0 & F0). exists n0. split; [exact T0|].
    eapply Forall_impl; [|exact F0]. intros ev; apply initCall_within.
Qed.

(** ** Further worked examples *)

Lemma findRowsToProcess_keeps_order_witness :
  page Sim.listView = Some 1
  /\ findRowsToProcess Sim.calm Sim.ana Sim.rows Sim.listView
     = Ret [Sim.march5Row; Sim.may7Row]
           (Sim.stateOf (findRowsToProcess Sim.calm Sim.ana Sim.rows Sim.listView) Sim.listView)
  /\ exists texts,
      readDateCells Sim.calm Sim.ana 1 Sim.rows 0 Sim.listView
      = Ret texts
            (Sim.stateOf (findRowsToProcess Sim.calm Sim.ana Sim.rows Sim.listView) Sim.listView)
      /\ List.length texts = List.length Sim.rows
      /\ [Sim.march5Row; Sim.may7Row]
         = map (fun it => candidate Sim.calm Sim.ana (fst it) (snd it))
               (filter (fun it => Moment.isBefore (lastInvoiceDate Sim.ana)
                                    (parsedDate Sim.calm Sim.ana (snd it)))
                       (indexed 0 texts))
      /\ List.length [Sim.march5Row; Sim.may7Row] <= List.length Sim.rows.
Proof.
  assert (Hp : page Sim.listView = Some 1) by reflexivity.
  assert (H : findRowsToProcess Sim.calm Sim.ana Sim.rows Sim.listView
              = Ret [Sim.march5Row; Sim.may7Row]
                    (Sim.stateOf (findRowsToProcess Sim.calm Sim.ana Sim.rows Sim.listView)
                                 Sim.listView))
    by (vm_compute; reflexivity).
  split; [exact Hp|]. split; [exact H|].
  exact (@findRowsToProcess_keeps_order _ Sim.calm Sim.ana Sim.rows 1 Sim.listView _ _ Hp H).
Defined.


Lemma waitUntilFileIsDownloaded_returns_when_found_witness :
  page Sim.downloading = Some 1
  /\ waitUntilFileIsDownloaded Sim.calm 10 Sim.awaited Sim.downloading
     = Ret tt (Sim.stateOf (waitUntilFileIsDownloaded Sim.calm 10 Sim.awaited Sim.downloading)
                           Sim.downloading)
  /\ exists k,
      k < 10
      /\ (forall j, j < k ->
            fsPathExists (driver Sim.calm) Sim.awaited
              (afterWaits (driver Sim.calm) 1 j (world Sim.downloading)) = false)
      /\ fsPathExists (driver Sim.calm) Sim.awaited
           (afterWaits (driver Sim.calm) 1 k (world Sim.downloading)) = true
      /\ Sim.stateOf (waitUntilFileIsDownloaded Sim.calm 10 Sim.awaited Sim.downloading)
                     Sim.downloading
         = polled (driver Sim.calm) 1 Sim.awaited k Sim.downloading.
Proof.
  assert (H : waitUntilFileIsDownloaded Sim.calm 10 Sim.awaited Sim.downloading
              = Ret tt (Sim.stateOf (waitUntilFileIsDownloaded Sim.calm 10 Sim.awaited
                                       Sim.downloading) Sim.downloading))
    by (vm_compute; reflexivity).
  split; [reflexivity|]. split; [exact H|].
  exact (@waitUntilFileIsDownloaded_returns_when_found _ Sim.calm 1 Sim.awaited 10
           Sim.downloading _ eq_refl H).
Defined.

Lemma saveInvoice_calls_in_order_witness :
  page Sim.listView = Some 1
  /\ saveInvoice Sim.calm Sim.ana 10 "/out/endesa/" Sim.march5Row Sim.listView
     = Ret tt (Sim.stateOf (saveInvoice Sim.calm Sim.ana 10 "/out/endesa/" Sim.march5Row
                              Sim.listView) Sim.listView)
  /\ exists k,
      k < 10
      /\ after (downloadRequest Sim.ana 1 "/out/endesa/"
                  ++ polls 1 ("/out/endesa/" ++ "/" ++ fileName Sim.ana) k
                  ++ [PathExists ("/out/endesa/" ++ "/" ++ fileName Sim.ana);
                      Report success "Invoice saved";
                      Rename ("/out/endesa/" ++ "/" ++ fileName Sim.ana)
                             ("/out/endesa/" ++ "/" ++ newFileName Sim.calm Sim.ana Sim.march5Row);
                      ReportWithFilepath "Invoice renamed to"
                        (newFileName Sim.calm Sim.ana Sim.march5Row) (Some success)])
               Sim.listView
               (Sim.stateOf (saveInvoice Sim.calm Sim.ana 10 "/out/endesa/" Sim.march5Row
                               Sim.listView) Sim.listView).
Proof.
  assert (H : saveInvoice Sim.calm Sim.ana 10 "/out/endesa/" Sim.march5Row Sim.listView
              = Ret tt (Sim.stateOf (saveInvoice Sim.calm Sim.ana 10 "/out/endesa/"
                                       Sim.march5Row Sim.listView) Sim.listView))
    by (vm_compute; reflexivity).
  split; [reflexivity|]. split; [exact H|].
  exact (@saveInvoice_calls_in_order _ Sim.calm Sim.ana 10 "/out/endesa/" Sim.march5Row 1
           Sim.listView _ eq_refl H).
Defined.


Lemma methods_raise_without_page_witness :
  page Sim.start = None
  /\ login Sim.calm Sim.ana Sim.start
     = Throw (mkError "Missing init call")
             (record (Report error "Login called without initializing") Sim.start)
  /\ downloadInvoices Sim.calm Sim.ana 10 Sim.start
     = Throw (mkError "Missing init call") Sim.start
  /\ findRowsToProcess Sim.calm Sim.ana Sim.rows Sim.start
     = Throw (mkError "Page not initialized") Sim.start.
Proof.
  split; [reflexivity|].
  exact (@methods_raise_without_page _ Sim.calm Sim.ana 10 Sim.rows Sim.start eq_refl).
Defined.

Lemma downloadInvoices_counts_witness :
  downloadInvoices Sim.calm Sim.ana 10 Sim.listView
  = Ret (mkCounts 2 2)
        (Sim.stateOf (downloadInvoices Sim.calm Sim.ana 10 Sim.listView) Sim.listView)
  /\ downloaded (mkCounts 2 2) <= total (mkCounts 2 2)
  /\ total (mkCounts 2 2)
     = List.length (rowsToProcess (Sim.stateOf (downloadInvoices Sim.calm Sim.ana 10 Sim.listView)
                                               Sim.listView))
  /\ (total (mkCounts 2 2) = 0 -> downloaded (mkCounts 2 2) = 0).
Proof.
  assert (H : downloadInvoices Sim.calm Sim.ana 10 Sim.listView
              = Ret (mkCounts 2 2)
                    (Sim.stateOf (downloadInvoices Sim.calm Sim.ana 10 Sim.listView)
                                 Sim.listView))
    by (vm_compute; reflexivity).
  split; [exact H|].
  exact (@downloadInvoices_counts _ Sim.calm Sim.ana 10 Sim.listView _ _ H).
Defined.

Lemma downloadInvoices_ticks_once_per_row_witness :
  page Sim.listView = Some 1
  /\ downloadInvoices (Sim.env (Sim.setup Sim.thirdRowStuck)) Sim.ana 10 Sim.listView
     = Ret (mkCounts 2 1)
           (Sim.stateOf (downloadInvoices (Sim.env (Sim.setup Sim.thirdRowStuck)) Sim.ana 10
                           Sim.listView) Sim.listView)
  /\ exists new,
      trace (Sim.stateOf (downloadInvoices (Sim.env (Sim.setup Sim.thirdRowStuck)) Sim.ana 10
                            Sim.listView) Sim.listView)
      = (trace Sim.listView ++ new)%list
      /\ filter isProgress new = [ReportProgress 2; ReportTick; ReportTick].
Proof.
  assert (H : downloadInvoices (Sim.env (Sim.setup Sim.thirdRowStuck)) Sim.ana 10 Sim.listView
              = Ret (mkCounts 2 1)
                    (Sim.stateOf (downloadInvoices (Sim.env (Sim.setup Sim.thirdRowStuck))
                                    Sim.ana 10 Sim.listView) Sim.listView))
    by (vm_compute; reflexivity).
  split; [reflexivity|]. split; [exact H|].
  exact (@downloadInvoices_ticks_once_per_row _ (Sim.env (Sim.setup Sim.thirdRowStuck)) Sim.ana
           10 1 Sim.listView _ _ eq_refl H).
Defined.

Lemma downloadInvoices_returns_to_the_list_witness :
  page Sim.listView = Some 1
  /\ downloadInvoices Sim.calm Sim.ana 10 Sim.listView
     = Ret (mkCounts 2 2)
           (Sim.stateOf (downloadInvoices Sim.calm Sim.ana 10 Sim.listView) Sim.listView)
  /\ exists new,
      trace (Sim.stateOf (downloadInvoices Sim.calm Sim.ana 10 Sim.listView) Sim.listView)
      = (trace Sim.listView ++ new)%list
      /\ filter isGoto new
         = [Goto 1 "https://portal.example/invoices"; Goto 1 "https://portal.example/invoices"].
Proof.
  assert (H : downloadInvoices Sim.calm Sim.ana 10 Sim.listView
              = Ret (mkCounts 2 2)
                    (Sim.stateOf (downloadInvoices Sim.calm Sim.ana 10 Sim.listView)
                                 Sim.listView))
    by (vm_compute; reflexivity).
  split; [reflexivity|]. split; [exact H|].
  exact (@downloadInvoices_returns_to_the_list _ Sim.calm Sim.ana 10 1 Sim.listView _ _
           eq_refl H).
Defined.

Lemma downloadLoop_stops_when_navigation_raises_witness :
  0 < 1
  /\ navigateToInvoicesPage (Sim.env (Sim.setup Faults.listViewDown)) Sim.ana Sim.listView
     = Throw Sim.injected
             (Sim.stateOf (navigateToInvoicesPage (Sim.env (Sim.setup Faults.listViewDown))
                             Sim.ana Sim.listView) Sim.listView)
  /\ downloadLoop (Sim.env (Sim.setup Faults.listViewDown)) Sim.ana 10
                  [Sim.may7Row] 1 1 Sim.listView
     = Throw Sim.injected
             (Sim.stateOf (navigateToInvoicesPage (Sim.env (Sim.setup Faults.listViewDown))
                             Sim.ana Sim.listView) Sim.listView).
Proof.
  assert (H : navigateToInvoicesPage (Sim.env (Sim.setup Faults.listViewDown)) Sim.ana
                                     Sim.listView
              = Throw Sim.injected
                      (Sim.stateOf (navigateToInvoicesPage
                                      (Sim.env (Sim.setup Faults.listViewDown))
                                      Sim.ana Sim.listView) Sim.listView))
    by (vm_compute; reflexivity).
  split; [lia|]. split; [exact H|].
  exact (@downloadLoop_stops_when_navigation_raises _ (Sim.env (Sim.setup Faults.listViewDown))
           Sim.ana 10 Sim.may7Row [] 1 1 Sim.listView _ _ (Nat.lt_0_succ 0) H).
Defined.

Lemma run_leaves_browser_open_when_init_raises_witness :
  init (Sim.env (Sim.setup Faults.rootDown)) Sim.ana Sim.start
  = Throw Sim.injected
          (Sim.stateOf (init (Sim.env (Sim.setup Faults.rootDown)) Sim.ana Sim.start) Sim.start)
  /\ run (Sim.env (Sim.setup Faults.rootDown)) Sim.ana 10 Sim.start
     = Throw Sim.injected
             (Sim.stateOf (init (Sim.env (Sim.setup Faults.rootDown)) Sim.ana Sim.start)
                          Sim.start)
  /\ exists b p k,
      2 <= k <= 4
      /\ trace (Sim.stateOf (init (Sim.env (Sim.setup Faults.rootDown)) Sim.ana Sim.start)
                            Sim.start)
         = (trace Sim.start ++ firstn k (initCalls Sim.ana b p))%list.
Proof.
  assert (H : init (Sim.env (Sim.setup Faults.rootDown)) Sim.ana Sim.start
              = Throw Sim.injected
                      (Sim.stateOf (init (Sim.env (Sim.setup Faults.rootDown)) Sim.ana Sim.start)
                                   Sim.start))
    by (vm_compute; reflexivity).
  split; [exact H|].
  exact (@run_leaves_browser_open_when_init_raises _ (Sim.env (Sim.setup Faults.rootDown))
           Sim.ana 10 Sim.start _ _ H).
Defined.

Lemma run_stops_after_login_failure_witness :
  closesCleanly (Sim.env (Sim.setup Sim.loginRefused))
  /\ init (Sim.env (Sim.setup Sim.loginRefused)) Sim.ana Sim.start
     = Ret tt (Sim.stateOf (init (Sim.env (Sim.setup Sim.loginRefused)) Sim.ana Sim.start)
                           Sim.start)
  /\ exists s2 p b st',
      login (Sim.env (Sim.setup Sim.loginRefused)) Sim.ana
            (record (Report info "Trying to login...")
               (record (Report info "Running...")
                  (Sim.stateOf (init (Sim.env (Sim.setup Sim.loginRefused)) Sim.ana Sim.start)
                               Sim.start)))
      = Throw Sim.injected s2
      /\ page (Sim.stateOf (init (Sim.env (Sim.setup Sim.loginRefused)) Sim.ana Sim.start)
                           Sim.start) = Some p
      /\ browser (Sim.stateOf (init (Sim.env (Sim.setup Sim.loginRefused)) Sim.ana Sim.start)
                              Sim.start) = Some b
      /\ run (Sim.env (Sim.setup Sim.loginRefused)) Sim.ana 10 Sim.start = Ret None st'
      /\ trace st' = (trace s2 ++ [Report error "Failed to login with provided credentials";
                                   ClosePage p; CloseBrowser b])%list.
Proof.
  assert (Hclose : closesCleanly (Sim.env (Sim.setup Sim.loginRefused))).
  { split; intros x w; eexists; reflexivity. }
  assert (Hinit : init (Sim.env (Sim.setup Sim.loginRefused)) Sim.ana Sim.start
                  = Ret tt (Sim.stateOf (init (Sim.env (Sim.setup Sim.loginRefused)) Sim.ana
                                           Sim.start) Sim.start))
    by (vm_compute; reflexivity).
  assert (Hlogin :
            login (Sim.env (Sim.setup Sim.loginRefused)) Sim.ana
                  (record (Report info "Trying to login...")
                     (record (Report info "Running...")
                        (Sim.stateOf (init (Sim.env (Sim.setup Sim.loginRefused)) Sim.ana
                                        Sim.start) Sim.start)))
            = Throw Sim.injected
                (Sim.stateOf
                   (login (Sim.env (Sim.setup Sim.loginRefused)) Sim.ana
                      (record (Report info "Trying to login...")
                         (record (Report info "Running...")
                            (Sim.stateOf (init (Sim.env (Sim.setup Sim.loginRefused)) Sim.ana
                                            Sim.start) Sim.start)))) Sim.start))
    by (vm_compute; reflexivity).
  split; [exact Hclose|]. split; [exact Hinit|].
  destruct (@run_stops_after_login_failure _ (Sim.env (Sim.setup Sim.loginRefused)) Sim.ana 10
              Sim.start _ _ _ Hclose Hinit Hlogin) as (p & b & st' & P & B & R & T).
  eexists. exists p, b, st'. split; [exact Hlogin|]. auto.
Defined.

Lemma run_reports_download_error_witness :
  closesCleanly (Sim.env (Sim.setup Faults.listViewDown))
  /\ init (Sim.env (Sim.setup Faults.listViewDown)) Sim.ana Sim.start
     = Ret tt (Sim.stateOf (init (Sim.env (Sim.setup Faults.listViewDown)) Sim.ana Sim.start)
                           Sim.start)
  /\ exists s2 s3 p b st',
      loginPhase (Sim.env (Sim.setup Faults.listViewDown)) Sim.ana
                 (record (Report info "Running...")
                    (Sim.stateOf (init (Sim.env (Sim.setup Faults.listViewDown)) Sim.ana
                                    Sim.start) Sim.start))
      = Ret true s2
      /\ downloadInvoices (Sim.env (Sim.setup Faults.listViewDown)) Sim.ana 10
                          (record (Report info "Downloading invoices") s2)
         = Throw Sim.injected s3
      /\ run (Sim.env (Sim.setup Faults.listViewDown)) Sim.ana 10 Sim.start = Ret None st'
      /\ trace st' = (trace s3 ++ [Report error "Failed to download invoices";
                                   Report error (message Sim.injected);
                                   ClosePage p; CloseBrowser b])%list.
Proof.
  assert (Hclose : closesCleanly (Sim.env (Sim.setup Faults.listViewDown))).
  { split; intros x w; eexists; reflexivity. }
  assert (Hinit : init (Sim.env (Sim.setup Faults.listViewDown)) Sim.ana Sim.start
                  = Ret tt (Sim.stateOf (init (Sim.env (Sim.setup Faults.listViewDown)) Sim.ana
                                           Sim.start) Sim.start))
    by (vm_compute; reflexivity).
  pose (s1 := record (Report info "Running...")
                (Sim.stateOf (init (Sim.env (Sim.setup Faults.listViewDown)) Sim.ana Sim.start)
                             Sim.start)).
  pose (s2 := Sim.stateOf (loginPhase (Sim.env (Sim.setup Faults.listViewDown)) Sim.ana s1)
                          Sim.start).
  assert (Hlogin : loginPhase (Sim.env (Sim.setup Faults.listViewDown)) Sim.ana s1 = Ret true s2)
    by (vm_compute; reflexivity).
  pose (s3 := Sim.stateOf (downloadInvoices (Sim.env (Sim.setup Faults.listViewDown)) Sim.ana 10
                             (record (Report info "Downloading invoices") s2)) Sim.start).
  assert (Hdown : downloadInvoices (Sim.env (Sim.setup Faults.listViewDown)) Sim.ana 10
                    (record (Report info "Downloading invoices") s2)
                  = Throw Sim.injected s3)
    by (vm_compute; reflexivity).
  split; [exact Hclose|]. split; [exact Hinit|].
  destruct (@run_reports_download_error _ (Sim.env (Sim.setup Faults.listViewDown)) Sim.ana 10
              Sim.start _ s2 s3 Sim.injected Hclose Hinit Hlogin Hdown)
    as (p & b & st' & _ & _ & R & T).
  exists s2, s3, p, b, st'. auto.
Defined.

Lemma run_reports_counts_then_closes_witness :
  closesCleanly Sim.calm
  /\ init Sim.calm Sim.ana Sim.start
     = Ret tt (Sim.stateOf (init Sim.calm Sim.ana Sim.start) Sim.start)
  /\ exists s2 s3 p b msg type st',
      loginPhase Sim.calm Sim.ana
                 (record (Report info "Running...")
                    (Sim.stateOf (init Sim.calm Sim.ana Sim.start) Sim.start))
      = Ret true s2
      /\ downloadInvoices Sim.calm Sim.ana 10 (record (Report info "Downloading invoices") s2)
         = Ret (mkCounts 2 2) s3
      /\ reportCounts (mkCounts 2 2) s3 = Ret tt (record (Report type msg) s3)
      /\ run Sim.calm Sim.ana 10 Sim.start = Ret None st'
      /\ trace st' = (trace s3 ++ [Report type msg; ClosePage p; CloseBrowser b])%list.
Proof.
  assert (Hclose : closesCleanly Sim.calm).
  { split; intros x w; eexists; reflexivity. }
  assert (Hinit : init Sim.calm Sim.ana Sim.start
                  = Ret tt (Sim.stateOf (init Sim.calm Sim.ana Sim.start) Sim.start))
    by (vm_compute; reflexivity).
  pose (s1 := record (Report info "Running...")
                (Sim.stateOf (init Sim.calm Sim.ana Sim.start) Sim.start)).
  pose (s2 := Sim.stateOf (loginPhase Sim.calm Sim.ana s1) Sim.start).
  assert (Hlogin : loginPhase Sim.calm Sim.ana s1 = Ret true s2)
    by (vm_compute; reflexivity).
  pose (s3 := Sim.stateOf (downloadInvoices Sim.calm Sim.ana 10
                             (record (Report info "Downloading invoices") s2)) Sim.start).
  assert (Hdown : downloadInvoices Sim.calm Sim.ana 10
                    (record (Report info "Downloading invoices") s2)
                  = Ret (mkCounts 2 2) s3)
    by (vm_compute; reflexivity).
  split; [exact Hclose|]. split; [exact Hinit|].
  destruct (@run_reports_counts_then_closes _ Sim.calm Sim.ana 10 Sim.start _ s2 s3
              (mkCounts 2 2) Hclose Hinit Hlogin Hdown)
    as (p & b & msg & type & st' & _ & _ & Hrep & R & T).
  exists s2, s3, p, b, msg, type, st'. auto.
Defined.
